(** * The notification decision pipeline of email_agent, embedded and verified

    The development follows the Python sources module by module:
    [config.py], [input_validator.py], [history_store.py],
    [duplicate_detector.py], [rule_engine.py], [llm_classifier.py],
    [scheduler.py], [logger.py], [decision_engine.py] and the batch route
    of [app.py].

    Modelling conventions.
    - A Python [str] is a [string]; a dict with a fixed set of keys is a
      record, a key that may be absent is an [option] field.  The rule
      action's [downgrade] dict and the per-user store are finite maps.
    - A [datetime] is its wall-clock reading in microseconds together with
      its UTC offset, absent for a naive value.  [hour], [date], [replace]
      and [+ timedelta] act on the wall clock; two aware values compare by
      their UTC instants, two naive values by their wall clocks, and
      comparing an aware with a naive value raises [TypeError], as in
      Python.  The calendar bounds of [datetime] (years 1..9999) are not
      modelled.
    - Code that may raise returns a [raising] value; [process_event]
      returns what it returned or raised together with the state it left.
    - Python floats are IEEE binary64 values: [float] with the primitive
      operations.
    - The engine is stateful: every method takes the state it reads and
      returns the state it leaves.  The wall clock ([datetime.now]) and the
      identifier drawn by [uuid.uuid4] are inputs of [process_event]; one
      clock reading serves a whole call.
    - Calls into the Python library whose behaviour depends on Unicode
      tables, regular expressions or ISO-8601 text are fields of the class
      [PyLib]; [ascii_lib] implements them for ASCII text. *)

From Stdlib Require Import ZArith Floats Uint63 String Ascii List Bool Lia Sorted.
From stdpp Require Import gmap strings list fin_maps.

#[local] Set Warnings "-inexact-float".
#[local] Open Scope string_scope.
#[local] Open Scope list_scope.
#[local] Open Scope nat_scope.

(** ** Python values shared by all modules *)

Module py.

(** Exceptions that escape the pipeline. *)
Inductive exception :=
| TypeError.

(** A computation that returns a value or raises. *)
Inductive raising (A : Type) :=
| Return (a : A)
| Raise (e : exception).
Arguments Return {A} a.
Arguments Raise {A} e.

Definition bind {A B : Type} (c : raising A) (k : A -> raising B) : raising B :=
  match c with
  | Return a => k a
  | Raise e => Raise e
  end.

Notation "'let!' x ':=' c 'in' k" := (bind c (fun x => k))
  (at level 10, x name, c at level 100, k at level 200).

(** [datetime]: wall-clock microseconds and UTC offset (microseconds); the
    offset is [None] for a naive value. *)
Record datetime := mk_datetime { wall : Z; utcoffset : option Z }.

Definition US_PER_SECOND : Z := 1000000.
Definition US_PER_MINUTE : Z := 60 * US_PER_SECOND.
Definition US_PER_HOUR : Z := 60 * US_PER_MINUTE.
Definition US_PER_DAY : Z := 24 * US_PER_HOUR.

(** What two datetimes are compared by: the UTC instants of two aware
    values, the wall clocks of two naive ones. *)
Definition comparands (a b : datetime) : raising (Z * Z) :=
  match utcoffset a, utcoffset b with
  | Some offset_a, Some offset_b => Return (wall a - offset_a, wall b - offset_b)%Z
  | None, None => Return (wall a, wall b)
  | _, _ => Raise TypeError
  end.

(** [a >= b] and [a > b]. *)
Definition dt_ge (a b : datetime) : raising bool :=
  let! ab := comparands a b in Return (snd ab <=? fst ab)%Z.
Definition dt_gt (a b : datetime) : raising bool :=
  let! ab := comparands a b in Return (snd ab <? fst ab)%Z.

(** The list comprehension [[x for x in l if keep(x)]] with a test that may
    raise: the elements are tested in order. *)
Fixpoint filter_raising {A : Type} (keep : A -> raising bool) (l : list A)
  : raising (list A) :=
  match l with
  | [] => Return []
  | x :: rest =>
      let! kept_x := keep x in
      let! kept := filter_raising keep rest in
      Return (if kept_x then x :: kept else kept)
  end.

(** [d + timedelta(...)], the delta given in microseconds. *)
Definition dt_add (d : datetime) (delta : Z) : datetime :=
  {| wall := wall d + delta; utcoffset := utcoffset d |}.

Definition timedelta_minutes (m : Z) : Z := (m * US_PER_MINUTE)%Z.
Definition timedelta_days (n : Z) : Z := (n * US_PER_DAY)%Z.

(** [d.date()] as a day number, and the time-of-day components. *)
Definition date (d : datetime) : Z := (wall d / US_PER_DAY)%Z.
Definition hour (d : datetime) : Z := ((wall d / US_PER_HOUR) mod 24)%Z.
Definition minute (d : datetime) : Z := ((wall d / US_PER_MINUTE) mod 60)%Z.
Definition second (d : datetime) : Z := ((wall d / US_PER_SECOND) mod 60)%Z.
Definition microsecond (d : datetime) : Z := (wall d mod US_PER_SECOND)%Z.

(** [d.replace(hour=h, minute=0, second=0, microsecond=0)]. *)
Definition replace_hms0 (d : datetime) (h : Z) : datetime :=
  {| wall := date d * US_PER_DAY + h * US_PER_HOUR; utcoffset := utcoffset d |}.

(** [datetime.now(timezone.utc)] for the clock reading [now] (UTC microseconds). *)
Definition utc (now : Z) : datetime := {| wall := now; utcoffset := Some 0%Z |}.

(** Truthiness of an optional string: absent, [None] and [""] are falsy. *)
Definition truthy (o : option string) : bool :=
  match o with
  | Some s => negb (String.eqb s "")
  | None => false
  end.

Definition str_in (s : string) (l : list string) : bool :=
  existsb (String.eqb s) l.

Definition opt_str_in (o : option string) (l : list string) : bool :=
  match o with
  | Some s => str_in s l
  | None => false
  end.

Definition opt_str_eqb (a b : option string) : bool :=
  match a, b with
  | Some x, Some y => String.eqb x y
  | None, None => true
  | _, _ => false
  end.

(** [needle in hay] on strings. *)
Fixpoint contains (needle hay : string) : bool :=
  String.prefix needle hay ||
  match hay with
  | EmptyString => false
  | String _ rest => contains needle rest
  end.

(** [s.replace(old, new)] for a one-character [old]. *)
Fixpoint replace_char (old : ascii) (new s : string) : string :=
  match s with
  | EmptyString => EmptyString
  | String c rest =>
      if Ascii.eqb c old then new +:+ replace_char old new rest
      else String c (replace_char old new rest)
  end.

(** [s[:n]]. *)
Definition slice_to (n : nat) (s : string) : string := String.substring 0 (Nat.min n (String.length s)) s.

(** Integer to float conversion as performed by true division. *)
Definition float_of_nat (n : nat) : float :=
  PrimFloat.of_uint63 (Uint63.of_Z (Z.of_nat n)).

(** [a / b] on Python ints. *)
Definition truediv (a b : nat) : float :=
  PrimFloat.div (float_of_nat a) (float_of_nat b).

(** [min(a, b)] on floats: the first argument unless the second is smaller. *)
Definition fmin (a b : float) : float := if PrimFloat.ltb b a then b else a.

(** The library calls left to an implementation of Python. *)
Class PyLib := {
  fromisoformat : string -> option datetime;
  isoformat : datetime -> string;
  str_lower : string -> string;
  str_strip : string -> string;
  unicodedata_normalize_NFKD : string -> string;
  re_sub : string -> string -> string -> string;
  re_search : string -> string -> bool;
  round_ndigits : float -> Z -> float;
}.

End py.
Export py.

(** ** config.py *)

Module config.

Definition DEDUPE_WINDOW_MINUTES : Z := 10.
Definition TEXT_SIMILARITY_THRESHOLD : float := 0.9%float.
Definition FREQUENCY_WINDOW_MINUTES : Z := 10.
Definition FREQUENCY_LIMIT : nat := 5.
Definition HISTORY_BUFFER_SIZE : nat := 30.
Definition NOISE_LIMIT_MAX_URGENT : nat := 2.
Definition NOISE_LIMIT_WINDOW_MINUTES : Z := 15.
Definition QUIET_HOUR_START : Z := 22.
Definition QUIET_HOUR_END : Z := 6.
Definition QUIET_RESUME_HOUR : Z := 8.
Definition BASE_BACKOFF_MINUTES : Z := 5.
Definition DEFAULT_WORKING_HOUR : Z := 9.

Definition FALLBACK_MAP : list (string * string) :=
  [("urgent", "NOW"); ("high", "NOW"); ("medium", "LATER"); ("low", "NEVER")].

Definition FALLBACK_EVENT_TYPE_MAP : list (string * string) :=
  [("alert", "NOW"); ("system", "NOW"); ("message", "LATER");
   ("reminder", "LATER"); ("update", "LATER"); ("email", "LATER");
   ("promotion", "NEVER")].

(** Lookup in a literal dict. *)
Fixpoint dict_get (d : list (string * string)) (k : string) : option string :=
  match d with
  | [] => None
  | (k', v) :: rest => if String.eqb k k' then Some v else dict_get rest k
  end.

End config.

(** ** input_validator.py *)

Module input_validator.

Definition metadata_t : Type := list (string * string).

(** The raw mapping handed to the engine.  [None] stands for an absent key. *)
Record raw_event := mk_raw_event {
  raw_event_id : option string;
  raw_user_id : option string;
  raw_event_type : option string;
  raw_title : option string;
  raw_message : option string;
  raw_source : option string;
  raw_priority_hint : option string;
  raw_timestamp : option string;
  raw_channel : option string;
  raw_metadata : option metadata_t;
  raw_dedupe_key : option string;
  raw_expires_at : option string;
}.

(** What [process_event] receives: a dict, or some other JSON value. *)
Inductive raw_input :=
| RawDict (e : raw_event)
| RawNotDict.

(** The normalized event built by [validate_event]. *)
Record event := mk_event {
  event_id : string;
  user_id : string;
  event_type : string;
  title : string;
  message : string;
  source : string;
  priority_hint : option string;
  timestamp : string;
  parsed_timestamp : datetime;
  channel : string;
  metadata : metadata_t;
  dedupe_key : option string;
  expires_at : option datetime;
}.

Definition REQUIRED_FIELDS : list string :=
  ["user_id"; "event_type"; "message"; "timestamp"; "channel"].
Definition VALID_EVENT_TYPES : list string :=
  ["message"; "reminder"; "alert"; "promotion"; "system"; "update"; "email"].
Definition VALID_CHANNELS : list string := ["push"; "email"; "sms"; "in_app"].
Definition VALID_PRIORITY_HINTS : list string := ["low"; "medium"; "high"; "urgent"].

(** [ValidationError], one constructor per message template. *)
Inductive ValidationError :=
| NotAnObject
| MissingRequiredField (field : string)
| InvalidEventType (given : string)
| InvalidChannel (given : string)
| InvalidTimestampFormat (given : string)
| InvalidPriorityHint (given : string)
| InvalidExpiresAtFormat (given : string).

(** [event[field]] for the required (string-valued) fields. *)
Definition raw_field (e : raw_event) (field : string) : option string :=
  if String.eqb field "user_id" then raw_user_id e
  else if String.eqb field "event_type" then raw_event_type e
  else if String.eqb field "message" then raw_message e
  else if String.eqb field "timestamp" then raw_timestamp e
  else if String.eqb field "channel" then raw_channel e
  else None.

(** The loop over [REQUIRED_FIELDS]: the first missing or falsy field. *)
Fixpoint first_missing (e : raw_event) (fields : list string) : option string :=
  match fields with
  | [] => None
  | f :: rest => if truthy (raw_field e f) then first_missing e rest else Some f
  end.

Definition parse_iso `{PyLib} (s : string) : option datetime :=
  fromisoformat (replace_char "Z"%char "+00:00" s).

Definition validate_event `{PyLib} (fresh_uuid : string) (raw : raw_input)
  : ValidationError + event :=
  match raw with
  | RawNotDict => inl NotAnObject
  | RawDict e =>
    match first_missing e REQUIRED_FIELDS with
    | Some f => inl (MissingRequiredField f)
    | None =>
      let etype := default "" (raw_event_type e) in
      let chan := default "" (raw_channel e) in
      let ts_text := default "" (raw_timestamp e) in
      if negb (str_in etype VALID_EVENT_TYPES) then inl (InvalidEventType etype)
      else if negb (str_in chan VALID_CHANNELS) then inl (InvalidChannel chan)
      else
        match parse_iso ts_text with
        | None => inl (InvalidTimestampFormat ts_text)
        | Some ts =>
          let normalized := {|
            event_id := default fresh_uuid (raw_event_id e);
            user_id := default "" (raw_user_id e);
            event_type := etype;
            title := default "" (raw_title e);
            message := default "" (raw_message e);
            source := default "unknown" (raw_source e);
            priority_hint := raw_priority_hint e;
            timestamp := isoformat ts;
            parsed_timestamp := ts;
            channel := chan;
            metadata := default [] (raw_metadata e);
            dedupe_key := raw_dedupe_key e;
            expires_at := None |} in
          if truthy (priority_hint normalized)
             && negb (opt_str_in (priority_hint normalized) VALID_PRIORITY_HINTS)
          then inl (InvalidPriorityHint (default "" (priority_hint normalized)))
          else if truthy (raw_expires_at e) then
            match parse_iso (default "" (raw_expires_at e)) with
            | Some exp =>
              inr {|
                event_id := event_id normalized;
                user_id := user_id normalized;
                event_type := event_type normalized;
                title := title normalized;
                message := message normalized;
                source := source normalized;
                priority_hint := priority_hint normalized;
                timestamp := timestamp normalized;
                parsed_timestamp := parsed_timestamp normalized;
                channel := channel normalized;
                metadata := metadata normalized;
                dedupe_key := dedupe_key normalized;
                expires_at := Some exp |}
            | None => inl (InvalidExpiresAtFormat (default "" (raw_expires_at e)))
            end
          else inr normalized
        end
    end
  end.

(** A value stored under a key of the normalized event dict. *)
Inductive pyvalue :=
| PyStr (s : string)
| PyNone
| PyDatetime (d : datetime)
| PyDict (m : metadata_t).

Definition py_opt_str (o : option string) : pyvalue :=
  match o with Some s => PyStr s | None => PyNone end.
Definition py_opt_datetime (o : option datetime) : pyvalue :=
  match o with Some d => PyDatetime d | None => PyNone end.

(** [event.items()]: the normalized dict in insertion order. *)
Definition items (ev : event) : list (string * pyvalue) :=
  [ ("event_id", PyStr (event_id ev));
    ("user_id", PyStr (user_id ev));
    ("event_type", PyStr (event_type ev));
    ("title", PyStr (title ev));
    ("message", PyStr (message ev));
    ("source", PyStr (source ev));
    ("priority_hint", py_opt_str (priority_hint ev));
    ("timestamp", PyStr (timestamp ev));
    ("parsed_timestamp", PyDatetime (parsed_timestamp ev));
    ("channel", PyStr (channel ev));
    ("metadata", PyDict (metadata ev));
    ("dedupe_key", py_opt_str (dedupe_key ev));
    ("expires_at", py_opt_datetime (expires_at ev)) ].

End input_validator.

(** ** history_store.py *)

Module history_store.

(** The dict written by [DecisionEngine._record_history]. *)
Record history_record := mk_history_record {
  h_event_id : string;
  h_event_type : string;
  h_source : string;
  h_decision : string;
  h_explanation_code : option string;
  h_dedupe_key : option string;
  h_normalized_text : string;
  h_parsed_timestamp : datetime;
  h_timestamp : string;
}.

(** [HistoryStore]: [_store] maps a user to a [deque(maxlen=buffer_size)],
    kept as the list of its records, oldest first. *)
Record HistoryStore := mk_HistoryStore {
  buffer_size : nat;
  _store : gmap string (list history_record);
}.

Definition init (buffer_size : nat) : HistoryStore :=
  {| buffer_size := buffer_size; _store := ∅ |}.

(** [deque.append] on a bounded deque: the oldest records fall off the left. *)
Definition deque_append (maxlen : nat) (d : list history_record) (r : history_record)
  : list history_record :=
  drop (length (d ++ [r]) - maxlen) (d ++ [r]).

(** [self._store.get(user_id, [])]. *)
Definition records_of (self : HistoryStore) (user_id : string) : list history_record :=
  default [] (_store self !! user_id).

Definition add (self : HistoryStore) (user_id : string) (record : history_record)
  : HistoryStore :=
  {| buffer_size := buffer_size self;
     _store := <[user_id := deque_append (buffer_size self) (records_of self user_id) record]>
                 (_store self) |}.

Definition get_recent (now : Z) (self : HistoryStore) (user_id : string)
    (window_minutes : option Z) : raising (list history_record) :=
  let records := records_of self user_id in
  match window_minutes with
  | Some w =>
      let cutoff := dt_add (utc now) (- timedelta_minutes w) in
      filter_raising (fun r => dt_ge (h_parsed_timestamp r) cutoff) records
  | None => Return records
  end.

Definition count_in_window (now : Z) (self : HistoryStore) (user_id : string)
    (window_minutes : Z) : raising nat :=
  let! recent := get_recent now self user_id (Some window_minutes) in
  Return (length recent).

Definition count_decisions_by_type (now : Z) (self : HistoryStore)
    (user_id event_type decision : string) (window_minutes : Z) : raising nat :=
  let! recent := get_recent now self user_id (Some window_minutes) in
  Return (length (List.filter
                    (fun r => String.eqb (h_event_type r) event_type
                              && String.eqb (h_decision r) decision)
                    recent)).

Definition count_by_event_type (now : Z) (self : HistoryStore)
    (user_id event_type : string) (window_minutes : Z) : raising nat :=
  let! recent := get_recent now self user_id (Some window_minutes) in
  Return (length (List.filter (fun r => String.eqb (h_event_type r) event_type) recent)).

Definition count_urgent_by_source_or_type (now : Z) (self : HistoryStore)
    (user_id event_type source : string) (window_minutes : Z) : raising nat :=
  let! recent := get_recent now self user_id (Some window_minutes) in
  Return (length (List.filter
                    (fun r => String.eqb (h_decision r) "NOW"
                              && (String.eqb (h_event_type r) event_type
                                  || String.eqb (h_source r) source))
                    recent)).

Definition get_dedupe_key_entries (now : Z) (self : HistoryStore)
    (user_id dedupe_key : string) (window_minutes : Z) : raising (list history_record) :=
  let! recent := get_recent now self user_id (Some window_minutes) in
  Return (List.filter (fun r => opt_str_eqb (h_dedupe_key r) (Some dedupe_key)) recent).

Definition get_text_entries (now : Z) (self : HistoryStore)
    (user_id : string) (window_minutes : Z) : raising (list history_record) :=
  let! recent := get_recent now self user_id (Some window_minutes) in
  Return (List.filter (fun r => negb (String.eqb (h_normalized_text r) "")) recent).

Definition count_event_type_today (now : Z) (self : HistoryStore)
    (user_id event_type : string) : nat :=
  let today := date (utc now) in
  let records := records_of self user_id in
  length (List.filter
            (fun r => String.eqb (h_event_type r) event_type
                      && (date (h_parsed_timestamp r) =? today)%Z)
            records).

Definition clear (self : HistoryStore) : HistoryStore :=
  {| buffer_size := buffer_size self; _store := ∅ |}.

Definition clear_user (self : HistoryStore) (user_id : string) : HistoryStore :=
  {| buffer_size := buffer_size self; _store := delete user_id (_store self) |}.

End history_store.

(** ** duplicate_detector.py *)

Module duplicate_detector.
Import config input_validator history_store.

Definition normalize_text `{PyLib} (text : string) : string :=
  let text := str_lower text in
  let text := unicodedata_normalize_NFKD text in
  let text := re_sub "[^\w\s]" "" text in
  let text := str_strip (re_sub "\s+" " " text) in
  text.

(** Reads [matrix[j]] and [s[j]]; the loops below stay within range. *)
Definition cell (matrix : list nat) (j : nat) : nat := default 0 (matrix !! j).
Definition char_at (s : list ascii) (j : nat) : ascii := default "000"%char (s !! j).

(** The body of the inner [for j] loop; the state is [(matrix, prev)]. *)
Definition inner_step (c : ascii) (s2 : list ascii) (st : list nat * nat) (j : nat)
  : list nat * nat :=
  let '(matrix, prev) := st in
  let temp := cell matrix j in
  let matrix :=
    if Ascii.eqb c (char_at s2 (j - 1)) then <[j := prev]> matrix
    else <[j := 1 + Nat.min prev (Nat.min (cell matrix j) (cell matrix (j - 1)))]> matrix in
  (matrix, temp).

(** The body of the outer [for i] loop. *)
Definition outer_step (s1 s2 : list ascii) (matrix : list nat) (i : nat) : list nat :=
  let prev := cell matrix 0 in
  let matrix := <[0 := i]> matrix in
  fst (fold_left (inner_step (char_at s1 (i - 1)) s2) (seq 1 (length s2)) (matrix, prev)).

(** The single-row dynamic program; its result is [matrix[len2]]. *)
Definition levenshtein_distance (s1 s2 : list ascii) : nat :=
  let matrix := seq 0 (length s2 + 1) in
  let matrix := fold_left (outer_step s1 s2) (seq 1 (length s1)) matrix in
  cell matrix (length s2).

(** The quick length-based rejection of [levenshtein_ratio]. *)
Definition length_gate (len1 len2 : nat) : bool :=
  PrimFloat.ltb (PrimFloat.sub 1%float TEXT_SIMILARITY_THRESHOLD)
                (truediv (Nat.max len1 len2 - Nat.min len1 len2) (Nat.max len1 len2)).

Definition levenshtein_ratio (s1 s2 : string) : float :=
  if String.eqb s1 s2 then 1%float
  else if String.eqb s1 "" || String.eqb s2 "" then 0%float
  else
    let len1 := String.length s1 in
    let len2 := String.length s2 in
    if length_gate len1 len2 then 0%float
    else
      let distance :=
        levenshtein_distance (list_ascii_of_string s1) (list_ascii_of_string s2) in
      let max_len := Nat.max len1 len2 in
      PrimFloat.sub 1%float (truediv distance max_len).

Record DuplicateDetector := mk_DuplicateDetector {
  dedupe_window : Z;
  similarity_threshold : float;
}.

Definition init : DuplicateDetector :=
  {| dedupe_window := DEDUPE_WINDOW_MINUTES;
     similarity_threshold := TEXT_SIMILARITY_THRESHOLD |}.

Record dup_result := mk_dup_result {
  is_duplicate : bool;
  duplicate_type : option string;
  matched_event_id : option string;
}.

(** [matches[-1]]. *)
Definition last_record (l : list history_record) : option history_record := last l.

(** The [for entry in past_entries] scan: the first entry at or above the threshold. *)
Fixpoint first_similar (threshold : float) (event_text : string)
    (past_entries : list history_record) : option history_record :=
  match past_entries with
  | [] => None
  | entry :: rest =>
      let ratio := levenshtein_ratio event_text (h_normalized_text entry) in
      if PrimFloat.leb threshold ratio then Some entry
      else first_similar threshold event_text rest
  end.

Definition event_text_of `{PyLib} (ev : event) : string :=
  normalize_text (str_strip (title ev +:+ " " +:+ message ev)).

Definition not_duplicate : dup_result :=
  {| is_duplicate := false; duplicate_type := None; matched_event_id := None |}.

Definition text_check `{PyLib} (now : Z) (self : DuplicateDetector)
    (history : HistoryStore) (ev : event) : raising dup_result :=
  let event_text := event_text_of ev in
  if negb (String.eqb event_text "") then
    let! past_entries := get_text_entries now history (user_id ev) (dedupe_window self) in
    match first_similar (similarity_threshold self) event_text past_entries with
    | Some entry =>
        Return {| is_duplicate := true;
                  duplicate_type := Some "DUPLICATE_TEXT_SIMILAR";
                  matched_event_id := Some (h_event_id entry) |}
    | None => Return not_duplicate
    end
  else Return not_duplicate.

Definition check `{PyLib} (now : Z) (self : DuplicateDetector)
    (history : HistoryStore) (ev : event) : raising dup_result :=
  if truthy (dedupe_key ev) then
    let! matches := get_dedupe_key_entries now history (user_id ev)
                 (default "" (dedupe_key ev)) (dedupe_window self) in
    match last_record matches with
    | Some m =>
        Return {| is_duplicate := true;
                  duplicate_type := Some "DUPLICATE_DEDUPE_KEY";
                  matched_event_id := Some (h_event_id m) |}
    | None => text_check now self history ev
    end
  else text_check now self history ev.

End duplicate_detector.

(** ** rule_engine.py *)

Module rule_engine.
Import config input_validator history_store.

Record time_window := mk_time_window {
  start_hour : option Z;
  end_hour : option Z;
}.

(** The [match] object of a rule; an absent key imposes no condition. *)
Record match_conditions := mk_match_conditions {
  match_event_type : option (list string);
  match_priority_hint : option (list string);
  match_channel : option (list string);
  match_source : option (list string);
  match_time_window : option time_window;
}.

Definition empty_match : match_conditions :=
  {| match_event_type := None; match_priority_hint := None; match_channel := None;
     match_source := None; match_time_window := None |}.

(** The [action] object of a rule. *)
Record rule_action := mk_rule_action {
  force_decision : option string;
  downgrade : option (gmap string string);
  limit_per_day : option Z;
}.

Definition empty_action : rule_action :=
  {| force_decision := None; downgrade := None; limit_per_day := None |}.

Record rule := mk_rule {
  id : option string;
  priority : option Z;
  description : option string;
  match_ : option match_conditions;
  action : option rule_action;
}.

(** The sort key [r.get("priority", 0)]. *)
Definition priority_key (r : rule) : Z := default 0%Z (priority r).

(** [sorted(rules, key=..., reverse=True)]: descending and stable. *)
Fixpoint insert_by_priority (r : rule) (sorted : list rule) : list rule :=
  match sorted with
  | [] => [r]
  | x :: rest =>
      if (priority_key r <? priority_key x)%Z then x :: insert_by_priority r rest
      else r :: x :: rest
  end.

Definition sorted_by_priority (rules : list rule) : list rule :=
  foldr insert_by_priority [] rules.

(** A rules document as [json.load] returns it: a bare list or an object
    with a ["rules"] key. *)
Inductive rules_document :=
| RulesArray (rules : list rule)
| RulesObject (rules : list rule).

Record RuleEngine := mk_RuleEngine { rules : list rule }.

(** [_load_rules]; [None] stands for a missing file or invalid JSON. *)
Definition _load_rules (document : option rules_document) : list rule :=
  match document with
  | Some (RulesArray rules) => sorted_by_priority rules
  | Some (RulesObject rules) => sorted_by_priority rules
  | None => []
  end.

(** [RuleEngine.__init__]: [rules_data] takes precedence over [rules_path]. *)
Definition init (rules_path : option (option rules_document))
    (rules_data : option (list rule)) : RuleEngine :=
  match rules_data, rules_path with
  | Some data, _ => {| rules := sorted_by_priority data |}
  | None, Some document => {| rules := _load_rules document |}
  | None, None => {| rules := [] |}
  end.

(** [reload]: as [__init__], but the rules stay when neither argument is given. *)
Definition reload (self : RuleEngine) (rules_path : option (option rules_document))
    (rules_data : option (list rule)) : RuleEngine :=
  match rules_data, rules_path with
  | Some data, _ => {| rules := sorted_by_priority data |}
  | None, Some document => {| rules := _load_rules document |}
  | None, None => self
  end.

Definition in_time_window (tw : time_window) (h : Z) : bool :=
  let start := default 0%Z (start_hour tw) in
  let end_ := default 24%Z (end_hour tw) in
  if (end_ <? start)%Z then (start <=? h)%Z || (h <? end_)%Z
  else (start <=? h)%Z && (h <? end_)%Z.

Definition _matches_rule (ev : event) (r : rule) : bool :=
  let match_cond := default empty_match (match_ r) in
  let ok_event_type :=
    match match_event_type match_cond with
    | Some allowed => str_in (event_type ev) allowed
    | None => true
    end in
  let ok_priority_hint :=
    match match_priority_hint match_cond with
    | Some allowed => opt_str_in (priority_hint ev) allowed
    | None => true
    end in
  let ok_channel :=
    match match_channel match_cond with
    | Some allowed => str_in (channel ev) allowed
    | None => true
    end in
  let ok_source :=
    match match_source match_cond with
    | Some allowed => str_in (source ev) allowed
    | None => true
    end in
  let ok_time_window :=
    match match_time_window match_cond with
    | Some tw => in_time_window tw (hour (parsed_timestamp ev))
    | None => true
    end in
  ok_event_type && ok_priority_hint && ok_channel && ok_source && ok_time_window.

Record rule_match := mk_rule_match {
  rule_id : string;
  matched_rule : rule;
  matched_action : rule_action;
}.

(** [RuleEngine.match]. *)
Definition match_rules (self : RuleEngine) (ev : event) : list rule_match :=
  List.map
    (fun r => {| rule_id := default "unknown" (id r);
                 matched_rule := r;
                 matched_action := default empty_action (action r) |})
    (List.filter (_matches_rule ev) (rules self)).

(** The reason strings of [apply_actions], by template. *)
Inductive rule_reason :=
| RuleForced (rule_id rule_desc : string)
| RuleDowngraded (rule_id rule_desc from_decision to_decision : string)
| RuleDailyLimit (rule_id rule_desc : string) (limit : Z) (count : nat).

Record rule_result := mk_rule_result {
  decision : string;
  explanation_code : option string;
  matched_rule_id : option string;
  reason : option rule_reason;
}.

(** The [for match in matched_rules] loop; [current_decision] and [result]
    are the loop state, a [return] inside the loop ends the recursion. *)
Fixpoint apply_loop (now : Z) (ev : event) (history_store : option HistoryStore)
    (matched_rules : list rule_match) (current_decision : string)
    (result : rule_result) : rule_result :=
  match matched_rules with
  | [] => result
  | m :: rest =>
    let action := matched_action m in
    let rule_id := rule_id m in
    let rule_desc := default "" (description (matched_rule m)) in
    match force_decision action with
    | Some forced =>
        {| decision := forced;
           explanation_code := Some "RULE_OVERRIDE";
           matched_rule_id := Some rule_id;
           reason := Some (RuleForced rule_id rule_desc) |}
    | None =>
      let '(result, current_decision) :=
        match downgrade action with
        | Some dg =>
            match dg !! current_decision with
            | Some target =>
                ({| decision := target;
                    explanation_code := Some "RULE_OVERRIDE";
                    matched_rule_id := Some rule_id;
                    reason := Some (RuleDowngraded rule_id rule_desc current_decision target) |},
                 target)
            | None => (result, current_decision)
            end
        | None => (result, current_decision)
        end in
      match limit_per_day action, history_store with
      | Some limit, Some store =>
          let count := count_event_type_today now store (user_id ev) (event_type ev) in
          if (limit <=? Z.of_nat count)%Z then
            {| decision := "NEVER";
               explanation_code := Some "RULE_OVERRIDE";
               matched_rule_id := Some rule_id;
               reason := Some (RuleDailyLimit rule_id rule_desc limit count) |}
          else apply_loop now ev history_store rest current_decision result
      | _, _ => apply_loop now ev history_store rest current_decision result
      end
    end
  end.

Definition apply_actions (now : Z) (ev : event) (matched_rules : list rule_match)
    (current_decision : string) (history_store : option HistoryStore) : rule_result :=
  let result := {| decision := current_decision; explanation_code := None;
                   matched_rule_id := None; reason := None |} in
  apply_loop now ev history_store matched_rules current_decision result.

End rule_engine.

(** ** llm_classifier.py *)

Module llm_classifier.
Import config input_validator.

Definition URGENT_KEYWORDS : list string :=
  ["\botp\b"; "\bpassword\b"; "\b2fa\b"; "\bverif";
   "\bdown\b"; "\boutage\b"; "\bcritical\b"; "\bemergency\b";
   "\bsecurity\b"; "\bbreach\b"; "\bfailure\b"; "\bfailed\b";
   "\bexpir"; "\bblocked\b"; "\bunauthorized\b";
   "\b95%\b"; "\b100%\b"; "\b99%\b"; "\boverload\b";
   "\bcrash"; "\berror\b"; "\balert\b"].

Definition PROMO_KEYWORDS : list string :=
  ["\bsale\b"; "\bdiscount\b"; "\b\d+%\s*off\b"; "\bflat\b";
   "\bpromo"; "\bcoupon\b"; "\bdeal\b"; "\boffer\b";
   "\bfree\b"; "\bclearance\b"; "\blimited.?time\b"].

Definition LATER_KEYWORDS : list string :=
  ["\breminder\b"; "\bsubmit\b"; "\bupdate\b"; "\bweekly\b";
   "\bmonthly\b"; "\bsummary\b"; "\bdigest\b"; "\bnewsletter\b";
   "\breport\b"; "\bschedul"].

Record LLMClassifier := mk_LLMClassifier {
  simulate_failure : bool;
  _call_count : nat;
}.

Definition init (simulate_failure : bool) : LLMClassifier :=
  {| simulate_failure := simulate_failure; _call_count := 0 |}.

(** The parts joined by [_build_reason]. *)
Inductive reason_part :=
| ContainsOTP
| ServiceOutage
| ResourceThreshold
| PriorityUrgent
| EventTypePart (event_type : string)
| UrgencyScore (score : nat).

Inductive llm_reason :=
| Urgent (parts : list reason_part)
| Promotional (score : nat)
| Schedulable (score : nat)
| DefaultFor (event_type : string).

(** [raw_output], by template; the confidence is the one formatted into it. *)
Inductive raw_output_t :=
| RawLabel (label : string) (reason : llm_reason) (confidence : float)
| RawFallback (reason : string) (label : string)
| RawEmpty.

Record llm_result := mk_llm_result {
  label : string;
  confidence : float;
  raw_output : raw_output_t;
  used_fallback : bool;
  explanation_code : string;
}.

(** [sum(1 for kw in keywords if re.search(kw, text))]. *)
Definition keyword_score `{PyLib} (keywords : list string) (text : string) : nat :=
  length (List.filter (fun kw => re_search kw text) keywords).

Definition _build_reason `{PyLib} (text : string) (score : nat) (event_type : string)
    (priority : option string) : llm_reason :=
  let parts :=
    (if contains "otp" text then [ContainsOTP] else [])
    ++ (if contains "down" text then [ServiceOutage] else [])
    ++ (if existsb (fun kw => re_search kw text) ["\b95%\b"; "\b100%\b"; "\b99%\b"]
        then [ResourceThreshold] else [])
    ++ (if opt_str_eqb priority (Some "urgent") then [PriorityUrgent] else [])
    ++ (if str_in event_type ["alert"; "system"] then [EventTypePart event_type] else []) in
  Urgent (match parts with [] => [UrgencyScore score] | _ => parts end).

Definition _llm_classify `{PyLib} (ev : event) : llm_result :=
  let text := str_lower (title ev +:+ " " +:+ message ev) in
  let event_type := event_type ev in
  let priority := priority_hint ev in
  let channel := channel ev in
  let urgent_score := keyword_score URGENT_KEYWORDS text in
  let promo_score := keyword_score PROMO_KEYWORDS text in
  let later_score := keyword_score LATER_KEYWORDS text in
  let '(urgent_score, promo_score) :=
    if opt_str_eqb priority (Some "urgent") then (urgent_score + 3, promo_score)
    else if opt_str_eqb priority (Some "high") then (urgent_score + 2, promo_score)
    else if opt_str_eqb priority (Some "low") then (urgent_score, promo_score + 2)
    else (urgent_score, promo_score) in
  let '(urgent_score, promo_score, later_score) :=
    if str_in event_type ["alert"; "system"] then (urgent_score + 2, promo_score, later_score)
    else if String.eqb event_type "promotion" then (urgent_score, promo_score + 3, later_score)
    else if String.eqb event_type "reminder" then (urgent_score, promo_score, later_score + 2)
    else (urgent_score, promo_score, later_score) in
  let urgent_score := if String.eqb channel "sms" then urgent_score + 1 else urgent_score in
  let total := Nat.max (urgent_score + promo_score + later_score) 1 in
  let '(label, confidence, explanation_code, reason) :=
    if (promo_score <? urgent_score) && (later_score <? urgent_score) then
      ("NOW",
       fmin (0.5 + truediv urgent_score total * 0.5)%float 0.99%float,
       if 2 <=? urgent_score then "URGENT_KEYWORD" else "LLM_DECISION",
       _build_reason text urgent_score event_type priority)
    else if (urgent_score <? promo_score) && (later_score <? promo_score) then
      ("NEVER",
       fmin (0.5 + truediv promo_score total * 0.5)%float 0.99%float,
       "LLM_DECISION",
       Promotional promo_score)
    else if 0 <? later_score then
      ("LATER",
       fmin (0.5 + truediv later_score total * 0.4)%float 0.95%float,
       "LLM_DECISION",
       Schedulable later_score)
    else
      (default "LATER" (dict_get FALLBACK_EVENT_TYPE_MAP event_type),
       0.5%float,
       "LLM_DECISION",
       DefaultFor event_type) in
  {| label := label;
     confidence := round_ndigits confidence 2;
     raw_output := RawLabel label reason confidence;
     used_fallback := false;
     explanation_code := explanation_code |}.

Definition _fallback (ev : event) (reason : string) : llm_result :=
  let label :=
    match priority_hint ev with
    | Some p =>
        match dict_get FALLBACK_MAP p with
        | Some l => l
        | None => default "LATER" (dict_get FALLBACK_EVENT_TYPE_MAP (event_type ev))
        end
    | None => default "LATER" (dict_get FALLBACK_EVENT_TYPE_MAP (event_type ev))
    end in
  {| label := label;
     confidence := 0.4%float;
     raw_output := RawFallback reason label;
     used_fallback := true;
     explanation_code := "FALLBACK" |}.

(** [classify] counts the call, then scores or falls back.  The scoring of
    [_llm_classify] raises nothing in this model, so the [except] arm is
    never taken. *)
Definition classify `{PyLib} (self : LLMClassifier) (ev : event)
  : llm_result * LLMClassifier :=
  let self := {| simulate_failure := simulate_failure self;
                 _call_count := _call_count self + 1 |} in
  if simulate_failure self
  then (_fallback ev "LLM service simulated failure", self)
  else (_llm_classify ev, self).

Definition set_failure_mode (self : LLMClassifier) (enabled : bool) : LLMClassifier :=
  {| simulate_failure := enabled; _call_count := _call_count self |}.

End llm_classifier.

(** ** scheduler.py *)

Module scheduler.
Import config input_validator.

(** What [compute_scheduled_time] returns besides [None]: the sentinel
    ["EXPIRED"] or the ISO-8601 text of the scheduled time. *)
Inductive sched_value :=
| EXPIRED
| ISO (text : string).

Definition _is_quiet_hour (hour : Z) : bool :=
  if (QUIET_HOUR_END <? QUIET_HOUR_START)%Z
  then (QUIET_HOUR_START <=? hour)%Z || (hour <? QUIET_HOUR_END)%Z
  else (QUIET_HOUR_START <=? hour)%Z && (hour <? QUIET_HOUR_END)%Z.

Definition _next_morning (ts : datetime) : datetime :=
  let next_day := dt_add ts (timedelta_days 1) in
  replace_hms0 next_day QUIET_RESUME_HOUR.

Definition _next_working_hour (ts : datetime) : datetime :=
  if (hour ts <? DEFAULT_WORKING_HOUR)%Z then replace_hms0 ts DEFAULT_WORKING_HOUR
  else
    let next_day := dt_add ts (timedelta_days 1) in
    replace_hms0 next_day DEFAULT_WORKING_HOUR.

(** The branches that assign [scheduled]. *)
Definition scheduled_for (ev : event) (explanation_code : option string)
    (frequency_count : Z) : option datetime :=
  let ts := parsed_timestamp ev in
  if opt_str_eqb explanation_code (Some "RULE_OVERRIDE") then
    if _is_quiet_hour (hour ts) then Some (_next_morning ts)
    else Some (dt_add ts (timedelta_minutes 15))
  else if opt_str_eqb explanation_code (Some "FREQUENCY_LIMIT") then
    let backoff := (BASE_BACKOFF_MINUTES * Z.max 1 (frequency_count - 3))%Z in
    Some (dt_add ts (timedelta_minutes backoff))
  else if String.eqb (event_type ev) "reminder" then Some (_next_working_hour ts)
  else Some (dt_add ts (timedelta_minutes 15)).

Definition compute_scheduled_time `{PyLib} (ev : event) (explanation_code : option string)
    (frequency_count : Z) : raising (option sched_value) :=
  let scheduled := scheduled_for ev explanation_code frequency_count in
  match expires_at ev, scheduled with
  | Some expires, Some s =>
      let! late := dt_gt s expires in
      Return (if late then Some EXPIRED else Some (ISO (isoformat s)))
  | _, Some s => Return (Some (ISO (isoformat s)))
  | _, None => Return None
  end.

End scheduler.

(** ** logger.py *)

Module logger.
Import input_validator rule_engine llm_classifier.

(** The [reason] strings of the engine, by template. *)
Inductive reason_text :=
| InvalidEvent (e : ValidationError)
| DuplicateSuppressed (duplicate_type : option string) (matched : string)
| ModelOutput (raw : raw_output_t)
| RuleReason (r : option rule_reason)
| FrequencyDowngrade (user_id : string) (freq_count : nat)
| FrequencySuppressed (user_id : string) (freq_count : nat)
| NoiseLimit (urgent_count : nat) (event_type source : string)
| ScheduleExpired.

Record log_entry := mk_log_entry {
  log_user_id : string;
  log_event_id : string;
  log_event_type : string;
  log_decision : string;
  log_scheduled_time : option string;
  log_timestamp : string;
  log_explanation_code : option string;
  log_reason : reason_text;
  log_matched_rule_id : option string;
  log_confidence : float;
  log_raw_model_output : raw_output_t;
}.

Record DecisionLogger := mk_DecisionLogger { logs : list log_entry }.

Definition init : DecisionLogger := {| logs := [] |}.

Definition log `{PyLib} (self : DecisionLogger) (ev : event) (decision : string)
    (scheduled_time : option string) (explanation_code : option string)
    (reason : reason_text) (matched_rule_id : option string) (confidence : float)
    (raw_model_output : raw_output_t) : log_entry * DecisionLogger :=
  let entry := {|
    log_user_id := user_id ev;
    log_event_id := event_id ev;
    log_event_type := event_type ev;
    log_decision := decision;
    log_scheduled_time := scheduled_time;
    log_timestamp := timestamp ev;
    log_explanation_code := explanation_code;
    log_reason := reason;
    log_matched_rule_id := matched_rule_id;
    log_confidence := round_ndigits confidence 2;
    log_raw_model_output := raw_model_output |} in
  (entry, {| logs := logs self ++ [entry] |}).

(** The [input_event] of an output record: the raw input as received (error
    record) or the cleaned dict built by [get_output_record]. *)
Inductive input_view :=
| AsReceived (raw : raw_input)
| Cleaned (fields : list (string * pyvalue)).

Record output_record := mk_output_record {
  input_event : input_view;
  decision : string;
  scheduled_time : option string;
  explanation_code : option string;
  reason : reason_text;
  matched_rule_id : option string;
}.

Definition get_output_record (ev : event) (entry : log_entry) : output_record :=
  let clean_input :=
    List.filter (fun kv => negb (str_in (fst kv) ["parsed_timestamp"; "event_id"]))
                (items ev) in
  {| input_event := Cleaned clean_input;
     decision := log_decision entry;
     scheduled_time := log_scheduled_time entry;
     explanation_code := log_explanation_code entry;
     reason := log_reason entry;
     matched_rule_id := log_matched_rule_id entry |}.

Definition clear (self : DecisionLogger) : DecisionLogger := {| logs := [] |}.

End logger.

(** ** decision_engine.py *)

Module decision_engine.
Import config input_validator history_store duplicate_detector llm_classifier scheduler.
Import logger.

(** The engine's instance fields.  The detector reads the engine's own
    history store (the same object), so it is handed [history] at each call. *)
Record DecisionEngine := mk_DecisionEngine {
  history : HistoryStore;
  dedup : DuplicateDetector;
  rules : rule_engine.RuleEngine;
  llm : LLMClassifier;
  logger : DecisionLogger;
}.

Definition init (rules_path : option (option rule_engine.rules_document))
    (rules_data : option (list rule_engine.rule)) (simulate_llm_failure : bool)
  : DecisionEngine :=
  {| history := history_store.init HISTORY_BUFFER_SIZE;
     dedup := duplicate_detector.init;
     rules := rule_engine.init rules_path rules_data;
     llm := llm_classifier.init simulate_llm_failure;
     logger := logger.init |}.

Definition _record_history `{PyLib} (self : DecisionEngine) (ev : event)
    (decision : string) (explanation_code : option string) : DecisionEngine :=
  let record := {|
    h_event_id := event_id ev;
    h_event_type := event_type ev;
    h_source := source ev;
    h_decision := decision;
    h_explanation_code := explanation_code;
    h_dedupe_key := dedupe_key ev;
    h_normalized_text := normalize_text (str_strip (title ev +:+ " " +:+ message ev));
    h_parsed_timestamp := parsed_timestamp ev;
    h_timestamp := timestamp ev |} in
  {| history := add (history self) (user_id ev) record;
     dedup := dedup self; rules := rules self; llm := llm self; logger := logger self |}.

(** The local variables a call carries from step 3 to step 8. *)
Record verdict := mk_verdict {
  current_decision : string;
  v_explanation_code : option string;
  v_reason : reason_text;
  v_matched_rule_id : option string;
}.

(** Step 4: apply human rules. *)
Definition apply_rules (now : Z) (self : DecisionEngine) (ev : event) (v : verdict)
  : verdict :=
  let matched_rules := rule_engine.match_rules (rules self) ev in
  match matched_rules with
  | [] => v
  | _ =>
    let rule_result :=
      rule_engine.apply_actions now ev matched_rules (current_decision v)
        (Some (history self)) in
    if truthy (rule_engine.explanation_code rule_result) then
      {| current_decision := rule_engine.decision rule_result;
         v_explanation_code := rule_engine.explanation_code rule_result;
         v_reason := RuleReason (rule_engine.reason rule_result);
         v_matched_rule_id := rule_engine.matched_rule_id rule_result |}
    else v
  end.

(** Step 5: frequency / alert fatigue. *)
Definition frequency_check (ev : event) (freq_count : nat) (v : verdict) : verdict :=
  if FREQUENCY_LIMIT <=? freq_count then
    if String.eqb (current_decision v) "NOW" then
      {| current_decision := "LATER";
         v_explanation_code := Some "FREQUENCY_LIMIT";
         v_reason := FrequencyDowngrade (user_id ev) freq_count;
         v_matched_rule_id := v_matched_rule_id v |}
    else if String.eqb (current_decision v) "LATER" && (FREQUENCY_LIMIT + 2 <=? freq_count) then
      {| current_decision := "NEVER";
         v_explanation_code := Some "FREQUENCY_SUPPRESSION";
         v_reason := FrequencySuppressed (user_id ev) freq_count;
         v_matched_rule_id := v_matched_rule_id v |}
    else v
  else v.

(** Step 6: conflict / noise resolution. *)
Definition noise_check (now : Z) (self : DecisionEngine) (ev : event) (v : verdict)
  : raising verdict :=
  if String.eqb (current_decision v) "NOW" then
    let! urgent_count :=
      count_urgent_by_source_or_type now (history self) (user_id ev) (event_type ev)
        (source ev) NOISE_LIMIT_WINDOW_MINUTES in
    if NOISE_LIMIT_MAX_URGENT <=? urgent_count then
      Return {| current_decision := "LATER";
                v_explanation_code := Some "CONFLICT_NOISE_LIMIT";
                v_reason := NoiseLimit urgent_count (event_type ev) (source ev);
                v_matched_rule_id := v_matched_rule_id v |}
    else Return v
  else Return v.

(** Step 7: schedule.  Returns the verdict and [scheduled_time]. *)
Definition schedule `{PyLib} (ev : event) (freq_count : nat) (v : verdict)
  : raising (verdict * option string) :=
  if String.eqb (current_decision v) "LATER" then
    let! sched := compute_scheduled_time ev (v_explanation_code v) (Z.of_nat freq_count) in
    match sched with
    | Some EXPIRED =>
        Return ({| current_decision := "NEVER";
                   v_explanation_code := Some "EXPIRED";
                   v_reason := ScheduleExpired;
                   v_matched_rule_id := v_matched_rule_id v |}, None)
    | Some (ISO text) => Return (v, Some text)
    | None => Return (v, None)
    end
  else Return (v, None).

(** Steps 3 to 7 for a validated event that is not a duplicate. *)
Definition decide `{PyLib} (now : Z) (self : DecisionEngine) (ev : event)
    (llm_result : llm_result) : raising (verdict * option string) :=
  let v := {| current_decision := label llm_result;
              v_explanation_code := Some (llm_classifier.explanation_code llm_result);
              v_reason := ModelOutput (raw_output llm_result);
              v_matched_rule_id := None |} in
  let v := apply_rules now self ev v in
  let! freq_count :=
    count_in_window now (history self) (user_id ev) FREQUENCY_WINDOW_MINUTES in
  let v := frequency_check ev freq_count v in
  let! v := noise_check now self ev v in
  schedule ev freq_count v.

(** [process_event]: what the call returned or raised, and the engine as the
    call left it (an exception leaves what was done before it). *)
Definition process_event `{PyLib} (now : Z) (fresh_uuid : string)
    (self : DecisionEngine) (raw_event : raw_input)
  : raising output_record * DecisionEngine :=
  match validate_event fresh_uuid raw_event with
  | inl e =>
      let error_record := {|
        input_event := AsReceived raw_event;
        decision := "NEVER";
        scheduled_time := None;
        explanation_code := Some "VALIDATION_ERROR";
        reason := InvalidEvent e;
        matched_rule_id := None |} in
      (Return error_record, self)
  | inr ev =>
    match check now (dedup self) (history self) ev with
    | Raise e => (Raise e, self)
    | Return dup_result =>
      if is_duplicate dup_result then
        let decision := "NEVER" in
        let explanation_code := duplicate_type dup_result in
        let reason :=
          DuplicateSuppressed (duplicate_type dup_result)
            (if truthy (matched_event_id dup_result)
             then slice_to 8 (default "" (matched_event_id dup_result))
             else "unknown") in
        let '(log_entry, logger') :=
          log (logger self) ev decision None explanation_code reason None 0%float RawEmpty in
        let self := {| history := history self; dedup := dedup self; rules := rules self;
                       llm := llm self; logger := logger' |} in
        let self := _record_history self ev decision explanation_code in
        (Return (get_output_record ev log_entry), self)
      else
        let '(llm_result, llm') := classify (llm self) ev in
        let self := {| history := history self; dedup := dedup self; rules := rules self;
                       llm := llm'; logger := logger self |} in
        match decide now self ev llm_result with
        | Raise e => (Raise e, self)
        | Return (v, scheduled_time) =>
          let '(log_entry, logger') :=
            log (logger self) ev (current_decision v) scheduled_time (v_explanation_code v)
              (v_reason v) (v_matched_rule_id v) (confidence llm_result)
              (raw_output llm_result) in
          let self := {| history := history self; dedup := dedup self; rules := rules self;
                         llm := llm self; logger := logger' |} in
          let self := _record_history self ev (current_decision v) (v_explanation_code v) in
          (Return (get_output_record ev log_entry), self)
        end
    end
  end.

(** [process_batch]: the events in order, each on the state the previous left;
    [clock] and [uuids] give the reading and the identifier for each call.
    An exception ends the batch. *)
Fixpoint process_batch `{PyLib} (clock : list Z) (uuids : list string)
    (self : DecisionEngine) (events : list raw_input)
  : raising (list output_record) * DecisionEngine :=
  match events, clock, uuids with
  | e :: rest, now :: clock', u :: uuids' =>
      match process_event now u self e with
      | (Return r, self) =>
          match process_batch clock' uuids' self rest with
          | (Return rs, self) => (Return (r :: rs), self)
          | (Raise exc, self) => (Raise exc, self)
          end
      | (Raise exc, self) => (Raise exc, self)
      end
  | _, _, _ => (Return [], self)
  end.

Definition set_llm_failure (self : DecisionEngine) (enabled : bool) : DecisionEngine :=
  {| history := history self; dedup := dedup self; rules := rules self;
     llm := set_failure_mode (llm self) enabled; logger := logger self |}.

Definition reload_rules (self : DecisionEngine)
    (rules_path : option (option rule_engine.rules_document))
    (rules_data : option (list rule_engine.rule)) : DecisionEngine :=
  {| history := history self; dedup := dedup self;
     rules := rule_engine.reload (rules self) rules_path rules_data;
     llm := llm self; logger := logger self |}.

Definition reset (self : DecisionEngine) : DecisionEngine :=
  {| history := history_store.clear (history self); dedup := dedup self;
     rules := rules self; llm := llm self; logger := logger.clear (logger self) |}.

End decision_engine.

(** ** app.py *)

Module app.
Import input_validator logger decision_engine.

(** The ["summary"] object of the answer. *)
Record summary := mk_summary {
  total : nat;
  now : nat;
  later : nat;
  never : nat;
}.

(** What the [/api/process] route answers: the 400 error, or the results,
    the logs and the summary. *)
Inductive response :=
| BadRequest (error : string)
| Processed (results : list output_record) (logs : list log_entry) (summary : summary).

(** [sum(1 for r in results if r["decision"] == label)]. *)
Definition count_decision (label : string) (results : list output_record) : nat :=
  length (List.filter (fun r => String.eqb (decision r) label) results).

(** [process_events] for the posted [events]: the list under ["events"],
    empty when the key is missing.  An exception that escapes the batch
    escapes the route. *)
Definition process_events `{PyLib} (clock : list Z) (uuids : list string)
    (engine : DecisionEngine) (events : list raw_input)
  : raising response * DecisionEngine :=
  match events with
  | [] => (Return (BadRequest "No events provided"), engine)
  | _ =>
      let engine := reset engine in
      match process_batch clock uuids engine events with
      | (Return results, engine) =>
          (Return (Processed results (logs (logger engine))
                     {| total := length results;
                        now := count_decision "NOW" results;
                        later := count_decision "LATER" results;
                        never := count_decision "NEVER" results |}),
           engine)
      | (Raise exc, engine) => (Raise exc, engine)
      end
  end.

End app.

(** ** An implementation of the library calls for ASCII text

    [ascii_lib] runs the engine on concrete inputs.  It covers what the
    sources use: ASCII case folding and white space, the regular-expression
    syntax of the keyword lists and of [normalize_text] (literals, [.],
    [\d], [\s], [\w], [\b], the class [[^\w\s]] and the postfix operators
    [?], [*], [+]), ISO-8601 texts of the form
    [YYYY-MM-DDTHH:MM:SS[.ffffff][+HH:MM]] (naive when the offset is
    missing), and [round] to a number of decimals. *)

Module ascii_python.

Definition code (c : ascii) : nat := nat_of_ascii c.

Definition is_digit (c : ascii) : bool := (48 <=? code c) && (code c <=? 57).
Definition is_upper (c : ascii) : bool := (65 <=? code c) && (code c <=? 90).
Definition is_lower (c : ascii) : bool := (97 <=? code c) && (code c <=? 122).
Definition is_word (c : ascii) : bool :=
  is_digit c || is_upper c || is_lower c || (code c =? 95).
Definition is_space (c : ascii) : bool :=
  ((9 <=? code c) && (code c <=? 13)) || ((28 <=? code c) && (code c <=? 32)).

Definition lower_char (c : ascii) : ascii :=
  if is_upper c then ascii_of_nat (code c + 32) else c.

Fixpoint lower (s : string) : string :=
  match s with
  | EmptyString => EmptyString
  | String c rest => String (lower_char c) (lower rest)
  end.

Fixpoint lstrip (s : string) : string :=
  match s with
  | String c rest => if is_space c then lstrip rest else s
  | EmptyString => EmptyString
  end.

Fixpoint rstrip (s : string) : string :=
  match s with
  | EmptyString => EmptyString
  | String c rest =>
      match rstrip rest with
      | EmptyString => if is_space c then EmptyString else String c EmptyString
      | kept => String c kept
      end
  end.

Definition strip (s : string) : string := rstrip (lstrip s).

(** *** Regular expressions *)

Inductive char_class :=
| Literal (c : ascii)
| AnyChar
| Digit
| Space
| Word
| NotWordNorSpace.

Inductive quantifier := Once | Optional | ZeroOrMore | OneOrMore.

Inductive regex_item :=
| WordBoundary
| Chars (c : char_class) (q : quantifier).

Definition in_class (cl : char_class) (c : ascii) : bool :=
  match cl with
  | Literal l => Ascii.eqb c l
  | AnyChar => negb (code c =? 10)
  | Digit => is_digit c
  | Space => is_space c
  | Word => is_word c
  | NotWordNorSpace => negb (is_word c || is_space c)
  end.

(** One atom at the head of the pattern, and what follows it. *)
Definition parse_atom (p : list ascii) : option (option char_class * list ascii) :=
  match p with
  | "\"%char :: "b"%char :: rest => Some (None, rest)
  | "\"%char :: "d"%char :: rest => Some (Some Digit, rest)
  | "\"%char :: "s"%char :: rest => Some (Some Space, rest)
  | "\"%char :: "w"%char :: rest => Some (Some Word, rest)
  | "["%char :: "^"%char :: "\"%char :: "w"%char :: "\"%char :: "s"%char :: "]"%char :: rest =>
      Some (Some NotWordNorSpace, rest)
  | "."%char :: rest => Some (Some AnyChar, rest)
  | c :: rest => Some (Some (Literal c), rest)
  | [] => None
  end.

Definition parse_quantifier (p : list ascii) : quantifier * list ascii :=
  match p with
  | "?"%char :: rest => (Optional, rest)
  | "*"%char :: rest => (ZeroOrMore, rest)
  | "+"%char :: rest => (OneOrMore, rest)
  | _ => (Once, p)
  end.

Fixpoint parse_regex (fuel : nat) (p : list ascii) : list regex_item :=
  match fuel with
  | 0 => []
  | S fuel =>
      match parse_atom p with
      | None => []
      | Some (None, rest) => WordBoundary :: parse_regex fuel rest
      | Some (Some cl, rest) =>
          let '(q, rest) := parse_quantifier rest in
          Chars cl q :: parse_regex fuel rest
      end
  end.

Definition compile (pattern : string) : list regex_item :=
  parse_regex (String.length pattern) (list_ascii_of_string pattern).

(** [\b]: exactly one of the neighbouring characters is a word character. *)
Definition at_boundary (prev : option ascii) (s : string) : bool :=
  let before := match prev with Some c => is_word c | None => false end in
  let after := match s with String c _ => is_word c | EmptyString => false end in
  xorb before after.

(** Greedy matching with backtracking at the head of [s]; the result is the
    last character consumed and the text left. *)
Fixpoint match_here (items : list regex_item) (prev : option ascii) (s : string)
  {struct items} : option (option ascii * string) :=
  match items with
  | [] => Some (prev, s)
  | WordBoundary :: rest =>
      if at_boundary prev s then match_here rest prev s else None
  | Chars cl q :: rest =>
      let continue := match_here rest in
      let fix repeat (prev : option ascii) (s : string) {struct s} :=
        let longer :=
          match s with
          | String a s' => if in_class cl a then repeat (Some a) s' else None
          | EmptyString => None
          end in
        match longer with
        | Some r => Some r
        | None => continue prev s
        end in
      match q, s with
      | Once, String a s' => if in_class cl a then continue (Some a) s' else None
      | Once, EmptyString => None
      | Optional, String a s' =>
          match (if in_class cl a then continue (Some a) s' else None) with
          | Some r => Some r
          | None => continue prev s
          end
      | Optional, EmptyString => continue prev s
      | ZeroOrMore, _ => repeat prev s
      | OneOrMore, String a s' => if in_class cl a then repeat (Some a) s' else None
      | OneOrMore, EmptyString => None
      end
  end.

Fixpoint search_from (items : list regex_item) (prev : option ascii) (s : string) : bool :=
  match match_here items prev s with
  | Some _ => true
  | None =>
      match s with
      | String a s' => search_from items (Some a) s'
      | EmptyString => false
      end
  end.

Definition search (pattern text : string) : bool :=
  search_from (compile pattern) None text.

(** Leftmost, non-overlapping replacement. *)
Fixpoint sub_from (fuel : nat) (items : list regex_item) (repl : string)
    (prev : option ascii) (s : string) : string :=
  match fuel with
  | 0 => s
  | S fuel =>
      match match_here items prev s, s with
      | Some (prev', rest), String a s' =>
          if String.length rest <? String.length s
          then repl +:+ sub_from fuel items repl prev' rest
          else repl +:+ String a (sub_from fuel items repl (Some a) s')
      | Some _, EmptyString => repl
      | None, String a s' => String a (sub_from fuel items repl (Some a) s')
      | None, EmptyString => EmptyString
      end
  end.

Definition sub (pattern repl text : string) : string :=
  sub_from (S (String.length text)) (compile pattern) repl None text.

End ascii_python.

Module ascii_datetime.
Import ascii_python.

(** Days since 1970-01-01 of a proleptic Gregorian date, and back. *)
Definition days_from_civil (y m d : Z) : Z :=
  let y := if (m <=? 2)%Z then (y - 1)%Z else y in
  let era := (y / 400)%Z in
  let yoe := (y - era * 400)%Z in
  let doy := ((153 * (if (2 <? m)%Z then m - 3 else m + 9) + 2) / 5 + d - 1)%Z in
  let doe := (yoe * 365 + yoe / 4 - yoe / 100 + doy)%Z in
  (era * 146097 + doe - 719468)%Z.

Definition civil_from_days (days : Z) : Z * Z * Z :=
  let z := (days + 719468)%Z in
  let era := (z / 146097)%Z in
  let doe := (z - era * 146097)%Z in
  let yoe := ((doe - doe / 1460 + doe / 36524 - doe / 146096) / 365)%Z in
  let doy := (doe - (365 * yoe + yoe / 4 - yoe / 100))%Z in
  let mp := ((5 * doy + 2) / 153)%Z in
  let d := (doy - (153 * mp + 2) / 5 + 1)%Z in
  let m := if (mp <? 10)%Z then (mp + 3)%Z else (mp - 9)%Z in
  let y := (yoe + era * 400 + (if (m <=? 2)%Z then 1 else 0))%Z in
  (y, m, d).

Definition days_in_month (y m : Z) : Z :=
  (days_from_civil (if (m =? 12)%Z then y + 1 else y) (if (m =? 12)%Z then 1 else m + 1) 1
   - days_from_civil y m 1)%Z.

(** The number written by a run of decimal digits. *)
Fixpoint digits_value (acc : Z) (ds : list ascii) : option Z :=
  match ds with
  | [] => Some acc
  | c :: rest =>
      if is_digit c then digits_value (acc * 10 + Z.of_nat (code c - 48))%Z rest
      else None
  end.

Definition number (ds : list ascii) : option Z := digits_value 0%Z ds.

(** [+HH:MM] or [-HH:MM], in microseconds. *)
Definition parse_offset (p : list ascii) : option Z :=
  match p with
  | [sign; h1; h2; ":"%char; m1; m2] =>
      match number [h1; h2], number [m1; m2] with
      | Some h, Some m =>
          if (h <? 24)%Z && (m <? 60)%Z then
            let magnitude := (h * US_PER_HOUR + m * US_PER_MINUTE)%Z in
            if Ascii.eqb sign "+"%char then Some magnitude
            else if Ascii.eqb sign "-"%char then Some (- magnitude)%Z
            else None
          else None
      | _, _ => None
      end
  | _ => None
  end.

(** The optional offset: none at the end of the text. *)
Definition parse_tzinfo (p : list ascii) : option (option Z) :=
  match p with
  | [] => Some None
  | _ =>
      match parse_offset p with
      | Some off => Some (Some off)
      | None => None
      end
  end.

(** The optional fraction [.ffffff] and the optional offset. *)
Definition parse_tail (p : list ascii) : option (Z * option Z) :=
  match p with
  | "."%char :: f1 :: f2 :: f3 :: f4 :: f5 :: f6 :: rest =>
      match number [f1; f2; f3; f4; f5; f6], parse_tzinfo rest with
      | Some us, Some tz => Some (us, tz)
      | _, _ => None
      end
  | _ =>
      match parse_tzinfo p with
      | Some tz => Some (0%Z, tz)
      | None => None
      end
  end.

Definition from_iso (text : string) : option datetime :=
  match list_ascii_of_string text with
  | y1 :: y2 :: y3 :: y4 :: "-"%char :: mo1 :: mo2 :: "-"%char :: d1 :: d2 :: "T"%char
    :: h1 :: h2 :: ":"%char :: mi1 :: mi2 :: ":"%char :: s1 :: s2 :: tail =>
      match number [y1; y2; y3; y4], number [mo1; mo2], number [d1; d2],
            number [h1; h2], number [mi1; mi2], number [s1; s2], parse_tail tail with
      | Some y, Some mo, Some d, Some h, Some mi, Some s, Some (us, off) =>
          if (1 <=? y)%Z && (1 <=? mo)%Z && (mo <=? 12)%Z && (1 <=? d)%Z
             && (d <=? days_in_month y mo)%Z && (h <? 24)%Z && (mi <? 60)%Z && (s <? 60)%Z
          then
            Some {| wall := days_from_civil y mo d * US_PER_DAY + h * US_PER_HOUR
                            + mi * US_PER_MINUTE + s * US_PER_SECOND + us;
                    utcoffset := off |}
          else None
      | _, _, _, _, _, _, _ => None
      end
  | _ => None
  end.

(** [n] written with [width] decimal digits (zero padded). *)
Fixpoint zero_padded (width : nat) (n : Z) : string :=
  match width with
  | 0 => EmptyString
  | S w => zero_padded w (n / 10)%Z +:+ String (ascii_of_nat (48 + Z.to_nat (n mod 10)%Z)) EmptyString
  end.

Definition to_iso (d : datetime) : string :=
  let '(y, mo, dd) := civil_from_days (date d) in
  zero_padded 4 y +:+ "-" +:+ zero_padded 2 mo +:+ "-" +:+ zero_padded 2 dd +:+ "T"
  +:+ zero_padded 2 (hour d) +:+ ":" +:+ zero_padded 2 (minute d) +:+ ":"
  +:+ zero_padded 2 (second d)
  +:+ (if (microsecond d =? 0)%Z then "" else "." +:+ zero_padded 6 (microsecond d))
  +:+ match utcoffset d with
      | Some off =>
          let magnitude := Z.abs off in
          (if (off <? 0)%Z then "-" else "+")
          +:+ zero_padded 2 (magnitude / US_PER_HOUR) +:+ ":"
          +:+ zero_padded 2 ((magnitude / US_PER_MINUTE) mod 60)
      | None => ""
      end.

(** [round(x, ndigits)] for [ndigits >= 0]: the exact value of [x] is rounded
    half-to-even to [ndigits] decimals, and the nearest float is returned. *)
Definition round_half_even (num den : Z) : Z :=
  let q := (num / den)%Z in
  let r := (num mod den)%Z in
  if (den <? 2 * r)%Z then (q + 1)%Z
  else if (2 * r =? den)%Z then (if Z.even q then q else q + 1)%Z
  else q.

Definition float_of_Z (n : Z) : float :=
  if (n <? 0)%Z then PrimFloat.opp (PrimFloat.of_uint63 (Uint63.of_Z (- n)))
  else PrimFloat.of_uint63 (Uint63.of_Z n).

Definition round_to (x : float) (ndigits : Z) : float :=
  let scale := (10 ^ ndigits)%Z in
  match Prim2SF x with
  | S754_finite negative m e =>
      let magnitude :=
        if (0 <=? e)%Z then (Z.pos m * 2 ^ e * scale)%Z
        else round_half_even (Z.pos m * scale) (2 ^ (- e)) in
      let n := if negative then (- magnitude)%Z else magnitude in
      PrimFloat.div (float_of_Z n) (float_of_Z scale)
  | _ => x
  end.

End ascii_datetime.

#[export] Instance ascii_lib : PyLib := {|
  fromisoformat := ascii_datetime.from_iso;
  isoformat := ascii_datetime.to_iso;
  str_lower := ascii_python.lower;
  str_strip := ascii_python.strip;
  unicodedata_normalize_NFKD := fun text => text;
  re_sub := ascii_python.sub;
  re_search := ascii_python.search;
  round_ndigits := ascii_datetime.round_to;
|}.

(** ** Notions used in the statements *)

Module spec.
Import config input_validator history_store duplicate_detector llm_classifier.
Import scheduler logger decision_engine.

(** The three delivery decisions. *)
Definition is_label (s : string) : bool := str_in s ["NOW"; "LATER"; "NEVER"].

(** A rule whose [force_decision] literal and [downgrade] targets are labels. *)
Definition action_labelled (a : rule_engine.rule_action) : bool :=
  match rule_engine.force_decision a with
  | Some forced => is_label forced
  | None => true
  end
  && match rule_engine.downgrade a with
     | Some dg => forallb (fun kv => is_label (snd kv)) (map_to_list dg)
     | None => true
     end.

Definition rule_labelled (r : rule_engine.rule) : bool :=
  match rule_engine.action r with
  | Some a => action_labelled a
  | None => true
  end.

Definition rules_labelled (rules : list rule_engine.rule) : bool :=
  forallb rule_labelled rules.


(** A datetime that carries a UTC offset, and its UTC instant. *)
Definition aware (d : datetime) : bool :=
  match utcoffset d with
  | Some _ => true
  | None => false
  end.




(** The records of a user all carry aware timestamps. *)
Definition all_aware (records : list history_record) : bool :=
  forallb (fun r => aware (h_parsed_timestamp r)) records.


(** The Levenshtein distance of the first [i] characters of [s1] and the
    first [j] characters of [s2], by the textbook recurrence. *)
Fixpoint levenshtein_prefix (s1 s2 : list ascii) (i : nat) : nat -> nat :=
  match i with
  | 0 => fun j => j
  | S i' =>
      fix row (j : nat) : nat :=
        match j with
        | 0 => S i'
        | S j' =>
            if Ascii.eqb (char_at s1 i') (char_at s2 j')
            then levenshtein_prefix s1 s2 i' j'
            else 1 + Nat.min (levenshtein_prefix s1 s2 i' j')
                             (Nat.min (levenshtein_prefix s1 s2 i' (S j')) (row j'))
        end
  end.

Definition levenshtein (s1 s2 : list ascii) : nat :=
  levenshtein_prefix s1 s2 (length s1) (length s2).

(** What a call decides for a validated event, before it is logged and
    recorded: the arguments of [logger.log] and the classifier state. *)
Record outcome := mk_outcome {
  o_decision : string;
  o_scheduled_time : option string;
  o_explanation_code : option string;
  o_reason : reason_text;
  o_matched_rule_id : option string;
  o_confidence : float;
  o_raw_output : raw_output_t;
  o_llm : LLMClassifier;
}.

Definition outcome_of `{PyLib} (now : Z) (self : DecisionEngine) (ev : event)
  : raising outcome :=
  let! dup_result := check now (dedup self) (history self) ev in
  if is_duplicate dup_result then
    Return
      {| o_decision := "NEVER";
         o_scheduled_time := None;
         o_explanation_code := duplicate_type dup_result;
         o_reason :=
           DuplicateSuppressed (duplicate_type dup_result)
             (if truthy (matched_event_id dup_result)
              then slice_to 8 (default "" (matched_event_id dup_result))
              else "unknown");
         o_matched_rule_id := None;
         o_confidence := 0%float;
         o_raw_output := RawEmpty;
         o_llm := llm self |}
  else
    let result := classify (llm self) ev in
    let! decided := decide now self ev (fst result) in
    Return
      {| o_decision := current_decision (fst decided);
         o_scheduled_time := snd decided;
         o_explanation_code := v_explanation_code (fst decided);
         o_reason := v_reason (fst decided);
         o_matched_rule_id := v_matched_rule_id (fst decided);
         o_confidence := confidence (fst result);
         o_raw_output := raw_output (fst result);
         o_llm := snd result |}.

(** The engine a call leaves when it raises: the classifier has counted the
    call when the exception comes after the duplicate check. *)
Definition state_when_raised `{PyLib} (now : Z) (self : DecisionEngine) (ev : event)
  : DecisionEngine :=
  match check now (dedup self) (history self) ev with
  | Raise _ => self
  | Return _ =>
      {| history := history self; dedup := dedup self; rules := rules self;
         llm := snd (classify (llm self) ev); logger := logger self |}
  end.

(** The history record written for [ev] once [decision] and [code] are settled. *)
Definition recorded `{PyLib} (ev : event) (decision : string) (code : option string)
  : history_record :=
  {| h_event_id := event_id ev;
     h_event_type := event_type ev;
     h_source := source ev;
     h_decision := decision;
     h_explanation_code := code;
     h_dedupe_key := dedupe_key ev;
     h_normalized_text := event_text_of ev;
     h_parsed_timestamp := parsed_timestamp ev;
     h_timestamp := timestamp ev |}.

(** Logging and recording an outcome. *)
Definition finish `{PyLib} (self : DecisionEngine) (ev : event) (o : outcome)
  : raising output_record * DecisionEngine :=
  let logged :=
    log (logger self) ev (o_decision o) (o_scheduled_time o) (o_explanation_code o)
      (o_reason o) (o_matched_rule_id o) (o_confidence o) (o_raw_output o) in
  (Return (get_output_record ev (fst logged)),
   {| history := add (history self) (user_id ev)
                   (recorded ev (o_decision o) (o_explanation_code o));
      dedup := dedup self;
      rules := rules self;
      llm := o_llm o;
      logger := snd logged |}).

(** What [process_event] does with a validated event. *)
Definition settle `{PyLib} (now : Z) (self : DecisionEngine) (ev : event)
  : raising output_record * DecisionEngine :=
  match outcome_of now self ev with
  | Return o => finish self ev o
  | Raise e => (Raise e, state_when_raised now self ev)
  end.

(** How a call ended, as far as the label and the code go: the two fields of
    the returned record, or the exception. *)
Definition decision_and_code (result : raising output_record)
  : raising (string * option string) :=
  let! out := result in Return (logger.decision out, logger.explanation_code out).

(** The eleven entries of [input_event] for a validated event. *)
Definition clean_fields (ev : event) : list (string * pyvalue) :=
  [ ("user_id", PyStr (user_id ev));
    ("event_type", PyStr (event_type ev));
    ("title", PyStr (title ev));
    ("message", PyStr (message ev));
    ("source", PyStr (source ev));
    ("priority_hint", py_opt_str (priority_hint ev));
    ("timestamp", PyStr (timestamp ev));
    ("channel", PyStr (channel ev));
    ("metadata", PyDict (metadata ev));
    ("dedupe_key", py_opt_str (dedupe_key ev));
    ("expires_at", py_opt_datetime (expires_at ev)) ].

(** [ev] under another identifier: what validating the same raw event with
    another [uuid4] draw may differ in. *)
Definition with_event_id (ev : event) (identifier : string) : event :=
  {| event_id := identifier;
     user_id := user_id ev;
     event_type := event_type ev;
     title := title ev;
     message := message ev;
     source := source ev;
     priority_hint := priority_hint ev;
     timestamp := timestamp ev;
     parsed_timestamp := parsed_timestamp ev;
     channel := channel ev;
     metadata := metadata ev;
     dedupe_key := dedupe_key ev;
     expires_at := expires_at ev |}.

(** Loop invariants of the single-row dynamic program.  After row [i] the
    matrix holds the distances of the first [i] characters of [s1] to every
    prefix of [s2]. *)
Definition row_ok (s1 s2 : list ascii) (i : nat) (matrix : list nat) : Prop :=
  length matrix = S (length s2)
  /\ forall t, t <= length s2 -> matrix !! t = Some (levenshtein_prefix s1 s2 i t).

(** Inside row [S i'], after column [k]: the columns up to [k] hold the new
    row, the others still hold the previous row, and [prev] is the previous
    row's entry at column [k]. *)
Definition inner_ok (s1 s2 : list ascii) (i' k : nat) (st : list nat * nat) : Prop :=
  length (fst st) = S (length s2)
  /\ (forall t, t <= k -> fst st !! t = Some (levenshtein_prefix s1 s2 (S i') t))
  /\ (forall t, k < t -> t <= length s2 ->
        fst st !! t = Some (levenshtein_prefix s1 s2 i' t))
  /\ snd st = levenshtein_prefix s1 s2 i' k.

(** The last [n] elements of a list: what a [deque(maxlen=n)] holds of the
    elements appended to it. *)
Definition keep_last {A : Type} (n : nat) (l : list A) : list A :=
  drop (length l - n) l.

(** A run of [HistoryStore.add] calls, and the records among them that were
    added for one user. *)
Definition add_all (h : HistoryStore) (ops : list (string * history_record))
  : HistoryStore :=
  fold_left (fun h op => add h (fst op) (snd op)) ops h.

Definition added_for (user : string) (ops : list (string * history_record))
  : list history_record :=
  List.map snd (List.filter (fun op => String.eqb (fst op) user) ops).

(** The order of the rule list: [a] comes before [b]. *)
Definition higher_or_equal (a b : rule_engine.rule) : Prop :=
  (rule_engine.priority_key b <= rule_engine.priority_key a)%Z.

(** The rules of one priority, in the order of the list. *)
Definition with_priority (k : Z) (rules : list rule_engine.rule) : list rule_engine.rule :=
  List.filter (fun r => (rule_engine.priority_key r =? k)%Z) rules.

(** The rules handed to [RuleEngine.__init__] or [reload], as a list or
    through a rules document. *)
Definition given_rules (document : option (option rule_engine.rules_document))
    (data : option (list rule_engine.rule)) : list rule_engine.rule :=
  match data, document with
  | Some rules, _ => rules
  | None, Some (Some (rule_engine.RulesArray rules)) => rules
  | None, Some (Some (rule_engine.RulesObject rules)) => rules
  | None, _ => []
  end.

(** A matched rule that lets [apply_actions] go on to the next one: it forces
    no decision and its daily limit, if any, is not reached. *)
Definition passes_on (now : Z) (ev : event) (store : option HistoryStore)
    (m : rule_engine.rule_match) : Prop :=
  rule_engine.force_decision (rule_engine.matched_action m) = None
  /\ match rule_engine.limit_per_day (rule_engine.matched_action m), store with
     | Some limit, Some st =>
         (Z.of_nat (count_event_type_today now st (user_id ev) (event_type ev)) < limit)%Z
     | _, _ => True
     end.

(** The decisions an explanation code of the pipeline goes with. *)
Definition code_allows (code decision : string) : bool :=
  if str_in code ["DUPLICATE_DEDUPE_KEY"; "DUPLICATE_TEXT_SIMILAR";
                  "FREQUENCY_SUPPRESSION"; "EXPIRED"]
  then String.eqb decision "NEVER"
  else if str_in code ["FREQUENCY_LIMIT"; "CONFLICT_NOISE_LIMIT"]
  then String.eqb decision "LATER"
  else if String.eqb code "URGENT_KEYWORD" then String.eqb decision "NOW"
  else str_in code ["LLM_DECISION"; "FALLBACK"; "RULE_OVERRIDE"].

Definition fits (code : option string) (decision : string) : Prop :=
  exists c, code = Some c /\ code_allows c decision = true.






(** The record returned for an event that failed validation. *)
Definition is_error_record (r : output_record) : bool :=
  opt_str_eqb (logger.explanation_code r) (Some "VALIDATION_ERROR").

End spec.

(** ** Sample inputs *)

Module examples.
Import input_validator rule_engine.

(** 2026-02-27T09:01:00Z, 09:02:00Z and 10:00:00Z as clock readings. *)
Definition at_09_01 : Z := 1772182860000000.
Definition at_09_02 : Z := 1772182920000000.
Definition at_10_00 : Z := 1772186400000000.

(** The OTP message of the quick self-test, with a dedupe key. *)
Definition otp_event : raw_event :=
  {| raw_event_id := Some "evt-otp";
     raw_user_id := Some "u2";
     raw_event_type := Some "message";
     raw_title := Some "Your OTP is 445566";
     raw_message := Some "Use OTP 445566 to complete your login. Valid 5 minutes.";
     raw_source := None;
     raw_priority_hint := Some "urgent";
     raw_timestamp := Some "2026-02-27T09:01:00Z";
     raw_channel := Some "sms";
     raw_metadata := None;
     raw_dedupe_key := Some "otp-445566";
     raw_expires_at := None |}.

(** [otp_event] as [validate_event] normalizes it. *)
Definition otp_validated : event :=
  {| event_id := "evt-otp";
     user_id := "u2";
     event_type := "message";
     title := "Your OTP is 445566";
     message := "Use OTP 445566 to complete your login. Valid 5 minutes.";
     source := "unknown";
     priority_hint := Some "urgent";
     timestamp := "2026-02-27T09:01:00+00:00";
     parsed_timestamp := {| wall := at_09_01; utcoffset := Some 0%Z |};
     channel := "sms";
     metadata := [];
     dedupe_key := Some "otp-445566";
     expires_at := None |}.

(** A message made of punctuation only: its normalized text is empty. *)
Definition punctuation_event : raw_event :=
  {| raw_event_id := None;
     raw_user_id := Some "u5";
     raw_event_type := Some "message";
     raw_title := None;
     raw_message := Some "!!!";
     raw_source := None;
     raw_priority_hint := None;
     raw_timestamp := Some "2026-02-27T09:01:00Z";
     raw_channel := Some "push";
     raw_metadata := None;
     raw_dedupe_key := None;
     raw_expires_at := None |}.

(** A message whose timestamp has no UTC offset: it is parsed as a naive
    datetime. *)
Definition naive_event : raw_event :=
  {| raw_event_id := Some "evt-naive";
     raw_user_id := Some "u7";
     raw_event_type := Some "message";
     raw_title := Some "Lunch";
     raw_message := Some "Lunch at noon";
     raw_source := None;
     raw_priority_hint := None;
     raw_timestamp := Some "2026-02-27T09:01:00";
     raw_channel := Some "push";
     raw_metadata := None;
     raw_dedupe_key := None;
     raw_expires_at := None |}.

(** [naive_event] as [validate_event] normalizes it. *)
Definition naive_validated : event :=
  {| event_id := "evt-naive";
     user_id := "u7";
     event_type := "message";
     title := "Lunch";
     message := "Lunch at noon";
     source := "unknown";
     priority_hint := None;
     timestamp := "2026-02-27T09:01:00";
     parsed_timestamp := {| wall := at_09_01; utcoffset := None |};
     channel := "push";
     metadata := [];
     dedupe_key := None;
     expires_at := None |}.

(** A message whose timestamp carries a UTC offset and whose [expires_at]
    carries none. *)
Definition mixed_expiry_event : raw_event :=
  {| raw_event_id := Some "evt-mixed";
     raw_user_id := Some "u8";
     raw_event_type := Some "message";
     raw_title := Some "Lunch";
     raw_message := Some "Lunch at noon";
     raw_source := None;
     raw_priority_hint := None;
     raw_timestamp := Some "2026-02-27T09:01:00Z";
     raw_channel := Some "push";
     raw_metadata := None;
     raw_dedupe_key := None;
     raw_expires_at := Some "2026-03-01T00:00:00" |}.

(** [mixed_expiry_event] as [validate_event] normalizes it. *)
Definition mixed_expiry_validated : event :=
  {| event_id := "evt-mixed";
     user_id := "u8";
     event_type := "message";
     title := "Lunch";
     message := "Lunch at noon";
     source := "unknown";
     priority_hint := None;
     timestamp := "2026-02-27T09:01:00+00:00";
     parsed_timestamp := {| wall := at_09_01; utcoffset := Some 0%Z |};
     channel := "push";
     metadata := [];
     dedupe_key := None;
     expires_at := Some {| wall := 1772323200000000; utcoffset := None |} |}.

(** A rule a rules document may hold: the loader checks no label. *)
Definition maybe_rule : rule :=
  {| id := Some "r-maybe";
     priority := Some 10%Z;
     description := Some "force an unknown label";
     match_ := Some {| match_event_type := Some ["message"];
                       match_priority_hint := None; match_channel := None;
                       match_source := None; match_time_window := None |};
     action := Some {| force_decision := Some "MAYBE"; downgrade := None;
                       limit_per_day := None |} |}.

(** A rule that defers messages. *)
Definition defer_rule : rule :=
  {| id := Some "r-defer";
     priority := Some 5%Z;
     description := Some "defer messages";
     match_ := Some {| match_event_type := Some ["message"];
                       match_priority_hint := None; match_channel := None;
                       match_source := None; match_time_window := None |};
     action := Some {| force_decision := Some "LATER"; downgrade := None;
                       limit_per_day := None |} |}.

(** Fresh engines: without rules, with each sample rule, with the failure switch. *)
Definition plain_engine : decision_engine.DecisionEngine :=
  decision_engine.init None None false.
Definition failing_engine : decision_engine.DecisionEngine :=
  decision_engine.init None None true.
Definition maybe_engine : decision_engine.DecisionEngine :=
  decision_engine.init (Some (Some (RulesObject [maybe_rule]))) None false.
Definition defer_engine : decision_engine.DecisionEngine :=
  decision_engine.init None (Some [defer_rule]) false.

(** [plain_engine] after other calls: a longer log and a call counter, the
    same history, rules and settings. *)
Definition used_engine : decision_engine.DecisionEngine :=
  {| decision_engine.history := decision_engine.history plain_engine;
     decision_engine.dedup := decision_engine.dedup plain_engine;
     decision_engine.rules := decision_engine.rules plain_engine;
     decision_engine.llm :=
       {| llm_classifier.simulate_failure := false; llm_classifier._call_count := 7 |};
     decision_engine.logger :=
       snd (logger.log logger.init otp_validated "NOW" None (Some "URGENT_KEYWORD")
              logger.ScheduleExpired None 0%float llm_classifier.RawEmpty) |}.

(** The engine after [otp_event] was processed once at 09:01. *)
Definition engine_after_otp : decision_engine.DecisionEngine :=
  snd (decision_engine.process_event at_09_01 "uuid-1" plain_engine (RawDict otp_event)).

(** The engine after [naive_event] was processed once at 09:01. *)
Definition engine_after_naive : decision_engine.DecisionEngine :=
  snd (decision_engine.process_event at_09_01 "uuid-1" plain_engine (RawDict naive_event)).

(** Alerts of one source to one user, ten seconds apart. *)
Definition alert (identifier title message stamp : string) : raw_event :=
  {| raw_event_id := Some identifier;
     raw_user_id := Some "u9";
     raw_event_type := Some "alert";
     raw_title := Some title;
     raw_message := Some message;
     raw_source := Some "monitoring";
     raw_priority_hint := Some "high";
     raw_timestamp := Some stamp;
     raw_channel := Some "push";
     raw_metadata := None;
     raw_dedupe_key := None;
     raw_expires_at := None |}.

Definition alerts : list raw_input :=
  [ RawDict (alert "a1" "Server down" "Server srv-42 in zone A is unreachable"
               "2026-02-27T09:01:00Z");
    RawDict (alert "a2" "Database outage" "Primary database cluster reports an outage"
               "2026-02-27T09:01:10Z");
    RawDict (alert "a3" "Disk failure" "Disk array 7 reported a critical failure"
               "2026-02-27T09:01:20Z");
    RawDict (alert "a4" "Security breach" "Unauthorized login blocked on the admin console"
               "2026-02-27T09:01:30Z");
    RawDict (alert "a5" "Memory overload" "Worker pool crashed under memory overload"
               "2026-02-27T09:01:40Z") ].

Definition sixth_alert : raw_event :=
  alert "a6" "Emergency" "Emergency: payment gateway returns error 500"
    "2026-02-27T09:01:50Z".

(** [sixth_alert] as [validate_event] normalizes it. *)
Definition sixth_alert_validated : event :=
  {| event_id := "a6";
     user_id := "u9";
     event_type := "alert";
     title := "Emergency";
     message := "Emergency: payment gateway returns error 500";
     source := "monitoring";
     priority_hint := Some "high";
     timestamp := "2026-02-27T09:01:50+00:00";
     parsed_timestamp := {| wall := 1772182910000000; utcoffset := Some 0%Z |};
     channel := "push";
     metadata := [];
     dedupe_key := None;
     expires_at := None |}.

(** The engine after the five [alerts] were processed at 09:02. *)
Definition engine_after_alerts : decision_engine.DecisionEngine :=
  snd (decision_engine.process_batch (repeat at_09_02 5) (repeat "uuid" 5) plain_engine
         alerts).


(** Matches of a rule that downgrades NOW and of [maybe_rule]. *)
Definition downgrade_match : rule_match :=
  {| rule_id := "r-quiet";
     matched_rule :=
       {| id := Some "r-quiet"; priority := Some 20%Z;
          description := Some "quiet hours";
          match_ := None;
          action := Some {| force_decision := None;
                            downgrade := Some {[ "NOW" := "LATER" ]};
                            limit_per_day := None |} |};
     matched_action := {| force_decision := None;
                          downgrade := Some {[ "NOW" := "LATER" ]};
                          limit_per_day := None |} |}.

Definition maybe_match : rule_match :=
  {| rule_id := "r-maybe";
     matched_rule := maybe_rule;
     matched_action := {| force_decision := Some "MAYBE"; downgrade := None;
                          limit_per_day := None |} |}.

End examples.

(** * Verification *)

Import config input_validator history_store duplicate_detector llm_classifier.
Import scheduler logger decision_engine spec.

(** ** Returning and raising *)

Lemma bind_returns {A B : Type} (c : raising A) (k : A -> raising B) (b : B) :
  bind c k = Return b <-> exists a, c = Return a /\ k a = Return b.
Proof.
  destruct c as [a|e]; cbn.
  - split; [intros Hk; exists a; split; [reflexivity | exact Hk]|].
    intros (a' & Ha & Hk). inversion Ha. subst a'. exact Hk.
  - split; [discriminate | intros (a' & Ha & _); discriminate].
Qed.

(** Splits a hypothesis [let! x := c in k = Return b] into its two steps. *)
Ltac returned H :=
  let a := fresh "a" in
  let Ha := fresh "Hret" in
  apply bind_returns in H as (a & Ha & H).


(** Comparing with an aware value returns exactly for aware values. *)
Lemma comparands_returns_aware (a b : datetime) (r : Z * Z) :
  aware b = true -> comparands a b = Return r -> aware a = true.
Proof.
  unfold aware, comparands.
  destruct (utcoffset a), (utcoffset b); try discriminate; reflexivity.
Qed.


Lemma filter_raising_all_return {A : Type} (keep : A -> raising bool) (l kept : list A) :
  filter_raising keep l = Return kept ->
  Forall (fun x => exists b, keep x = Return b) l.
Proof.
  revert kept. induction l as [|x rest IH]; intros kept Hk; [constructor|].
  cbn [filter_raising] in Hk. returned Hk. returned Hk.
  constructor; [eauto | exact (IH _ Hret0)].
Qed.

Section store_queries.

Variables (now : Z) (h : HistoryStore) (user : string) (minutes : Z).


Lemma get_recent_returns (recent : list history_record) :
  get_recent now h user (Some minutes) = Return recent ->
  all_aware (records_of h user) = true.
Proof.
  unfold get_recent. intros Hr. apply filter_raising_all_return in Hr.
  unfold all_aware. apply forallb_forall. intros r Hin.
  rewrite List.Forall_forall in Hr. destruct (Hr r Hin) as [b Hb].
  unfold dt_ge in Hb. returned Hb.
  apply (comparands_returns_aware _ _ _ (eq_refl : aware (dt_add (utc now) _) = true) Hret).
Qed.

End store_queries.

(** ** The pipeline *)

Section pipeline.
Context `{L : PyLib}.

(** A validation failure returns the error record and the engine as it was. *)
Lemma process_event_invalid (now : Z) (uuid : string) (self : DecisionEngine)
    (raw : raw_input) (e : ValidationError) :
  validate_event uuid raw = inl e ->
  process_event now uuid self raw =
    (Return {| input_event := AsReceived raw; decision := "NEVER"; scheduled_time := None;
               explanation_code := Some "VALIDATION_ERROR"; reason := InvalidEvent e;
               matched_rule_id := None |}, self).
Proof. intros Hv. unfold process_event. rewrite Hv. reflexivity. Qed.

(** A validated event is settled by [outcome_of] and then logged and recorded. *)
Lemma process_event_valid (now : Z) (uuid : string) (self : DecisionEngine)
    (raw : raw_input) (ev : event) :
  validate_event uuid raw = inr ev ->
  process_event now uuid self raw = settle now self ev.
Proof.
  intros Hv. unfold process_event, settle, outcome_of, state_when_raised, finish.
  rewrite Hv.
  destruct (check now (dedup self) (history self) ev) as [dup|e]; cbn [bind];
    [|reflexivity].
  destruct (is_duplicate dup); [reflexivity|].
  destruct (classify (llm self) ev) as [result llm'] eqn:Hc. cbn [fst snd].
  match goal with |- context [decide ?n ?s ?e ?r] =>
    change (decide n s e r) with (decide now self ev result) end.
  destruct (decide now self ev result) as [[v sched]|e]; reflexivity.
Qed.

(** What a returning call on a validated event returned and left. *)
Lemma process_event_returned (now : Z) (uuid : string) (self : DecisionEngine)
    (raw : raw_input) (ev : event) (out : output_record) :
  validate_event uuid raw = inr ev ->
  fst (process_event now uuid self raw) = Return out ->
  exists o, outcome_of now self ev = Return o
            /\ process_event now uuid self raw = finish self ev o.
Proof.
  intros Hv. rewrite (process_event_valid _ _ _ _ _ Hv). unfold settle.
  destruct (outcome_of now self ev) as [o|e]; [eauto | discriminate].
Qed.

(** [compute_scheduled_time] never returns [None]. *)
Lemma scheduled_for_some (ev : event) (code : option string) (fc : Z) :
  exists s, scheduled_for ev code fc = Some s.
Proof.
  unfold scheduled_for.
  repeat match goal with |- context [if ?b then _ else _] => destruct b end; eauto.
Qed.

Lemma compute_scheduled_time_not_none (ev : event) (code : option string) (fc : Z) :
  compute_scheduled_time ev code fc <> Return None.
Proof.
  unfold compute_scheduled_time.
  destruct (scheduled_for_some ev code fc) as [s ->].
  destruct (expires_at ev) as [e|]; [|discriminate].
  destruct (dt_gt s e) as [[|]|]; discriminate.
Qed.

(** Step 7 leaves a scheduled time exactly on the verdict LATER. *)
Lemma schedule_later (ev : event) (freq_count : nat) (v v' : verdict)
    (time : option string) :
  schedule ev freq_count v = Return (v', time) ->
  (is_Some time <-> current_decision v' = "LATER").
Proof.
  unfold schedule.
  destruct (String.eqb (current_decision v) "LATER") eqn:Hl.
  - apply String.eqb_eq in Hl. intros Hs. returned Hs.
    destruct a as [[|text]|]; inversion Hs; subst v' time; cbn.
    + split; [intros [x Hx]; discriminate | discriminate].
    + split; [intros _; exact Hl | intros _; eexists; reflexivity].
    + exfalso. exact (compute_scheduled_time_not_none _ _ _ Hret).
  - apply String.eqb_neq in Hl. intros Hs. inversion Hs. subst v' time.
    split; [intros [x Hx]; discriminate | intros Hx; contradiction].
Qed.

(** The same for a whole outcome: duplicates carry no time and are NEVER. *)
Lemma outcome_later (now : Z) (self : DecisionEngine) (ev : event) (o : outcome) :
  outcome_of now self ev = Return o ->
  (is_Some (o_scheduled_time o) <-> o_decision o = "LATER").
Proof.
  unfold outcome_of. intros Ho. returned Ho.
  destruct (is_duplicate a).
  - inversion Ho. cbn. split; [intros [x Hx]; discriminate | discriminate].
  - returned Ho. inversion Ho. cbn [o_scheduled_time o_decision].
    unfold decide in Hret0. returned Hret0. returned Hret0.
    destruct a0 as [v' time]. exact (schedule_later _ _ _ _ _ Hret0).
Qed.

(** C9. When validation fails, [process_event] returns the NEVER /
    VALIDATION_ERROR record and leaves the whole engine state as it was: the
    history of every user and the logger's list are unchanged. *)
Theorem validation_failure_leaves_engine_unchanged (now : Z) (uuid : string)
    (self : DecisionEngine) (raw : raw_input) (e : ValidationError) :
  validate_event uuid raw = inl e ->
  let result := process_event now uuid self raw in
  (exists record,
     fst result = Return record
     /\ logger.decision record = "NEVER"
     /\ logger.explanation_code record = Some "VALIDATION_ERROR"
     /\ logger.scheduled_time record = None
     /\ input_event record = AsReceived raw)
  /\ snd result = self
  /\ (forall user, records_of (history (snd result)) user = records_of (history self) user)
  /\ logs (logger (snd result)) = logs (logger self).
Proof.
  intros Hv result. subst result. rewrite (process_event_invalid _ _ _ _ _ Hv). cbn.
  split; [eexists; repeat split; reflexivity|]. repeat split; reflexivity.
Qed.

(** C10. For a validated event the returned output record's [input_event] is
    the validated event without [parsed_timestamp] and [event_id]: the other
    eleven fields are present, in order, with their validated values. *)
Theorem output_input_event_is_cleaned (now : Z) (uuid : string)
    (self : DecisionEngine) (raw : raw_input) (ev : event) (out : output_record) :
  validate_event uuid raw = inr ev ->
  fst (process_event now uuid self raw) = Return out ->
  input_event out = Cleaned (clean_fields ev)
  /\ (forall k v, In (k, v) (clean_fields ev)
                  <-> In (k, v) (items ev) /\ k <> "parsed_timestamp" /\ k <> "event_id").
Proof.
  intros Hv Hout.
  destruct (process_event_returned _ _ _ _ _ _ Hv Hout) as (o & _ & Hp).
  rewrite Hp in Hout. inversion Hout. split; [reflexivity|].
  intros k v.
  change (clean_fields ev) with
    (List.filter (fun kv => negb (str_in (fst kv) ["parsed_timestamp"; "event_id"]))
       (items ev)).
  rewrite filter_In. cbn [fst str_in existsb]. rewrite !orb_false_r.
  rewrite negb_true_iff, orb_false_iff, !String.eqb_neq. reflexivity.
Qed.

(** C5. A returned output record carries a scheduled time exactly when its
    decision is LATER. *)
Theorem scheduled_time_iff_later (now : Z) (uuid : string) (self : DecisionEngine)
    (raw : raw_input) (out : output_record) :
  fst (process_event now uuid self raw) = Return out ->
  (is_Some (logger.scheduled_time out) <-> logger.decision out = "LATER").
Proof.
  intros Hout. destruct (validate_event uuid raw) as [e|ev] eqn:Hv.
  - rewrite (process_event_invalid _ _ _ _ _ Hv) in Hout. inversion Hout. cbn.
    split; [intros [x Hx]; discriminate | discriminate].
  - destruct (process_event_returned _ _ _ _ _ _ Hv Hout) as (o & Ho & Hp).
    rewrite Hp in Hout. inversion Hout. cbn. exact (outcome_later _ _ _ _ Ho).
Qed.

(** *** The history store *)

(** [deque.append] keeps the new record last and never exceeds [maxlen]. *)
Lemma deque_append_length (maxlen : nat) (d : list history_record) (r : history_record) :
  length (deque_append maxlen d r) = Nat.min maxlen (S (length d)).
Proof.
  unfold deque_append. rewrite length_drop, length_app. cbn. lia.
Qed.


Lemma records_of_add_same (h : HistoryStore) (user : string) (r : history_record) :
  records_of (add h user r) user = deque_append (buffer_size h) (records_of h user) r.
Proof. unfold records_of at 1, add. cbn. rewrite lookup_insert_eq. reflexivity. Qed.

Lemma records_of_add_other (h : HistoryStore) (user other : string) (r : history_record) :
  other <> user -> records_of (add h user r) other = records_of h other.
Proof.
  intros Hne. unfold records_of, add. cbn. rewrite lookup_insert_ne by congruence.
  reflexivity.
Qed.

Lemma state_when_raised_history (now : Z) (self : DecisionEngine) (ev : event) :
  history (state_when_raised now self ev) = history self.
Proof.
  unfold state_when_raised. destruct (check now (dedup self) (history self) ev); reflexivity.
Qed.

(** X1. A call that returns on a validated event appends one record for that
    user, with the decision and code of the output record (also for a
    suppressed duplicate), and touches no other user; a call that raises, or
    whose event fails validation, leaves the store as it was. *)
Theorem history_after_call (now : Z) (uuid : string) (self : DecisionEngine)
    (raw : raw_input) :
  let result := process_event now uuid self raw in
  match validate_event uuid raw, fst result with
  | inr ev, Return out =>
      let record := recorded ev (logger.decision out) (logger.explanation_code out) in
      history (snd result) = add (history self) (user_id ev) record
      /\ records_of (history (snd result)) (user_id ev)
         = deque_append (buffer_size (history self))
             (records_of (history self) (user_id ev)) record
      /\ (forall other, other <> user_id ev ->
            records_of (history (snd result)) other = records_of (history self) other)
  | inr ev, Raise _ => history (snd result) = history self
  | inl _, _ => history (snd result) = history self
  end.
Proof.
  intros result. subst result.
  destruct (validate_event uuid raw) as [e|ev] eqn:Hv.
  - rewrite (process_event_invalid _ _ _ _ _ Hv). reflexivity.
  - rewrite (process_event_valid _ _ _ _ _ Hv). unfold settle.
    destruct (outcome_of now self ev) as [o|e]; cbn.
    + split; [reflexivity|]. split.
      * apply records_of_add_same.
      * intros other Hne. apply records_of_add_other. exact Hne.
    + apply state_when_raised_history.
Qed.

(** *** Labels *)

Lemma fallback_event_type_label (event_type : string) :
  is_label (default "LATER" (dict_get FALLBACK_EVENT_TYPE_MAP event_type)) = true.
Proof.
  unfold FALLBACK_EVENT_TYPE_MAP. cbn [dict_get].
  repeat match goal with |- context [String.eqb ?a ?b] => destruct (String.eqb a b) end;
    reflexivity.
Qed.

Lemma fallback_priority_label (p l : string) :
  dict_get FALLBACK_MAP p = Some l -> is_label l = true.
Proof.
  unfold FALLBACK_MAP. cbn [dict_get].
  repeat match goal with |- context [String.eqb ?a ?b] => destruct (String.eqb a b) end;
    intros Heq; inversion Heq; reflexivity.
Qed.

Lemma _llm_classify_label (ev : event) : is_label (label (_llm_classify ev)) = true.
Proof.
  unfold _llm_classify.
  repeat match goal with
         | |- context [let '(_, _) := (if ?b then _ else _) in _] => destruct b
         end; cbn [label];
  repeat match goal with
         | |- context [if ?b then _ else _] => destruct b
         end; cbn [label]; try reflexivity; apply fallback_event_type_label.
Qed.

Lemma _fallback_label (ev : event) (why : string) : is_label (label (_fallback ev why)) = true.
Proof.
  unfold _fallback. cbn [label].
  destruct (priority_hint ev) as [p|]; [|apply fallback_event_type_label].
  destruct (dict_get FALLBACK_MAP p) as [l|] eqn:Hp.
  - exact (fallback_priority_label _ _ Hp).
  - apply fallback_event_type_label.
Qed.

Lemma classify_label (self : LLMClassifier) (ev : event) :
  is_label (label (fst (classify self ev))) = true.
Proof.
  unfold classify. cbn [simulate_failure].
  destruct (simulate_failure self); cbn [fst].
  - apply _fallback_label.
  - apply _llm_classify_label.
Qed.

Lemma downgrade_target_label (a : rule_engine.rule_action) (dg : gmap string string)
    (from target : string) :
  action_labelled a = true ->
  rule_engine.downgrade a = Some dg -> dg !! from = Some target ->
  is_label target = true.
Proof.
  unfold action_labelled. intros Hl Hdg Hlook. rewrite Hdg in Hl.
  apply andb_true_iff in Hl as [_ Hall].
  rewrite forallb_forall in Hall.
  apply (Hall (from, target)). apply list_elem_of_In, elem_of_map_to_list. exact Hlook.
Qed.

Lemma forced_label (a : rule_engine.rule_action) (forced : string) :
  action_labelled a = true -> rule_engine.force_decision a = Some forced ->
  is_label forced = true.
Proof.
  unfold action_labelled. intros Hl Hf. rewrite Hf in Hl.
  apply andb_true_iff in Hl as [Hl _]. exact Hl.
Qed.

(** The loop of [apply_actions] only ever writes labels when the matched
    actions hold only labels. *)
Lemma apply_loop_label (now : Z) (ev : event) (store : option HistoryStore)
    (matched : list rule_engine.rule_match) :
  Forall (fun m => action_labelled (rule_engine.matched_action m) = true) matched ->
  forall (current : string) (result : rule_engine.rule_result),
    is_label (rule_engine.decision result) = true ->
    is_label (rule_engine.decision
                (rule_engine.apply_loop now ev store matched current result)) = true.
Proof.
  induction 1 as [|m rest Hm Hrest IH]; intros current result Hres; cbn [rule_engine.apply_loop].
  - exact Hres.
  - destruct (rule_engine.force_decision (rule_engine.matched_action m)) as [forced|] eqn:Hf.
    + cbn. exact (forced_label _ _ Hm Hf).
    + destruct (rule_engine.downgrade (rule_engine.matched_action m)) as [dg|] eqn:Hdg.
      * destruct (dg !! current) as [target|] eqn:Hlook.
        -- pose proof (downgrade_target_label _ _ _ _ Hm Hdg Hlook) as Ht.
           destruct (rule_engine.limit_per_day (rule_engine.matched_action m)) as [limit|];
             [destruct store as [st|]|]; try (apply IH; exact Ht).
           destruct (limit <=? _)%Z; [reflexivity | apply IH; exact Ht].
        -- destruct (rule_engine.limit_per_day (rule_engine.matched_action m)) as [limit|];
             [destruct store as [st|]|]; try (apply IH; exact Hres).
           destruct (limit <=? _)%Z; [reflexivity | apply IH; exact Hres].
      * destruct (rule_engine.limit_per_day (rule_engine.matched_action m)) as [limit|];
          [destruct store as [st|]|]; try (apply IH; exact Hres).
        destruct (limit <=? _)%Z; [reflexivity | apply IH; exact Hres].
Qed.

Lemma match_rules_labelled (engine : rule_engine.RuleEngine) (ev : event) :
  rules_labelled (rule_engine.rules engine) = true ->
  Forall (fun m => action_labelled (rule_engine.matched_action m) = true)
         (rule_engine.match_rules engine ev).
Proof.
  unfold rules_labelled, rule_engine.match_rules. intros Hall.
  rewrite forallb_forall in Hall.
  apply List.Forall_forall. intros m Hin.
  apply in_map_iff in Hin as [r [<- Hr]]. apply filter_In in Hr as [Hr _].
  specialize (Hall r Hr). unfold rule_labelled in Hall. cbn.
  destruct (rule_engine.action r); [exact Hall | reflexivity].
Qed.

Lemma apply_rules_label (now : Z) (self : DecisionEngine) (ev : event) (v : verdict) :
  rules_labelled (rule_engine.rules (rules self)) = true ->
  is_label (current_decision v) = true ->
  is_label (current_decision (apply_rules now self ev v)) = true.
Proof.
  intros Hrules Hv. unfold apply_rules.
  pose proof (match_rules_labelled (rules self) ev Hrules) as Hm.
  destruct (rule_engine.match_rules (rules self) ev) as [|m rest] eqn:Hmatch; [exact Hv|].
  destruct (truthy _); [|exact Hv]. cbn [current_decision].
  unfold rule_engine.apply_actions. apply apply_loop_label; [exact Hm | exact Hv].
Qed.

Lemma frequency_check_label (ev : event) (freq_count : nat) (v : verdict) :
  is_label (current_decision v) = true ->
  is_label (current_decision (frequency_check ev freq_count v)) = true.
Proof.
  intros Hv. unfold frequency_check.
  repeat match goal with |- context [if ?b then _ else _] => destruct b end;
    try exact Hv; reflexivity.
Qed.

Lemma noise_check_label (now : Z) (self : DecisionEngine) (ev : event) (v v' : verdict) :
  is_label (current_decision v) = true ->
  noise_check now self ev v = Return v' ->
  is_label (current_decision v') = true.
Proof.
  intros Hv. unfold noise_check.
  destruct (String.eqb (current_decision v) "NOW"); [|intros Hn; inversion Hn; subst; exact Hv].
  intros Hn. returned Hn.
  destruct (NOISE_LIMIT_MAX_URGENT <=? a); inversion Hn; subst; [reflexivity | exact Hv].
Qed.

Lemma schedule_label (ev : event) (freq_count : nat) (v v' : verdict)
    (time : option string) :
  is_label (current_decision v) = true ->
  schedule ev freq_count v = Return (v', time) ->
  is_label (current_decision v') = true.
Proof.
  intros Hv. unfold schedule.
  destruct (String.eqb (current_decision v) "LATER");
    [|intros Hs; inversion Hs; subst; exact Hv].
  intros Hs. returned Hs.
  destruct a as [[|text]|]; inversion Hs; subst; try exact Hv; reflexivity.
Qed.

Lemma outcome_label (now : Z) (self : DecisionEngine) (ev : event) (o : outcome) :
  rules_labelled (rule_engine.rules (rules self)) = true ->
  outcome_of now self ev = Return o ->
  is_label (o_decision o) = true.
Proof.
  intros Hrules. unfold outcome_of. intros Ho. returned Ho.
  destruct (is_duplicate a); [inversion Ho; reflexivity|].
  returned Ho. inversion Ho. cbn [o_decision].
  unfold decide in Hret0. returned Hret0. returned Hret0. destruct a0 as [v' time].
  cbn [fst]. refine (schedule_label _ _ _ _ _ _ Hret0).
  refine (noise_check_label _ _ _ _ _ _ Hret2).
  apply frequency_check_label, apply_rules_label; [exact Hrules|].
  cbn [current_decision]. apply classify_label.
Qed.

(** The loader keeps the rules it is given, so a document of labelled rules
    gives an engine of labelled rules. *)
Lemma insert_by_priority_labelled (r : rule_engine.rule) (sorted : list rule_engine.rule) :
  rules_labelled (rule_engine.insert_by_priority r sorted)
  = rule_labelled r && rules_labelled sorted.
Proof.
  induction sorted as [|x rest IH]; cbn; [reflexivity|].
  destruct (rule_engine.priority_key r <? rule_engine.priority_key x)%Z; cbn.
  - fold (rules_labelled (rule_engine.insert_by_priority r rest)). rewrite IH.
    fold (rules_labelled rest).
    destruct (rule_labelled x), (rule_labelled r); reflexivity.
  - reflexivity.
Qed.

Lemma sorted_by_priority_labelled (rules : list rule_engine.rule) :
  rules_labelled (rule_engine.sorted_by_priority rules) = rules_labelled rules.
Proof.
  induction rules as [|r rest IH]; [reflexivity|].
  cbn [rule_engine.sorted_by_priority foldr].
  fold (rule_engine.sorted_by_priority rest).
  rewrite insert_by_priority_labelled, IH. reflexivity.
Qed.

Lemma init_rules_labelled (document : option (option rule_engine.rules_document))
    (data : option (list rule_engine.rule)) :
  match data, document with
  | Some rules, _ => rules_labelled rules = true
  | None, Some (Some (rule_engine.RulesArray rules)) => rules_labelled rules = true
  | None, Some (Some (rule_engine.RulesObject rules)) => rules_labelled rules = true
  | None, _ => True
  end ->
  rules_labelled (rule_engine.rules (rule_engine.init document data)) = true.
Proof.
  unfold rule_engine.init, rule_engine._load_rules.
  destruct data as [rules|]; [|destruct document as [[[rules|rules]|]|]]; cbn;
    rewrite ?sorted_by_priority_labelled; auto.
Qed.

(** C1 (amended). When the force_decision literals and downgrade targets of
    the engine's rules are among NOW, LATER and NEVER, the decision of every
    record returned by [process_event] is one of NOW, LATER and NEVER, for
    every raw input, every history and every clock reading. *)
Theorem decision_is_label_for_labelled_rules (now : Z) (uuid : string)
    (self : DecisionEngine) (raw : raw_input) (out : output_record) :
  rules_labelled (rule_engine.rules (rules self)) = true ->
  fst (process_event now uuid self raw) = Return out ->
  is_label (logger.decision out) = true.
Proof.
  intros Hrules Hout.
  destruct (validate_event uuid raw) as [e|ev] eqn:Hv.
  - rewrite (process_event_invalid _ _ _ _ _ Hv) in Hout. inversion Hout. reflexivity.
  - destruct (process_event_returned _ _ _ _ _ _ Hv Hout) as (o & Ho & Hp).
    rewrite Hp in Hout. inversion Hout. cbn. exact (outcome_label _ _ _ _ Hrules Ho).
Qed.

End pipeline.

(** ** The scheduler *)

Section scheduling.
Context `{L : PyLib}.

#[local] Ltac unfold_units :=
  unfold replace_hms0, dt_add in *;
  unfold date, hour, minute, second, microsecond,
    timedelta_days, timedelta_minutes, US_PER_DAY, US_PER_HOUR, US_PER_MINUTE,
    US_PER_SECOND in *; cbn [wall utcoffset] in *.

#[local] Ltac euclid := unfold_units; Z.div_mod_to_equations; lia.







(** Replacing the time of day by a later hour moves the wall clock forward. *)
Lemma replace_hms0_later (d : datetime) (h : Z) :
  (hour d < h)%Z -> (wall d < wall (replace_hms0 d h))%Z.
Proof. intros Hh. euclid. Qed.

(** Any hour of the next day is later than now. *)
Lemma next_day_later (d : datetime) (h : Z) :
  (0 <= h)%Z -> (wall d < wall (replace_hms0 (dt_add d (timedelta_days 1)) h))%Z.
Proof. intros Hh. euclid. Qed.

(** Two datetimes of one UTC offset (or both naive) compare by wall clock. *)
Lemma dt_gt_same_offset (a b : datetime) :
  utcoffset a = utcoffset b -> dt_gt a b = Return (wall b <? wall a)%Z.
Proof.
  intros Ho. unfold dt_gt, comparands. rewrite Ho.
  destruct (utcoffset b) as [offset|]; cbn; [|reflexivity].
  f_equal. apply eq_true_iff_eq. rewrite !Z.ltb_lt. lia.
Qed.



(** Every branch of the scheduler keeps the timestamp's UTC offset and moves
    its wall clock forward. *)
Lemma scheduled_for_later (ev : event) (code : option string) (fc : Z) (s : datetime) :
  scheduled_for ev code fc = Some s ->
  utcoffset s = utcoffset (parsed_timestamp ev)
  /\ (wall (parsed_timestamp ev) < wall s)%Z.
Proof.
  unfold scheduled_for, _next_morning, _next_working_hour.
  set (ts := parsed_timestamp ev).
  repeat match goal with |- context [if ?b then _ else _] => destruct b eqn:? end;
    intros Hs; inversion Hs; subst s; clear Hs; (split; [reflexivity|]).
  - apply next_day_later. unfold QUIET_RESUME_HOUR. lia.
  - euclid.
  - unfold BASE_BACKOFF_MINUTES. euclid.
  - apply replace_hms0_later. apply Z.ltb_lt. assumption.
  - apply next_day_later. unfold DEFAULT_WORKING_HOUR. lia.
  - euclid.
Qed.


(** C7. Whenever [compute_scheduled_time] returns a timestamp, it is the ISO
    text of a time that compares strictly greater than the event's timestamp:
    it has the timestamp's UTC offset and a later wall clock. *)
Theorem scheduled_time_after_timestamp (ev : event) (code : option string)
    (frequency_count : Z) (text : string) :
  compute_scheduled_time ev code frequency_count = Return (Some (ISO text)) ->
  exists when,
    scheduled_for ev code frequency_count = Some when
    /\ text = isoformat when
    /\ utcoffset when = utcoffset (parsed_timestamp ev)
    /\ (wall (parsed_timestamp ev) < wall when)%Z
    /\ dt_gt when (parsed_timestamp ev) = Return true.
Proof.
  unfold compute_scheduled_time.
  destruct (scheduled_for ev code frequency_count) as [s|] eqn:Hs.
  - intros Hc. exists s. split; [reflexivity|].
    destruct (scheduled_for_later _ _ _ _ Hs) as [Ho Hw].
    split; [|split; [exact Ho|split; [exact Hw|]]].
    + destruct (expires_at ev) as [e|]; [|congruence].
      returned Hc. destruct a; congruence.
    + rewrite (dt_gt_same_offset _ _ Ho). f_equal. apply Z.ltb_lt. exact Hw.
  - destruct (expires_at ev); discriminate.
Qed.

End scheduling.

(** ** The Levenshtein ratio *)

Section levenshtein_dp.
Variables s1 s2 : list ascii.

Lemma levenshtein_prefix_zero_row (j : nat) : levenshtein_prefix s1 s2 0 j = j.
Proof. reflexivity. Qed.

Lemma levenshtein_prefix_zero_column (i : nat) : levenshtein_prefix s1 s2 i 0 = i.
Proof. destruct i; reflexivity. Qed.

Lemma levenshtein_prefix_step (i' j' : nat) :
  levenshtein_prefix s1 s2 (S i') (S j') =
    if Ascii.eqb (char_at s1 i') (char_at s2 j')
    then levenshtein_prefix s1 s2 i' j'
    else 1 + Nat.min (levenshtein_prefix s1 s2 i' j')
                     (Nat.min (levenshtein_prefix s1 s2 i' (S j'))
                              (levenshtein_prefix s1 s2 (S i') j')).
Proof. reflexivity. Qed.

Lemma cell_lookup (matrix : list nat) (j v : nat) : matrix !! j = Some v -> cell matrix j = v.
Proof. unfold cell. intros ->. reflexivity. Qed.

(** One pass of the inner loop body extends the invariant by a column. *)
Lemma inner_step_ok (i' k : nat) (st : list nat * nat) :
  S k <= length s2 ->
  inner_ok s1 s2 i' k st ->
  inner_ok s1 s2 i' (S k) (inner_step (char_at s1 i') s2 st (S k)).
Proof.
  intros Hk. destruct st as [matrix prev]. unfold inner_ok. cbn [fst snd].
  intros (Hlen & Hnew & Hold & Hprev).
  pose proof (cell_lookup _ _ _ (Hold (S k) (Nat.lt_succ_diag_r k) Hk)) as Htemp.
  pose proof (cell_lookup _ _ _ (Hnew k (Nat.le_refl k))) as Hleft.
  unfold inner_step. replace (S k - 1) with k by lia.
  rewrite Htemp, Hleft, Hprev.
  set (v := if Ascii.eqb (char_at s1 i') (char_at s2 k)
            then levenshtein_prefix s1 s2 i' k
            else 1 + Nat.min (levenshtein_prefix s1 s2 i' k)
                             (Nat.min (levenshtein_prefix s1 s2 i' (S k))
                                      (levenshtein_prefix s1 s2 (S i') k))).
  assert (Hm : (if Ascii.eqb (char_at s1 i') (char_at s2 k)
                then <[S k := levenshtein_prefix s1 s2 i' k]> matrix
                else <[S k := 1 + Nat.min (levenshtein_prefix s1 s2 i' k)
                                     (Nat.min (levenshtein_prefix s1 s2 i' (S k))
                                              (levenshtein_prefix s1 s2 (S i') k))]> matrix)
               = <[S k := v]> matrix).
  { subst v. destruct (Ascii.eqb (char_at s1 i') (char_at s2 k)); reflexivity. }
  rewrite Hm. cbn [fst snd].
  split; [rewrite length_insert; exact Hlen|]. split; [|split].
  - intros t Ht. destruct (Nat.eq_dec t (S k)) as [->|Hne].
    + rewrite list_lookup_insert_eq by lia. rewrite levenshtein_prefix_step. reflexivity.
    + rewrite list_lookup_insert_ne by congruence. apply Hnew. lia.
  - intros t Hlt Hle. rewrite list_lookup_insert_ne by lia. apply Hold; lia.
  - reflexivity.
Qed.

Lemma inner_loop_ok (i' : nat) (st : list nat * nat) (k : nat) :
  k <= length s2 ->
  inner_ok s1 s2 i' 0 st ->
  inner_ok s1 s2 i' k (fold_left (inner_step (char_at s1 i') s2) (seq 1 k) st).
Proof.
  induction k as [|k IH]; intros Hk Hst; [exact Hst|].
  rewrite seq_S, fold_left_app. cbn [fold_left Nat.add].
  apply inner_step_ok; [exact Hk|]. apply IH; [lia | exact Hst].
Qed.

(** One pass of the outer loop body turns row [i'] into row [S i']. *)
Lemma outer_step_ok (i' : nat) (matrix : list nat) :
  row_ok s1 s2 i' matrix -> row_ok s1 s2 (S i') (outer_step s1 s2 matrix (S i')).
Proof.
  intros (Hlen & Hrow). unfold outer_step. replace (S i' - 1) with i' by lia.
  assert (Hstart : inner_ok s1 s2 i' 0 (<[0 := S i']> matrix, cell matrix 0)).
  { unfold inner_ok. cbn [fst snd]. split; [rewrite length_insert; exact Hlen|].
    split; [|split].
    - intros t Ht. replace t with 0 by lia.
      rewrite list_lookup_insert_eq by lia. rewrite levenshtein_prefix_zero_column.
      reflexivity.
    - intros t Hlt Hle. rewrite list_lookup_insert_ne by lia. apply Hrow. exact Hle.
    - apply cell_lookup, Hrow. lia. }
  destruct (inner_loop_ok i' _ (length s2) (Nat.le_refl _) Hstart)
    as (Hlen' & Hnew & _ & _).
  split; [exact Hlen' | exact Hnew].
Qed.

Lemma outer_loop_ok (i : nat) :
  row_ok s1 s2 i (fold_left (outer_step s1 s2) (seq 1 i) (seq 0 (S (length s2)))).
Proof.
  induction i as [|i IH].
  - change (seq 1 0) with (@nil nat). cbn [fold_left]. split; [apply length_seq|].
    intros t Ht. rewrite lookup_seq_lt by lia. reflexivity.
  - rewrite seq_S, fold_left_app. cbn [fold_left Nat.add]. apply outer_step_ok. exact IH.
Qed.

(** The single-row dynamic program computes the Levenshtein distance. *)
Lemma levenshtein_distance_correct : levenshtein_distance s1 s2 = levenshtein s1 s2.
Proof.
  unfold levenshtein_distance, levenshtein. rewrite Nat.add_1_r.
  destruct (outer_loop_ok (length s1)) as (_ & Hrow).
  apply cell_lookup, Hrow. lia.
Qed.

End levenshtein_dp.


(** ** Replays and repeated runs *)


Section runs.
Context `{L : PyLib}.

(** The drawn identifier only fills in a missing [event_id]. *)
Lemma validate_event_uuid (uuid1 uuid2 : string) (raw : raw_input) :
  match validate_event uuid1 raw with
  | inl e => validate_event uuid2 raw = inl e
  | inr ev => exists identifier, validate_event uuid2 raw = inr (with_event_id ev identifier)
  end.
Proof.
  unfold validate_event. destruct raw as [e|]; [|reflexivity].
  destruct (first_missing e REQUIRED_FIELDS); [reflexivity|].
  destruct (negb (str_in _ VALID_EVENT_TYPES)); [reflexivity|].
  destruct (negb (str_in _ VALID_CHANNELS)); [reflexivity|].
  destruct (parse_iso _) as [ts|]; [|reflexivity].
  cbn [priority_hint].
  destruct (truthy (raw_priority_hint e) && _); [reflexivity|].
  destruct (truthy (raw_expires_at e)).
  - destruct (parse_iso _) as [exp|]; [|reflexivity].
    exists (default uuid2 (raw_event_id e)). reflexivity.
  - exists (default uuid2 (raw_event_id e)). reflexivity.
Qed.

(** Nothing that settles the outcome reads [event_id]. *)
Lemma check_with_event_id (now : Z) (d : DuplicateDetector) (h : HistoryStore)
    (ev : event) (identifier : string) :
  check now d h (with_event_id ev identifier) = check now d h ev.
Proof. reflexivity. Qed.

Lemma classify_result_with_event_id (l1 l2 : LLMClassifier) (ev : event)
    (identifier : string) :
  simulate_failure l1 = simulate_failure l2 ->
  fst (classify l2 (with_event_id ev identifier)) = fst (classify l1 ev).
Proof.
  intros Hf. unfold classify. cbn [simulate_failure]. rewrite Hf.
  destruct (simulate_failure l2); reflexivity.
Qed.

Lemma apply_loop_with_event_id (now : Z) (ev : event) (identifier : string)
    (store : option HistoryStore) (matched : list rule_engine.rule_match) :
  forall (current : string) (result : rule_engine.rule_result),
    rule_engine.apply_loop now (with_event_id ev identifier) store matched current result
    = rule_engine.apply_loop now ev store matched current result.
Proof.
  induction matched as [|m rest IH]; intros current result; cbn [rule_engine.apply_loop];
    [reflexivity|].
  destruct (rule_engine.force_decision (rule_engine.matched_action m)); [reflexivity|].
  destruct (match rule_engine.downgrade (rule_engine.matched_action m) with
            | Some dg => _ | None => _ end) as [result' current'].
  destruct (rule_engine.limit_per_day (rule_engine.matched_action m)) as [limit|];
    [destruct store as [st|]|]; try apply IH.
  cbn [user_id event_type with_event_id].
  destruct (limit <=? _)%Z; [reflexivity | apply IH].
Qed.

Lemma decide_with_event_id (now : Z) (self1 self2 : DecisionEngine) (ev : event)
    (identifier : string) (result : llm_result) :
  history self1 = history self2 -> rules self1 = rules self2 ->
  decide now self2 (with_event_id ev identifier) result = decide now self1 ev result.
Proof.
  intros Hh Hr. unfold decide, apply_rules, noise_check, rule_engine.apply_actions.
  rewrite <- Hh, <- Hr.
  change (rule_engine.match_rules (rules self1) (with_event_id ev identifier))
    with (rule_engine.match_rules (rules self1) ev).
  rewrite apply_loop_with_event_id. reflexivity.
Qed.

(** The parts of an outcome that reach the output record, and whether the
    call raises, depend on the history, the rules, the detector settings, the
    failure switch, the clock and the event's content only. *)
Lemma outcome_agrees (now : Z) (self1 self2 : DecisionEngine) (ev : event)
    (identifier : string) :
  history self1 = history self2 -> rules self1 = rules self2 ->
  dedup self1 = dedup self2 ->
  simulate_failure (llm self1) = simulate_failure (llm self2) ->
  match outcome_of now self1 ev, outcome_of now self2 (with_event_id ev identifier) with
  | Return o1, Return o2 =>
      o_decision o1 = o_decision o2
      /\ o_explanation_code o1 = o_explanation_code o2
      /\ o_scheduled_time o1 = o_scheduled_time o2
  | Raise e1, Raise e2 => e1 = e2
  | _, _ => False
  end.
Proof.
  intros Hh Hr Hd Hf. unfold outcome_of.
  rewrite check_with_event_id, <- Hh, <- Hd.
  destruct (check now (dedup self1) (history self1) ev) as [dup|e]; cbn [bind];
    [|reflexivity].
  destruct (is_duplicate dup).
  - cbn. repeat split; reflexivity.
  - rewrite (classify_result_with_event_id (llm self1) (llm self2) ev identifier Hf).
    rewrite (decide_with_event_id now self1 self2 ev identifier _ Hh Hr).
    destruct (decide now self1 ev (fst (classify (llm self1) ev))) as [decided|e];
      cbn; [repeat split; reflexivity | reflexivity].
Qed.

(** C3 (amended). Two runs of [process_event] on the same raw event, with
    identical history stores, identical rules, the same detector settings, the
    same classifier failure switch and the same clock reading, end alike: both
    return, with the same decision and the same explanation code, or both
    raise the same exception, whatever the logs, the call counters and the
    identifiers drawn for the event. *)
Theorem same_inputs_same_decision_and_code (now : Z) (uuid1 uuid2 : string)
    (self1 self2 : DecisionEngine) (raw : raw_input) :
  history self1 = history self2 ->
  rules self1 = rules self2 ->
  dedup self1 = dedup self2 ->
  simulate_failure (llm self1) = simulate_failure (llm self2) ->
  decision_and_code (fst (process_event now uuid1 self1 raw))
  = decision_and_code (fst (process_event now uuid2 self2 raw)).
Proof.
  intros Hh Hr Hd Hf.
  pose proof (validate_event_uuid uuid1 uuid2 raw) as Hv.
  destruct (validate_event uuid1 raw) as [e|ev] eqn:Hv1.
  - rewrite (process_event_invalid _ _ _ _ _ Hv1), (process_event_invalid _ _ _ _ _ Hv).
    reflexivity.
  - destruct Hv as [identifier Hv2].
    rewrite (process_event_valid _ _ _ _ _ Hv1), (process_event_valid _ _ _ _ _ Hv2).
    unfold settle.
    pose proof (outcome_agrees now self1 self2 ev identifier Hh Hr Hd Hf) as Ho.
    destruct (outcome_of now self1 ev) as [o1|e1],
             (outcome_of now self2 (with_event_id ev identifier)) as [o2|e2];
      cbn; try contradiction; [|congruence].
    destruct Ho as (Hdec & Hcode & _). rewrite Hdec, Hcode. reflexivity.
Qed.

(** *** Replaying an event *)

Lemma count_in_window_returns (now : Z) (h : HistoryStore) (user : string)
    (minutes : Z) (n : nat) :
  count_in_window now h user minutes = Return n -> all_aware (records_of h user) = true.
Proof.
  unfold count_in_window. intros Hc. apply bind_returns in Hc as (recent & Hrecent & _).
  exact (get_recent_returns _ _ _ _ _ Hrecent).
Qed.

(** A call that returns has compared every record of the user with the
    clock: their timestamps are all aware. *)
Lemma outcome_returns_aware (now : Z) (self : DecisionEngine) (ev : event) (o : outcome) :
  outcome_of now self ev = Return o ->
  all_aware (records_of (history self) (user_id ev)) = true.
Proof.
  unfold outcome_of. intros Ho. apply bind_returns in Ho as (dup & Hcheck & Ho).
  destruct (is_duplicate dup) eqn:Hdup.
  - assert (Htext : forall found, text_check now (dedup self) (history self) ev = Return found ->
                      is_duplicate found = true ->
                      all_aware (records_of (history self) (user_id ev)) = true).
    { unfold text_check. intros found Hfound Hyes.
      destruct (negb (String.eqb (event_text_of ev) ""));
        [|inversion Hfound; subst found; discriminate].
      apply bind_returns in Hfound as (entries & Hentries & _).
      unfold get_text_entries in Hentries.
      apply bind_returns in Hentries as (recent & Hrecent & _).
      exact (get_recent_returns _ _ _ _ _ Hrecent). }
    unfold check in Hcheck. destruct (truthy (dedupe_key ev)); [|exact (Htext _ Hcheck Hdup)].
    apply bind_returns in Hcheck as (matches & Hmatches & _).
    unfold get_dedupe_key_entries in Hmatches.
    apply bind_returns in Hmatches as (recent & Hrecent & _).
    exact (get_recent_returns _ _ _ _ _ Hrecent).
  - apply bind_returns in Ho as (decided & Hdecided & _).
    unfold decide in Hdecided. apply bind_returns in Hdecided as (n & Hn & _).
    exact (count_in_window_returns _ _ _ _ _ Hn).
Qed.

(** X2. Once the store holds a record of the user with a naive timestamp,
    every call on a validated event of that user raises [TypeError] and
    leaves the store as it was. *)
Theorem naive_record_makes_calls_raise (now : Z) (uuid : string) (self : DecisionEngine)
    (raw : raw_input) (ev : event) :
  validate_event uuid raw = inr ev ->
  all_aware (records_of (history self) (user_id ev)) = false ->
  fst (process_event now uuid self raw) = Raise TypeError
  /\ history (snd (process_event now uuid self raw)) = history self.
Proof.
  intros Hv Hnaive. rewrite (process_event_valid _ _ _ _ _ Hv). unfold settle.
  destruct (outcome_of now self ev) as [o|e] eqn:Ho.
  - rewrite (outcome_returns_aware _ _ _ _ Ho) in Hnaive. discriminate.
  - destruct e. split; [reflexivity|]. apply state_when_raised_history.
Qed.










End runs.

(** ** Concrete runs *)

Section concrete_runs.
Import examples.

(** The self-test's OTP message is delivered NOW as an urgent keyword hit,
    and NOW by fallback when the classifier is switched to fail. *)
Example otp_is_now :
  decision_and_code (fst (process_event at_09_01 "uuid-1" plain_engine (RawDict otp_event)))
  = Return ("NOW", Some "URGENT_KEYWORD").
Proof. vm_compute. reflexivity. Qed.

Example otp_fallback_is_now :
  decision_and_code (fst (process_event at_09_01 "uuid-1" failing_engine (RawDict otp_event)))
  = Return ("NOW", Some "FALLBACK").
Proof. vm_compute. reflexivity. Qed.

Example kitten_sitting :
  levenshtein (list_ascii_of_string "kitten") (list_ascii_of_string "sitting") = 3.
Proof. reflexivity. Qed.

(** C1, counterexample. A rules document whose rule forces the literal MAYBE
    is loaded as it is, and the OTP message is then decided MAYBE, which is
    none of the three labels. *)
Lemma forced_literal_is_returned :
  rule_engine.rules (rules maybe_engine) = [maybe_rule]
  /\ decision_and_code
       (fst (process_event at_09_01 "uuid-1" maybe_engine (RawDict otp_event)))
     = Return ("MAYBE", Some "RULE_OVERRIDE")
  /\ is_label "MAYBE" = false.
Proof. vm_compute. repeat split; reflexivity. Qed.

(** C1 (amended), at the engine holding the deferring rule. *)
Lemma decision_is_label_for_labelled_rules_witness :
  rules_labelled (rule_engine.rules (rules defer_engine)) = true
  /\ exists out,
       fst (process_event at_09_01 "uuid-1" defer_engine (RawDict otp_event)) = Return out
       /\ is_label (logger.decision out) = true.
Proof.
  assert (Hrules : rules_labelled (rule_engine.rules (rules defer_engine)) = true)
    by reflexivity.
  split; [exact Hrules|].
  destruct (fst (process_event at_09_01 "uuid-1" defer_engine (RawDict otp_event)))
    as [out|e] eqn:Hout; [|vm_compute in Hout; discriminate].
  exists out. split; [reflexivity|].
  exact (decision_is_label_for_labelled_rules at_09_01 "uuid-1" defer_engine
           (RawDict otp_event) out Hrules Hout).
Defined.



(** C3, counterexample. The same engine state, rules and event give
    DUPLICATE_DEDUPE_KEY at 09:02 and URGENT_KEYWORD at 10:00: the outcome
    follows the wall clock.  Two fresh engines with the same (empty) history
    and rules give URGENT_KEYWORD and FALLBACK: the outcome follows the
    classifier's failure switch. *)
Lemma outcome_follows_clock_and_switch :
  (decision_and_code
     (fst (process_event at_09_02 "uuid-2" engine_after_otp (RawDict otp_event)))
   = Return ("NEVER", Some "DUPLICATE_DEDUPE_KEY")
   /\ decision_and_code
        (fst (process_event at_10_00 "uuid-2" engine_after_otp (RawDict otp_event)))
      = Return ("NOW", Some "URGENT_KEYWORD"))
  /\ (history plain_engine = history failing_engine
      /\ rules plain_engine = rules failing_engine
      /\ decision_and_code
           (fst (process_event at_09_01 "uuid-1" plain_engine (RawDict otp_event)))
         = Return ("NOW", Some "URGENT_KEYWORD")
      /\ decision_and_code
           (fst (process_event at_09_01 "uuid-1" failing_engine (RawDict otp_event)))
         = Return ("NOW", Some "FALLBACK")).
Proof. vm_compute. repeat split; reflexivity. Qed.

(** C3 (amended), at a fresh engine and one with a longer log and a call
    counter, and two different identifier draws. *)
Lemma same_inputs_same_decision_and_code_witness :
  history plain_engine = history used_engine
  /\ rules plain_engine = rules used_engine
  /\ dedup plain_engine = dedup used_engine
  /\ simulate_failure (llm plain_engine) = simulate_failure (llm used_engine)
  /\ decision_and_code
       (fst (process_event at_09_01 "uuid-1" plain_engine (RawDict otp_event)))
     = decision_and_code
         (fst (process_event at_09_01 "uuid-2" used_engine (RawDict otp_event))).
Proof.
  assert (Hh : history plain_engine = history used_engine) by reflexivity.
  assert (Hr : rules plain_engine = rules used_engine) by reflexivity.
  assert (Hd : dedup plain_engine = dedup used_engine) by reflexivity.
  assert (Hf : simulate_failure (llm plain_engine) = simulate_failure (llm used_engine))
    by reflexivity.
  split; [exact Hh|]. split; [exact Hr|]. split; [exact Hd|]. split; [exact Hf|].
  exact (same_inputs_same_decision_and_code at_09_01 "uuid-1" "uuid-2" plain_engine
           used_engine (RawDict otp_event) Hh Hr Hd Hf).
Defined.

(** C5, at the OTP message deferred by a rule. *)
Lemma scheduled_time_iff_later_witness :
  exists out,
    fst (process_event at_09_01 "uuid-1" defer_engine (RawDict otp_event)) = Return out
    /\ logger.decision out = "LATER"
    /\ logger.scheduled_time out = Some "2026-02-27T09:16:00+00:00"
    /\ (is_Some (logger.scheduled_time out) <-> logger.decision out = "LATER").
Proof.
  destruct (fst (process_event at_09_01 "uuid-1" defer_engine (RawDict otp_event)))
    as [out|e] eqn:Hout; [|vm_compute in Hout; discriminate].
  exists out. split; [reflexivity|].
  split; [vm_compute in Hout; inversion Hout; reflexivity|].
  split; [vm_compute in Hout; inversion Hout; reflexivity|].
  exact (scheduled_time_iff_later at_09_01 "uuid-1" defer_engine (RawDict otp_event)
           out Hout).
Defined.

(** C6, at the failing inputs. A message whose timestamp carries no UTC
    offset passes validation and is processed once, which writes its record.
    The next call for the same user passes validation too, raises [TypeError]
    when the store compares the recorded naive timestamp with the aware
    cutoff, and appends no record.  A message with an aware timestamp and a
    naive [expires_at] passes validation, is to be deferred, raises
    [TypeError] when the scheduler compares the two, and appends no record
    even on a fresh engine. *)
Theorem second_call_after_naive_timestamp_appends_nothing :
  let first := process_event at_09_01 "uuid-1" plain_engine (RawDict naive_event) in
  let second := process_event at_09_02 "uuid-2" (snd first) (RawDict naive_event) in
  let mixed := process_event at_09_01 "uuid-1" plain_engine (RawDict mixed_expiry_event) in
  (validate_event "uuid-1" (RawDict naive_event) = inr naive_validated
   /\ decision_and_code (fst first) = Return ("LATER", Some "LLM_DECISION")
   /\ length (records_of (history (snd first)) "u7") = 1
   /\ validate_event "uuid-2" (RawDict naive_event) = inr naive_validated
   /\ fst second = Raise TypeError
   /\ records_of (history (snd second)) "u7" = records_of (history (snd first)) "u7"
   /\ length (records_of (history (snd second)) "u7") = 1)
  /\ (validate_event "uuid-1" (RawDict mixed_expiry_event) = inr mixed_expiry_validated
      /\ fst mixed = Raise TypeError
      /\ records_of (history (snd mixed)) "u8" = []).
Proof. vm_compute. repeat split; reflexivity. Qed.

(** X2, at the engine that recorded the message with the naive timestamp. *)
Lemma naive_record_makes_calls_raise_witness :
  validate_event "uuid-2" (RawDict naive_event) = inr naive_validated
  /\ all_aware (records_of (history engine_after_naive) (user_id naive_validated)) = false
  /\ fst (process_event at_10_00 "uuid-2" engine_after_naive (RawDict naive_event))
     = Raise TypeError
  /\ history (snd (process_event at_10_00 "uuid-2" engine_after_naive (RawDict naive_event)))
     = history engine_after_naive.
Proof.
  assert (Hv : validate_event "uuid-2" (RawDict naive_event) = inr naive_validated)
    by (vm_compute; reflexivity).
  assert (Hn : all_aware (records_of (history engine_after_naive) (user_id naive_validated))
               = false) by (vm_compute; reflexivity).
  split; [exact Hv|]. split; [exact Hn|].
  exact (naive_record_makes_calls_raise at_10_00 "uuid-2" engine_after_naive
           (RawDict naive_event) naive_validated Hv Hn).
Defined.

(** C7, at the OTP message deferred for frequency with six recent events. *)
Lemma scheduled_time_after_timestamp_witness :
  compute_scheduled_time otp_validated (Some "FREQUENCY_LIMIT") 6
    = Return (Some (ISO "2026-02-27T09:16:00+00:00"))
  /\ exists when,
       scheduled_for otp_validated (Some "FREQUENCY_LIMIT") 6 = Some when
       /\ "2026-02-27T09:16:00+00:00" = isoformat when
       /\ utcoffset when = utcoffset (parsed_timestamp otp_validated)
       /\ (wall (parsed_timestamp otp_validated) < wall when)%Z
       /\ dt_gt when (parsed_timestamp otp_validated) = Return true.
Proof.
  assert (Hc : compute_scheduled_time otp_validated (Some "FREQUENCY_LIMIT") 6
               = Return (Some (ISO "2026-02-27T09:16:00+00:00")))
    by (vm_compute; reflexivity).
  split; [exact Hc|].
  exact (scheduled_time_after_timestamp otp_validated (Some "FREQUENCY_LIMIT") 6
           "2026-02-27T09:16:00+00:00" Hc).
Defined.


(** C9, at an input that is no JSON object. *)
Lemma validation_failure_leaves_engine_unchanged_witness :
  validate_event "uuid-2" RawNotDict = inl NotAnObject
  /\ (let result := process_event at_09_02 "uuid-2" engine_after_otp RawNotDict in
      (exists record,
         fst result = Return record
         /\ logger.decision record = "NEVER"
         /\ logger.explanation_code record = Some "VALIDATION_ERROR"
         /\ logger.scheduled_time record = None
         /\ input_event record = AsReceived RawNotDict)
      /\ snd result = engine_after_otp
      /\ (forall user, records_of (history (snd result)) user
                       = records_of (history engine_after_otp) user)
      /\ logs (logger (snd result)) = logs (logger engine_after_otp)).
Proof.
  assert (Hv : validate_event "uuid-2" RawNotDict = inl NotAnObject) by reflexivity.
  split; [exact Hv|].
  exact (validation_failure_leaves_engine_unchanged at_09_02 "uuid-2" engine_after_otp
           RawNotDict NotAnObject Hv).
Defined.

(** C10, at the OTP message. *)
Lemma output_input_event_is_cleaned_witness :
  validate_event "uuid-1" (RawDict otp_event) = inr otp_validated
  /\ exists out,
       fst (process_event at_09_01 "uuid-1" plain_engine (RawDict otp_event)) = Return out
       /\ input_event out = Cleaned (clean_fields otp_validated)
       /\ (forall k v, In (k, v) (clean_fields otp_validated)
                       <-> In (k, v) (items otp_validated)
                           /\ k <> "parsed_timestamp" /\ k <> "event_id").
Proof.
  assert (Hv : validate_event "uuid-1" (RawDict otp_event) = inr otp_validated)
    by (vm_compute; reflexivity).
  split; [exact Hv|].
  destruct (fst (process_event at_09_01 "uuid-1" plain_engine (RawDict otp_event)))
    as [out|e] eqn:Hout; [|vm_compute in Hout; discriminate].
  exists out. split; [reflexivity|].
  exact (output_input_event_is_cleaned at_09_01 "uuid-1" plain_engine (RawDict otp_event)
           otp_validated out Hv Hout).
Defined.

End concrete_runs.

(** * Further properties of the code *)

(** ** The history store *)

Section ring_buffer.

Lemma deque_append_keep_last (n : nat) (d : list history_record) (r : history_record) :
  deque_append n (keep_last n d) r = keep_last n (d ++ [r]).
Proof.
  unfold deque_append, keep_last.
  rewrite <- (drop_app_le d [r] (length d - n)) by lia.
  rewrite drop_drop. f_equal.
  rewrite length_drop, !length_app. cbn [length]. lia.
Qed.

Lemma fold_deque_append (n : nat) (rs d : list history_record) :
  fold_left (deque_append n) rs (keep_last n d) = keep_last n (d ++ rs).
Proof.
  revert d. induction rs as [|r rs IH]; intros d; cbn [fold_left].
  - rewrite app_nil_r. reflexivity.
  - rewrite deque_append_keep_last, IH, <- app_assoc. reflexivity.
Qed.

Lemma buffer_size_add_all (h : HistoryStore) (ops : list (string * history_record)) :
  buffer_size (add_all h ops) = buffer_size h.
Proof.
  revert h. induction ops as [|op ops IH]; intros h; [reflexivity|].
  cbn [add_all fold_left]. fold (add_all (add h (fst op) (snd op)) ops). rewrite IH.
  reflexivity.
Qed.

Lemma records_of_add_all (user : string) (ops : list (string * history_record)) :
  forall h,
    records_of (add_all h ops) user
    = fold_left (deque_append (buffer_size h)) (added_for user ops) (records_of h user).
Proof.
  induction ops as [|[u r] ops IH]; intros h; [reflexivity|].
  cbn [add_all fold_left fst snd]. fold (add_all (add h u r) ops). rewrite IH.
  unfold added_for. cbn [List.filter fst]. cbn [buffer_size add].
  destruct (String.eqb u user) eqn:Hu.
  - apply String.eqb_eq in Hu. subst u. cbn [List.map fold_left snd].
    rewrite records_of_add_same. reflexivity.
  - apply String.eqb_neq in Hu. rewrite records_of_add_other by congruence. reflexivity.
Qed.

(** X3. Whatever records are added to a new store, for whatever users and in
    whatever order, the store holds for each user the last [buffer_size]
    records added for that user, oldest first: never more than
    [buffer_size], and none of another user. *)
Theorem store_keeps_last_records (n : nat) (ops : list (string * history_record))
    (user : string) :
  let store := add_all (history_store.init n) ops in
  records_of store user = keep_last n (added_for user ops)
  /\ length (records_of store user) = Nat.min n (length (added_for user ops))
  /\ buffer_size store = n.
Proof.
  cbn zeta.
  assert (Hrecords : records_of (add_all (history_store.init n) ops) user
                     = keep_last n (added_for user ops)).
  { rewrite records_of_add_all.
    change (records_of (history_store.init n) user) with (keep_last n (@nil history_record)).
    apply fold_deque_append. }
  split; [exact Hrecords|]. split.
  - rewrite Hrecords. unfold keep_last. rewrite length_drop. lia.
  - apply buffer_size_add_all.
Qed.

End ring_buffer.


Lemma filter_raising_length {A : Type} (keep : A -> raising bool) (l kept : list A) :
  filter_raising keep l = Return kept -> length kept <= length l.
Proof.
  revert kept. induction l as [|x rest IH]; intros kept Hk; cbn [filter_raising] in Hk.
  - inversion Hk. reflexivity.
  - apply bind_returns in Hk as (b & _ & Hk). apply bind_returns in Hk as (kept' & Hrest & Hk).
    specialize (IH _ Hrest). inversion Hk. destruct b; cbn [length]; lia.
Qed.

Lemma filter_and_length {A : Type} (f g : A -> bool) (l : list A) :
  length (List.filter (fun x => f x && g x) l) <= length (List.filter f l).
Proof.
  induction l as [|x rest IH]; [reflexivity|]. cbn [List.filter].
  destruct (f x), (g x); cbn [andb length]; lia.
Qed.

(** The counters of one window are ordered: by type and decision, by type,
    all of the window, all of the user; they raise together. *)
Lemma window_counts_are_ordered (now : Z) (h : HistoryStore) (user : string)
    (minutes : Z) (event_type decision source : string) :
  match count_in_window now h user minutes with
  | Return total =>
      exists of_type of_type_and_decision urgent,
        count_by_event_type now h user event_type minutes = Return of_type
        /\ count_decisions_by_type now h user event_type decision minutes
           = Return of_type_and_decision
        /\ count_urgent_by_source_or_type now h user event_type source minutes = Return urgent
        /\ of_type_and_decision <= of_type <= total
        /\ urgent <= total
        /\ total <= length (records_of h user)
  | Raise e =>
      count_by_event_type now h user event_type minutes = Raise e
      /\ count_decisions_by_type now h user event_type decision minutes = Raise e
      /\ count_urgent_by_source_or_type now h user event_type source minutes = Raise e
  end.
Proof.
  unfold count_in_window, count_by_event_type, count_decisions_by_type,
    count_urgent_by_source_or_type.
  destruct (get_recent now h user (Some minutes)) as [recent|e] eqn:Hr; cbn [bind].
  - do 3 eexists. repeat (split; [reflexivity|]).
    split; [split; [apply filter_and_length | apply filter_length_le]|].
    split; [apply filter_length_le|].
    exact (filter_raising_length _ _ _ Hr).
  - repeat split; reflexivity.
Qed.

(** X4. [clear_user] forgets the records of one user and of no other, and
    [clear] those of everyone; both keep the buffer size, and a query for a
    forgotten user returns the empty list, also where it raised before. *)
Theorem clearing_forgets_records (now : Z) (h : HistoryStore) (user : string)
    (window : option Z) :
  (records_of (clear_user h user) user = []
   /\ get_recent now (clear_user h user) user window = Return []
   /\ (forall other, other <> user ->
         records_of (clear_user h user) other = records_of h other)
   /\ buffer_size (clear_user h user) = buffer_size h)
  /\ (forall anyone,
        records_of (history_store.clear h) anyone = []
        /\ get_recent now (history_store.clear h) anyone window = Return [])
  /\ buffer_size (history_store.clear h) = buffer_size h.
Proof.
  assert (Hempty : forall store who,
            records_of store who = [] -> get_recent now store who window = Return []).
  { intros store who Hnone. unfold get_recent. rewrite Hnone. destruct window; reflexivity. }
  assert (Huser : records_of (clear_user h user) user = []).
  { unfold records_of, clear_user. cbn [_store]. rewrite lookup_delete_eq. reflexivity. }
  split; [|split].
  - split; [exact Huser|]. split; [exact (Hempty _ _ Huser)|]. split; [|reflexivity].
    intros other Hne. unfold records_of, clear_user. cbn [_store].
    rewrite lookup_delete_ne by congruence. reflexivity.
  - intros anyone.
    assert (Hnone : records_of (history_store.clear h) anyone = []) by reflexivity.
    split; [exact Hnone | exact (Hempty _ _ Hnone)].
  - reflexivity.
Qed.

(** ** The Levenshtein distance *)

Section levenshtein_facts.

Lemma levenshtein_prefix_bounds (s1 s2 : list ascii) (i : nat) :
  forall j,
    levenshtein_prefix s1 s2 i j <= Nat.max i j
    /\ i <= j + levenshtein_prefix s1 s2 i j
    /\ j <= i + levenshtein_prefix s1 s2 i j.
Proof.
  induction i as [|i' IHi]; intros j.
  - rewrite levenshtein_prefix_zero_row. lia.
  - induction j as [|j' IHj].
    + rewrite levenshtein_prefix_zero_column. lia.
    + rewrite levenshtein_prefix_step.
      pose proof (IHi j') as Hdiag. pose proof (IHi (S j')) as Hup.
      destruct (Ascii.eqb (char_at s1 i') (char_at s2 j')); lia.
Qed.

Lemma levenshtein_prefix_sym (s1 s2 : list ascii) (i : nat) :
  forall j, levenshtein_prefix s1 s2 i j = levenshtein_prefix s2 s1 j i.
Proof.
  induction i as [|i' IHi]; intros j.
  - rewrite levenshtein_prefix_zero_row, levenshtein_prefix_zero_column. reflexivity.
  - induction j as [|j' IHj].
    + rewrite levenshtein_prefix_zero_row, levenshtein_prefix_zero_column. reflexivity.
    + rewrite !levenshtein_prefix_step, (Ascii.eqb_sym (char_at s2 j')).
      rewrite <- IHj, <- !IHi.
      destruct (Ascii.eqb (char_at s1 i') (char_at s2 j')); lia.
Qed.

Lemma levenshtein_prefix_same (s : list ascii) (i : nat) : levenshtein_prefix s s i i = 0.
Proof.
  induction i as [|i' IH]; [reflexivity|].
  rewrite levenshtein_prefix_step, Ascii.eqb_refl. exact IH.
Qed.

Lemma levenshtein_prefix_zero (s1 s2 : list ascii) (i : nat) :
  levenshtein_prefix s1 s2 i i = 0 ->
  forall k, k < i -> char_at s1 k = char_at s2 k.
Proof.
  induction i as [|i' IH]; intros Hz k Hk; [lia|].
  rewrite levenshtein_prefix_step in Hz.
  destruct (Ascii.eqb (char_at s1 i') (char_at s2 i')) eqn:Hc; [|lia].
  apply Ascii.eqb_eq in Hc.
  destruct (Nat.eq_dec k i') as [->|Hne]; [exact Hc | apply IH; [exact Hz | lia]].
Qed.

(** X5. The distance computed by the dynamic program lies between the
    difference of the two lengths and the greater length. *)
Theorem levenshtein_distance_bounds (s1 s2 : list ascii) :
  Nat.max (length s1) (length s2) - Nat.min (length s1) (length s2)
  <= levenshtein_distance s1 s2
  <= Nat.max (length s1) (length s2).
Proof.
  rewrite levenshtein_distance_correct. unfold levenshtein.
  pose proof (levenshtein_prefix_bounds s1 s2 (length s1) (length s2)). lia.
Qed.

(** X6. The distance and the similarity ratio do not depend on the order of
    the two texts. *)
Theorem levenshtein_is_symmetric (s1 s2 : string) :
  levenshtein_distance (list_ascii_of_string s1) (list_ascii_of_string s2)
  = levenshtein_distance (list_ascii_of_string s2) (list_ascii_of_string s1)
  /\ levenshtein_ratio s1 s2 = levenshtein_ratio s2 s1.
Proof.
  assert (Hd : forall a b, levenshtein_distance a b = levenshtein_distance b a).
  { intros a b. rewrite !levenshtein_distance_correct. apply levenshtein_prefix_sym. }
  split; [apply Hd|].
  unfold levenshtein_ratio, length_gate.
  rewrite (String.eqb_sym s2 s1), (orb_comm (String.eqb s2 "")).
  rewrite (Hd (list_ascii_of_string s2)).
  rewrite (Nat.max_comm (String.length s2)), (Nat.min_comm (String.length s2)).
  reflexivity.
Qed.

(** X7. The distance computed by the dynamic program is zero exactly for
    equal texts. *)
Theorem levenshtein_distance_zero_iff_equal (s1 s2 : list ascii) :
  levenshtein_distance s1 s2 = 0 <-> s1 = s2.
Proof.
  rewrite levenshtein_distance_correct. unfold levenshtein. split.
  - intros Hz.
    pose proof (levenshtein_prefix_bounds s1 s2 (length s1) (length s2)) as Hb.
    assert (Hlen : length s1 = length s2) by lia.
    rewrite <- Hlen in Hz.
    pose proof (levenshtein_prefix_zero s1 s2 (length s1) Hz) as Hchars.
    apply list_eq. intros k.
    destruct (Nat.lt_ge_cases k (length s1)) as [Hk|Hk].
    + specialize (Hchars k Hk). unfold char_at in Hchars.
      destruct (lookup_lt_is_Some_2 s1 k Hk) as [c1 H1].
      destruct (lookup_lt_is_Some_2 s2 k ltac:(lia)) as [c2 H2].
      rewrite H1, H2 in *. cbn in Hchars. congruence.
    + rewrite !lookup_ge_None_2 by lia. reflexivity.
  - intros ->. apply levenshtein_prefix_same.
Qed.

End levenshtein_facts.

(** ** The duplicate detector *)

Section detector.
Context `{L : PyLib}.



Lemma check_duplicate_type (now : Z) (d : DuplicateDetector) (h : HistoryStore)
    (ev : event) (found : dup_result) :
  check now d h ev = Return found ->
  is_duplicate found = true ->
  duplicate_type found = Some "DUPLICATE_DEDUPE_KEY"
  \/ duplicate_type found = Some "DUPLICATE_TEXT_SIMILAR".
Proof.
  assert (Htext : text_check now d h ev = Return found -> is_duplicate found = true ->
                  duplicate_type found = Some "DUPLICATE_TEXT_SIMILAR").
  { unfold text_check.
    destruct (negb (String.eqb (event_text_of ev) ""));
      [|intros Hf; inversion Hf; discriminate].
    intros Hf. apply bind_returns in Hf as (entries & _ & Hf).
    destruct (first_similar _ _ entries); inversion Hf; [reflexivity | discriminate]. }
  unfold check. destruct (truthy (dedupe_key ev)); [|auto].
  intros Hf. apply bind_returns in Hf as (matches & _ & Hf).
  destruct (last_record matches); [|auto].
  inversion Hf. left. reflexivity.
Qed.



End detector.

(** ** The rule engine *)

Section rule_order.
Import rule_engine.

Lemma insert_by_priority_permutation (r : rule) (sorted : list rule) :
  Permutation (insert_by_priority r sorted) (r :: sorted).
Proof.
  induction sorted as [|x rest IH]; cbn [insert_by_priority]; [reflexivity|].
  destruct (priority_key r <? priority_key x)%Z; [|reflexivity].
  rewrite IH. apply perm_swap.
Qed.

Lemma insert_by_priority_sorted (r : rule) (sorted : list rule) :
  StronglySorted higher_or_equal sorted ->
  StronglySorted higher_or_equal (insert_by_priority r sorted).
Proof.
  induction 1 as [|x rest Hrest IH Hx]; cbn [insert_by_priority].
  - repeat constructor.
  - destruct (priority_key r <? priority_key x)%Z eqn:Hlt.
    + constructor; [exact IH|].
      apply Z.ltb_lt in Hlt.
      apply (Permutation_Forall (Permutation_sym (insert_by_priority_permutation r rest))).
      constructor; [unfold higher_or_equal; lia | exact Hx].
    + apply Z.ltb_ge in Hlt. constructor; [constructor; assumption|].
      constructor; [exact Hlt|].
      eapply List.Forall_impl; [|exact Hx]. unfold higher_or_equal. intros a Ha. lia.
Qed.

Lemma insert_by_priority_stable (k : Z) (r : rule) (sorted : list rule) :
  StronglySorted higher_or_equal sorted ->
  with_priority k (insert_by_priority r sorted) = with_priority k (r :: sorted).
Proof.
  induction 1 as [|x rest Hrest IH Hx]; cbn [insert_by_priority]; [reflexivity|].
  destruct (priority_key r <? priority_key x)%Z eqn:Hlt; [|reflexivity].
  apply Z.ltb_lt in Hlt. unfold with_priority in *. cbn [List.filter] in *.
  rewrite IH.
  destruct (priority_key x =? k)%Z eqn:Hxk, (priority_key r =? k)%Z eqn:Hrk;
    try reflexivity.
  apply Z.eqb_eq in Hxk, Hrk. lia.
Qed.

Lemma sorted_by_priority_spec (rules : list rule) :
  Permutation (sorted_by_priority rules) rules
  /\ StronglySorted higher_or_equal (sorted_by_priority rules)
  /\ forall k, with_priority k (sorted_by_priority rules) = with_priority k rules.
Proof.
  induction rules as [|r rest (Hperm & Hsorted & Hstable)]; cbn [sorted_by_priority foldr].
  - repeat split; constructor.
  - fold (sorted_by_priority rest). split; [|split].
    + rewrite insert_by_priority_permutation, Hperm. reflexivity.
    + apply insert_by_priority_sorted. exact Hsorted.
    + intros k. rewrite insert_by_priority_stable by exact Hsorted.
      unfold with_priority in *. cbn [List.filter]. rewrite Hstable. reflexivity.
Qed.

Lemma init_rules_given (document : option (option rules_document))
    (data : option (list rule)) :
  rule_engine.rules (rule_engine.init document data)
  = sorted_by_priority (given_rules document data).
Proof. destruct data as [d|]; [|destruct document as [[[l|l]|]|]]; reflexivity. Qed.

(** X9. The rules a new engine holds are the given ones (the list, or those
    of the document), each once, in descending order of priority (0 where a
    rule has none), rules of equal priority in the order they were given.
    [reload] leaves the same list as a new engine, except that with neither
    argument it keeps the rules it has. *)
Theorem loaded_rules_are_sorted_by_priority (self : RuleEngine)
    (document : option (option rules_document)) (data : option (list rule)) :
  let loaded := rule_engine.rules (rule_engine.init document data) in
  Permutation loaded (given_rules document data)
  /\ StronglySorted higher_or_equal loaded
  /\ (forall k, with_priority k loaded = with_priority k (given_rules document data))
  /\ rule_engine.rules (reload self document data)
     = match data, document with
       | None, None => rule_engine.rules self
       | _, _ => loaded
       end.
Proof.
  cbn zeta. rewrite init_rules_given.
  destruct (sorted_by_priority_spec (given_rules document data)) as (Hperm & Hsorted & Hstable).
  repeat (split; [assumption|]).
  destruct data as [d|]; [|destruct document as [[[l|l]|]|]]; reflexivity.
Qed.

Lemma filter_sorted (keep : rule -> bool) (rules : list rule) :
  StronglySorted higher_or_equal rules ->
  StronglySorted higher_or_equal (List.filter keep rules).
Proof.
  induction 1 as [|x rest Hrest IH Hx]; cbn [List.filter]; [constructor|].
  destruct (keep x); [|exact IH]. constructor; [exact IH|].
  rewrite List.Forall_forall in *. intros y Hy. apply filter_In in Hy as [Hy _]. auto.
Qed.

Lemma map_sorted (make : rule -> rule_match) (rules : list rule) :
  (forall r, matched_rule (make r) = r) ->
  StronglySorted higher_or_equal rules ->
  StronglySorted (fun a b => higher_or_equal (matched_rule a) (matched_rule b))
    (List.map make rules).
Proof.
  intros Hmake. induction 1 as [|x rest Hrest IH Hx]; cbn [List.map]; constructor.
  - exact IH.
  - rewrite List.Forall_forall in *. intros m Hm.
    apply in_map_iff in Hm as (y & <- & Hy). rewrite !Hmake. auto.
Qed.

(** X10. [match] on a new engine returns the given rules that match the
    event, and only those, highest priority first, each with its id
    (["unknown"] without one) and its action (empty without one). *)
Theorem match_returns_matching_rules_by_priority
    (document : option (option rules_document)) (data : option (list rule)) (ev : event) :
  let engine := rule_engine.init document data in
  let matches := match_rules engine ev in
  List.map matched_rule matches = List.filter (_matches_rule ev) (rule_engine.rules engine)
  /\ (forall r, In r (List.map matched_rule matches)
                <-> In r (given_rules document data) /\ _matches_rule ev r = true)
  /\ StronglySorted (fun a b => higher_or_equal (matched_rule a) (matched_rule b)) matches
  /\ Forall (fun m => rule_id m = default "unknown" (id (matched_rule m))
                      /\ matched_action m = default empty_action (action (matched_rule m)))
            matches.
Proof.
  cbn zeta. unfold match_rules.
  assert (Hrules : List.map matched_rule
                     (List.map
                        (fun r => {| rule_id := default "unknown" (id r);
                                     matched_rule := r;
                                     matched_action := default empty_action (action r) |})
                        (List.filter (_matches_rule ev)
                           (rule_engine.rules (rule_engine.init document data))))
                   = List.filter (_matches_rule ev)
                       (rule_engine.rules (rule_engine.init document data))).
  { rewrite List.map_map. cbn [matched_rule]. apply List.map_id. }
  rewrite init_rules_given in *.
  destruct (sorted_by_priority_spec (given_rules document data)) as (Hperm & Hsorted & _).
  split; [exact Hrules|]. split; [|split].
  - intros r. rewrite Hrules, filter_In.
    split; intros [Hin Hm]; (split; [|exact Hm]).
    + exact (Permutation_in _ Hperm Hin).
    + exact (Permutation_in _ (Permutation_sym Hperm) Hin).
  - apply map_sorted; [reflexivity|]. apply filter_sorted. exact Hsorted.
  - apply List.Forall_forall. intros m Hm. apply in_map_iff in Hm as (r & <- & _).
    split; reflexivity.
Qed.

Lemma hour_range (d : datetime) : (0 <= hour d < 24)%Z.
Proof. unfold hour. apply Z.mod_pos_bound. lia. Qed.

(** X11. A rule without a [match] object, or with an empty one, matches
    every event.  Of a rule whose only condition is a [time_window]: without
    start and end hour it matches every event, with a start hour equal to
    its end hour it matches none, and with the quiet hours as its bounds it
    matches exactly the events the scheduler takes for quiet-hour ones. *)
Theorem rule_condition_edge_cases (ev : event) (r : rule) :
  (match_ r = None \/ match_ r = Some empty_match -> _matches_rule ev r = true)
  /\ (forall tw,
        match_ r = Some {| match_event_type := None; match_priority_hint := None;
                           match_channel := None; match_source := None;
                           match_time_window := Some tw |} ->
        (start_hour tw = None -> end_hour tw = None -> _matches_rule ev r = true)
        /\ (forall h, start_hour tw = Some h -> end_hour tw = Some h ->
              _matches_rule ev r = false)
        /\ (start_hour tw = Some QUIET_HOUR_START -> end_hour tw = Some QUIET_HOUR_END ->
              _matches_rule ev r = _is_quiet_hour (hour (parsed_timestamp ev)))).
Proof.
  pose proof (hour_range (parsed_timestamp ev)) as Hhour.
  split.
  - intros [Hnone|Hempty]; unfold _matches_rule; [rewrite Hnone | rewrite Hempty];
      reflexivity.
  - intros tw Hmatch. unfold _matches_rule. rewrite Hmatch. cbn.
    unfold in_time_window. split; [|split].
    + intros -> ->. cbn. apply andb_true_iff. rewrite Z.leb_le, Z.ltb_lt. lia.
    + intros h -> ->. cbn. rewrite Z.ltb_irrefl.
      apply andb_false_iff. rewrite Z.leb_gt, Z.ltb_ge. lia.
    + intros -> ->. reflexivity.
Qed.

End rule_order.

Section rule_actions.
Import rule_engine.
Variables (now : Z) (ev : event) (store : option HistoryStore).

(** The loop returns the result it was given, or an override by one of the
    matched rules. *)
Lemma apply_loop_shape (matched : list rule_match) :
  forall (current : string) (result : rule_result),
    let final := apply_loop now ev store matched current result in
    final = result
    \/ (explanation_code final = Some "RULE_OVERRIDE"
        /\ is_Some (reason final)
        /\ exists m, In m matched /\ matched_rule_id final = Some (rule_id m)).
Proof.
  induction matched as [|m rest IH]; intros current result; cbn zeta;
    cbn [apply_loop]; [left; reflexivity|].
  assert (Hhere : forall final,
            explanation_code final = Some "RULE_OVERRIDE" ->
            is_Some (reason final) ->
            matched_rule_id final = Some (rule_id m) ->
            final = result
            \/ (explanation_code final = Some "RULE_OVERRIDE"
                /\ is_Some (reason final)
                /\ exists m', In m' (m :: rest) /\ matched_rule_id final = Some (rule_id m'))).
  { intros final Hcode Hreason Hid. right. split; [exact Hcode|]. split; [exact Hreason|].
    exists m. split; [left; reflexivity | exact Hid]. }
  assert (Hlater : forall current' result',
            (result' = result
             \/ (explanation_code result' = Some "RULE_OVERRIDE"
                 /\ is_Some (reason result')
                 /\ matched_rule_id result' = Some (rule_id m))) ->
            let final := apply_loop now ev store rest current' result' in
            final = result
            \/ (explanation_code final = Some "RULE_OVERRIDE"
                /\ is_Some (reason final)
                /\ exists m', In m' (m :: rest) /\ matched_rule_id final = Some (rule_id m'))).
  { intros current' result' Hresult'. cbn zeta.
    destruct (IH current' result') as [->|(Hcode & Hreason & m' & Hin & Hid)].
    - destruct Hresult' as [->|(Hcode & Hreason & Hid)]; [left; reflexivity|].
      apply Hhere; assumption.
    - right. split; [exact Hcode|]. split; [exact Hreason|].
      exists m'. split; [right; exact Hin | exact Hid]. }
  destruct (force_decision (matched_action m)) as [forced|].
  { apply Hhere; cbn; eauto. }
  destruct (downgrade (matched_action m)) as [dg|];
    [destruct (dg !! current) as [target|]|];
    (destruct (limit_per_day (matched_action m)) as [limit|];
     [destruct store as [st|];
      [destruct (limit <=? _)%Z; [apply Hhere; cbn; eauto|]|]|]);
    apply Hlater; solve [left; reflexivity | right; cbn; eauto].
Qed.

(** X12. [apply_actions] either leaves the decision as it was, with no
    explanation code, rule id or reason, or it reports RULE_OVERRIDE with a
    reason and the id of one of the matched rules. *)
Theorem apply_actions_overrides_or_leaves (matched : list rule_match) (current : string) :
  let result := apply_actions now ev matched current store in
  (explanation_code result = None
   /\ decision result = current
   /\ matched_rule_id result = None
   /\ reason result = None)
  \/ (explanation_code result = Some "RULE_OVERRIDE"
      /\ is_Some (reason result)
      /\ exists m, In m matched /\ matched_rule_id result = Some (rule_id m)).
Proof.
  cbn zeta. unfold apply_actions.
  destruct (apply_loop_shape matched current
              {| decision := current; explanation_code := None;
                 matched_rule_id := None; reason := None |}) as [->|Hoverride].
  - left. repeat split; reflexivity.
  - right. exact Hoverride.
Qed.

(** X13. The first matched rule with a [force_decision] settles the result,
    with its own id and reason, whatever the rules before it downgraded, as
    long as none of them reached its daily limit; the rules after it are not
    looked at. *)
Theorem forced_decision_overrides_earlier_downgrades (before : list rule_match)
    (m : rule_match) (after : list rule_match) (forced current : string) :
  Forall (passes_on now ev store) before ->
  force_decision (matched_action m) = Some forced ->
  apply_actions now ev (before ++ m :: after) current store
  = {| decision := forced;
       explanation_code := Some "RULE_OVERRIDE";
       matched_rule_id := Some (rule_id m);
       reason := Some (RuleForced (rule_id m)
                         (default "" (description (matched_rule m)))) |}.
Proof.
  intros Hbefore Hforced. unfold apply_actions.
  generalize {| decision := current; explanation_code := None;
                matched_rule_id := None; reason := None |}.
  generalize current.
  induction Hbefore as [|p rest [Hnone Hlimit] _ IH]; intros current' result;
    cbn [app apply_loop].
  - rewrite Hforced. reflexivity.
  - rewrite Hnone.
    destruct (match downgrade (matched_action p) with
              | Some dg => _ | None => _ end) as [result' current''].
    destruct (limit_per_day (matched_action p)) as [limit|]; [|apply IH].
    destruct store as [st|]; [|apply IH].
    apply Z.leb_gt in Hlimit. rewrite Hlimit. apply IH.
Qed.

End rule_actions.

(** ** The classifier *)

Section classifier.
Context `{L : PyLib}.

Lemma _llm_classify_code (ev : event) :
  (llm_classifier.explanation_code (_llm_classify ev) = "LLM_DECISION"
   \/ (llm_classifier.explanation_code (_llm_classify ev) = "URGENT_KEYWORD"
       /\ label (_llm_classify ev) = "NOW"))
  /\ used_fallback (_llm_classify ev) = false.
Proof.
  unfold _llm_classify.
  repeat match goal with
         | |- context [let '(_, _) := (if ?b then _ else _) in _] => destruct b
         | |- context [if ?b then _ else _] => destruct b
         end; cbn; auto.
Qed.

Lemma classify_code_values (self : LLMClassifier) (ev : event) :
  In (llm_classifier.explanation_code (fst (classify self ev)))
     (if simulate_failure self then ["FALLBACK"] else ["LLM_DECISION"; "URGENT_KEYWORD"]).
Proof.
  unfold classify. cbn [simulate_failure].
  destruct (simulate_failure self); cbn [fst]; [left; reflexivity|].
  destruct (_llm_classify_code ev) as [[->|[-> _]] _]; cbn; tauto.
Qed.

(** X14. [classify] counts the call, keeps the failure switch and returns a
    label among NOW, LATER and NEVER.  With the switch on the result is the
    fallback one, with code FALLBACK and confidence 0.4; with the switch off
    it is no fallback and its code is LLM_DECISION, or URGENT_KEYWORD, which
    only comes with the label NOW. *)
Theorem classify_result_shape (self : LLMClassifier) (ev : event) :
  let result := fst (classify self ev) in
  let self' := snd (classify self ev) in
  is_label (label result) = true
  /\ used_fallback result = simulate_failure self
  /\ (if simulate_failure self
      then llm_classifier.explanation_code result = "FALLBACK"
           /\ confidence result = 0.4%float
      else llm_classifier.explanation_code result = "LLM_DECISION"
           \/ (llm_classifier.explanation_code result = "URGENT_KEYWORD"
               /\ label result = "NOW"))
  /\ _call_count self' = _call_count self + 1
  /\ simulate_failure self' = simulate_failure self.
Proof.
  cbn zeta. split; [apply classify_label|].
  unfold classify. cbn [simulate_failure _call_count].
  destruct (simulate_failure self); cbn [fst snd simulate_failure _call_count].
  - repeat split; reflexivity.
  - destruct (_llm_classify_code ev) as [Hcode Hfallback]. repeat split; assumption.
Qed.

End classifier.

(** ** The scheduler, further *)

Section scheduling_more.
Context `{L : PyLib}.

#[local] Ltac unfold_units :=
  unfold replace_hms0, dt_add in *;
  unfold date, hour, minute, second, microsecond,
    timedelta_days, timedelta_minutes, US_PER_DAY, US_PER_HOUR, US_PER_MINUTE,
    US_PER_SECOND in *; cbn [wall utcoffset] in *.

#[local] Ltac euclid := unfold_units; Z.div_mod_to_equations; lia.





End scheduling_more.

(** ** Validation, case by case *)

Section validation.
Context `{L : PyLib}.




End validation.

(** ** The engine *)

(** *** Calls only read the records of the event's user *)

Section isolation.
Context `{L : PyLib}.
Variables (now : Z) (ev : event).

Lemma get_recent_same_records (h1 h2 : HistoryStore) (window : option Z) :
  records_of h1 (user_id ev) = records_of h2 (user_id ev) ->
  get_recent now h1 (user_id ev) window = get_recent now h2 (user_id ev) window.
Proof. intros Hsame. unfold get_recent. rewrite Hsame. reflexivity. Qed.

Lemma check_same_records (d : DuplicateDetector) (h1 h2 : HistoryStore) :
  records_of h1 (user_id ev) = records_of h2 (user_id ev) ->
  check now d h1 ev = check now d h2 ev.
Proof.
  intros Hsame.
  unfold check, text_check, get_dedupe_key_entries, get_text_entries.
  rewrite !(get_recent_same_records h1 h2 _ Hsame). reflexivity.
Qed.

Lemma apply_loop_same_records (h1 h2 : HistoryStore)
    (matched : list rule_engine.rule_match) :
  records_of h1 (user_id ev) = records_of h2 (user_id ev) ->
  forall (current : string) (result : rule_engine.rule_result),
    rule_engine.apply_loop now ev (Some h1) matched current result
    = rule_engine.apply_loop now ev (Some h2) matched current result.
Proof.
  intros Hsame.
  induction matched as [|m rest IH]; intros current result; cbn [rule_engine.apply_loop];
    [reflexivity|].
  destruct (rule_engine.force_decision (rule_engine.matched_action m)); [reflexivity|].
  destruct (match rule_engine.downgrade (rule_engine.matched_action m) with
            | Some dg => _ | None => _ end) as [result' current'].
  destruct (rule_engine.limit_per_day (rule_engine.matched_action m)) as [limit|];
    [|apply IH].
  unfold count_event_type_today. rewrite Hsame.
  destruct (limit <=? _)%Z; [reflexivity | apply IH].
Qed.

Lemma decide_same_records (self1 self2 : DecisionEngine) (result : llm_result) :
  records_of (history self1) (user_id ev) = records_of (history self2) (user_id ev) ->
  rules self1 = rules self2 ->
  decide now self1 ev result = decide now self2 ev result.
Proof.
  intros Hsame Hrules.
  unfold decide, apply_rules, noise_check, rule_engine.apply_actions,
    count_in_window, count_urgent_by_source_or_type.
  rewrite !(get_recent_same_records _ _ _ Hsame), Hrules.
  rewrite (apply_loop_same_records _ _ _ Hsame). reflexivity.
Qed.

Lemma settle_same_records (self1 self2 : DecisionEngine) :
  records_of (history self1) (user_id ev) = records_of (history self2) (user_id ev) ->
  rules self1 = rules self2 ->
  dedup self1 = dedup self2 ->
  simulate_failure (llm self1) = simulate_failure (llm self2) ->
  fst (settle now self1 ev) = fst (settle now self2 ev).
Proof.
  intros Hsame Hrules Hdedup Hswitch. unfold settle, outcome_of.
  rewrite (check_same_records _ _ _ Hsame), Hdedup.
  destruct (check now (dedup self2) (history self2) ev) as [dup|e]; cbn [bind];
    [|reflexivity].
  destruct (is_duplicate dup); [reflexivity|].
  assert (Hclass : fst (classify (llm self1) ev) = fst (classify (llm self2) ev)).
  { unfold classify. cbn [simulate_failure]. rewrite Hswitch.
    destruct (simulate_failure (llm self2)); reflexivity. }
  rewrite Hclass, (decide_same_records _ _ _ Hsame Hrules).
  destruct (decide now self2 ev (fst (classify (llm self2) ev))) as [decided|e];
    reflexivity.
Qed.

End isolation.

Section engine.
Context `{L : PyLib}.

(** *** What a call leaves alone *)

Lemma outcome_llm (now : Z) (self : DecisionEngine) (ev : event) (o : outcome) :
  outcome_of now self ev = Return o ->
  o_llm o = llm self \/ o_llm o = snd (classify (llm self) ev).
Proof.
  unfold outcome_of. intros Ho. apply bind_returns in Ho as (dup & _ & Ho).
  destruct (is_duplicate dup); [inversion Ho; left; reflexivity|].
  apply bind_returns in Ho as (decided & _ & Ho). inversion Ho. right. reflexivity.
Qed.

Lemma settle_settings (now : Z) (self : DecisionEngine) (ev : event) :
  let left := snd (settle now self ev) in
  rules left = rules self
  /\ dedup left = dedup self
  /\ buffer_size (history left) = buffer_size (history self)
  /\ simulate_failure (llm left) = simulate_failure (llm self)
  /\ (_call_count (llm left) = _call_count (llm self)
      \/ _call_count (llm left) = _call_count (llm self) + 1).
Proof.
  cbn zeta. unfold settle.
  destruct (outcome_of now self ev) as [o|e] eqn:Ho.
  - cbn. repeat (split; [reflexivity|]).
    destruct (outcome_llm _ _ _ _ Ho) as [-> | ->].
    + split; [reflexivity | left; reflexivity].
    + unfold classify. destruct (simulate_failure (llm self)) eqn:Hs; cbn; rewrite ?Hs;
        (split; [reflexivity | right; reflexivity]).
  - unfold state_when_raised.
    destruct (check now (dedup self) (history self) ev); cbn.
    + repeat (split; [reflexivity|]).
      unfold classify. destruct (simulate_failure (llm self)) eqn:Hs; cbn; rewrite ?Hs;
        (split; [reflexivity | right; reflexivity]).
    + repeat (split; [reflexivity|]). left. reflexivity.
Qed.

Lemma settle_other_records (now : Z) (self : DecisionEngine) (ev : event) (other : string) :
  other <> user_id ev ->
  records_of (history (snd (settle now self ev))) other = records_of (history self) other.
Proof.
  intros Hother. unfold settle.
  destruct (outcome_of now self ev) as [o|e]; cbn.
  - apply records_of_add_other. exact Hother.
  - rewrite state_when_raised_history. reflexivity.
Qed.

Lemma process_event_rules (now : Z) (uuid : string) (self : DecisionEngine)
    (raw : raw_input) :
  rules (snd (process_event now uuid self raw)) = rules self.
Proof.
  destruct (validate_event uuid raw) as [e|ev] eqn:Hv.
  - rewrite (process_event_invalid _ _ _ _ _ Hv). reflexivity.
  - rewrite (process_event_valid _ _ _ _ _ Hv). apply settle_settings.
Qed.

(** X19. A call to [process_event], returning or raising, keeps the rules,
    the detector's window and threshold, the size of the ring buffers and
    the failure switch, and it calls the classifier at most once. *)
Theorem process_event_keeps_the_settings (now : Z) (uuid : string)
    (self : DecisionEngine) (raw : raw_input) :
  let left := snd (process_event now uuid self raw) in
  rules left = rules self
  /\ dedup left = dedup self
  /\ buffer_size (history left) = buffer_size (history self)
  /\ simulate_failure (llm left) = simulate_failure (llm self)
  /\ (_call_count (llm left) = _call_count (llm self)
      \/ _call_count (llm left) = _call_count (llm self) + 1).
Proof.
  cbn zeta. destruct (validate_event uuid raw) as [e|ev] eqn:Hv.
  - rewrite (process_event_invalid _ _ _ _ _ Hv). cbn.
    repeat (split; [reflexivity|]). left. reflexivity.
  - rewrite (process_event_valid _ _ _ _ _ Hv).
    destruct (settle_settings now self ev) as (Hrules & Hdedup & Hsize & Hswitch & Hcount).
    repeat (split; [assumption|]). exact Hcount.
Qed.

(** X20. What a call returns for an event does not depend on an earlier call
    for another user: with a call for a different user (or for an invalid
    input) processed first, at any clock reading, the result is the same. *)
Theorem events_of_other_users_do_not_interfere (now earlier : Z) (uuid uuid' : string)
    (self : DecisionEngine) (raw raw' : raw_input) (ev : event) :
  validate_event uuid raw = inr ev ->
  (forall ev', validate_event uuid' raw' = inr ev' -> user_id ev' <> user_id ev) ->
  fst (process_event now uuid (snd (process_event earlier uuid' self raw')) raw)
  = fst (process_event now uuid self raw).
Proof.
  intros Hv Hother.
  rewrite !(process_event_valid now _ _ _ _ Hv).
  destruct (validate_event uuid' raw') as [e'|ev'] eqn:Hv'.
  - rewrite (process_event_invalid _ _ _ _ _ Hv'). reflexivity.
  - rewrite (process_event_valid _ _ _ _ _ Hv').
    destruct (settle_settings earlier self ev') as (Hrules & Hdedup & _ & Hswitch & _).
    apply settle_same_records; try assumption.
    apply settle_other_records. intros Hsame. exact (Hother ev' eq_refl (eq_sym Hsame)).
Qed.


(** *** Codes and decisions *)

Lemma classify_fits (self : LLMClassifier) (ev : event) :
  fits (Some (llm_classifier.explanation_code (fst (classify self ev))))
       (label (fst (classify self ev))).
Proof.
  unfold classify. cbn [simulate_failure].
  destruct (simulate_failure self); cbn [fst].
  - eexists. split; reflexivity.
  - destruct (_llm_classify_code ev) as [[Hc|[Hc Hl]] _]; rewrite Hc;
      eexists; (split; [reflexivity|]); [reflexivity|].
    rewrite Hl. reflexivity.
Qed.

Lemma apply_rules_cases (now : Z) (self : DecisionEngine) (ev : event) (v : verdict) :
  apply_rules now self ev v = v
  \/ (v_explanation_code (apply_rules now self ev v) = Some "RULE_OVERRIDE"
      /\ exists m, In m (rule_engine.match_rules (rules self) ev)
                   /\ v_matched_rule_id (apply_rules now self ev v)
                      = Some (rule_engine.rule_id m)).
Proof.
  unfold apply_rules.
  destruct (rule_engine.match_rules (rules self) ev) as [|m rest] eqn:Hm;
    [left; reflexivity|].
  unfold rule_engine.apply_actions.
  destruct (apply_loop_shape now ev (Some (history self)) (m :: rest) (current_decision v)
              {| rule_engine.decision := current_decision v;
                 rule_engine.explanation_code := None;
                 rule_engine.matched_rule_id := None;
                 rule_engine.reason := None |}) as [->|(Hcode & _ & Hid)].
  - left. reflexivity.
  - rewrite Hcode. right. cbn. split; [reflexivity | exact Hid].
Qed.

Lemma apply_rules_fits (now : Z) (self : DecisionEngine) (ev : event) (v : verdict) :
  fits (v_explanation_code v) (current_decision v) ->
  fits (v_explanation_code (apply_rules now self ev v))
       (current_decision (apply_rules now self ev v)).
Proof.
  intros Hv. destruct (apply_rules_cases now self ev v) as [->|[Hcode _]]; [exact Hv|].
  rewrite Hcode. eexists. split; reflexivity.
Qed.

Lemma frequency_check_fits (ev : event) (freq_count : nat) (v : verdict) :
  fits (v_explanation_code v) (current_decision v) ->
  fits (v_explanation_code (frequency_check ev freq_count v))
       (current_decision (frequency_check ev freq_count v)).
Proof.
  intros Hv. unfold frequency_check.
  repeat match goal with |- context [if ?b then _ else _] => destruct b end;
    try exact Hv; eexists; split; reflexivity.
Qed.

Lemma noise_check_fits (now : Z) (self : DecisionEngine) (ev : event) (v v' : verdict) :
  fits (v_explanation_code v) (current_decision v) ->
  noise_check now self ev v = Return v' ->
  fits (v_explanation_code v') (current_decision v').
Proof.
  intros Hv. unfold noise_check.
  destruct (String.eqb (current_decision v) "NOW");
    [|intros Hn; inversion Hn; subst; exact Hv].
  intros Hn. apply bind_returns in Hn as (urgent & _ & Hn).
  destruct (NOISE_LIMIT_MAX_URGENT <=? urgent); inversion Hn; subst; [|exact Hv].
  eexists. split; reflexivity.
Qed.

Lemma schedule_fits (ev : event) (freq_count : nat) (v v' : verdict)
    (time : option string) :
  fits (v_explanation_code v) (current_decision v) ->
  schedule ev freq_count v = Return (v', time) ->
  fits (v_explanation_code v') (current_decision v').
Proof.
  intros Hv. unfold schedule.
  destruct (String.eqb (current_decision v) "LATER");
    [|intros Hs; inversion Hs; subst; exact Hv].
  intros Hs. apply bind_returns in Hs as (sched & _ & Hs).
  destruct sched as [[|text]|]; inversion Hs; subst; try exact Hv.
  eexists. split; reflexivity.
Qed.

Lemma outcome_fits (now : Z) (self : DecisionEngine) (ev : event) (o : outcome) :
  outcome_of now self ev = Return o ->
  fits (o_explanation_code o) (o_decision o).
Proof.
  unfold outcome_of. intros Ho. apply bind_returns in Ho as (dup & Hcheck & Ho).
  destruct (is_duplicate dup) eqn:Hdup.
  - inversion Ho. cbn [o_explanation_code o_decision].
    destruct (check_duplicate_type _ _ _ _ _ Hcheck Hdup) as [->| ->];
      eexists; split; reflexivity.
  - apply bind_returns in Ho as ([v' time] & Hdecide & Ho). inversion Ho.
    cbn [o_explanation_code o_decision fst].
    unfold decide in Hdecide.
    apply bind_returns in Hdecide as (n & _ & Hdecide).
    apply bind_returns in Hdecide as (v2 & Hnoise & Hschedule).
    refine (schedule_fits _ _ _ _ _ _ Hschedule).
    refine (noise_check_fits _ _ _ _ _ _ Hnoise).
    apply frequency_check_fits, apply_rules_fits. cbn [v_explanation_code current_decision].
    apply classify_fits.
Qed.

(** X22. The explanation code of a returned record agrees with its decision:
    VALIDATION_ERROR comes with NEVER and only for an input that fails
    validation; for a validated event the duplicate codes,
    FREQUENCY_SUPPRESSION and EXPIRED come with NEVER, FREQUENCY_LIMIT and
    CONFLICT_NOISE_LIMIT with LATER, URGENT_KEYWORD with NOW, and the only
    other codes are LLM_DECISION, FALLBACK and RULE_OVERRIDE. *)
Theorem explanation_code_fits_decision (now : Z) (uuid : string) (self : DecisionEngine)
    (raw : raw_input) (out : output_record) :
  fst (process_event now uuid self raw) = Return out ->
  match validate_event uuid raw with
  | inl _ =>
      logger.explanation_code out = Some "VALIDATION_ERROR"
      /\ logger.decision out = "NEVER"
  | inr _ =>
      exists code,
        logger.explanation_code out = Some code
        /\ code_allows code (logger.decision out) = true
  end.
Proof.
  intros Hout. destruct (validate_event uuid raw) as [e|ev] eqn:Hv.
  - rewrite (process_event_invalid _ _ _ _ _ Hv) in Hout. inversion Hout.
    split; reflexivity.
  - destruct (process_event_returned _ _ _ _ _ _ Hv Hout) as (o & Ho & Hp).
    rewrite Hp in Hout. inversion Hout. cbn. exact (outcome_fits _ _ _ _ Ho).
Qed.

(** *** Alert fatigue *)

Lemma frequency_check_not_now (ev : event) (freq_count : nat) (v : verdict) :
  FREQUENCY_LIMIT <= freq_count ->
  String.eqb (current_decision (frequency_check ev freq_count v)) "NOW" = false.
Proof.
  intros Hlimit. unfold frequency_check.
  apply Nat.leb_le in Hlimit. rewrite Hlimit.
  destruct (String.eqb (current_decision v) "NOW") eqn:Hnow; [reflexivity|].
  destruct (_ && _); [reflexivity | exact Hnow].
Qed.

Lemma noise_check_not_now (now : Z) (self : DecisionEngine) (ev : event) (v v' : verdict) :
  noise_check now self ev v = Return v' ->
  String.eqb (current_decision v) "NOW" = false
  \/ (exists urgent,
        count_urgent_by_source_or_type now (history self) (user_id ev) (event_type ev)
          (source ev) NOISE_LIMIT_WINDOW_MINUTES = Return urgent
        /\ NOISE_LIMIT_MAX_URGENT <= urgent) ->
  String.eqb (current_decision v') "NOW" = false.
Proof.
  unfold noise_check. intros Hn Hwhy.
  destruct (String.eqb (current_decision v) "NOW") eqn:Hnow.
  - destruct Hwhy as [Hno|(urgent & Hcount & Hlimit)]; [discriminate|].
    rewrite Hcount in Hn. cbn [bind] in Hn.
    apply Nat.leb_le in Hlimit. rewrite Hlimit in Hn. inversion Hn. reflexivity.
  - inversion Hn. subst v'. exact Hnow.
Qed.

Lemma schedule_not_now (ev : event) (freq_count : nat) (v v' : verdict)
    (time : option string) :
  schedule ev freq_count v = Return (v', time) ->
  String.eqb (current_decision v) "NOW" = false ->
  String.eqb (current_decision v') "NOW" = false.
Proof.
  unfold schedule. intros Hs Hnow.
  destruct (String.eqb (current_decision v) "LATER");
    [|inversion Hs; subst v'; exact Hnow].
  apply bind_returns in Hs as (sched & _ & Hs).
  destruct sched as [[|text]|]; inversion Hs; subst; [reflexivity | exact Hnow | exact Hnow].
Qed.

(** X23. No rule and no classifier result gets a notification through as NOW
    once the user has FREQUENCY_LIMIT or more records in the frequency
    window, or NOISE_LIMIT_MAX_URGENT or more NOW records of the event's
    source or type in the noise window: the returned decision is not NOW. *)
Theorem fatigue_limits_block_now (now : Z) (uuid : string) (self : DecisionEngine)
    (raw : raw_input) (ev : event) (out : output_record) :
  validate_event uuid raw = inr ev ->
  fst (process_event now uuid self raw) = Return out ->
  (exists recent,
     count_in_window now (history self) (user_id ev) FREQUENCY_WINDOW_MINUTES = Return recent
     /\ FREQUENCY_LIMIT <= recent)
  \/ (exists urgent,
        count_urgent_by_source_or_type now (history self) (user_id ev) (event_type ev)
          (source ev) NOISE_LIMIT_WINDOW_MINUTES = Return urgent
        /\ NOISE_LIMIT_MAX_URGENT <= urgent) ->
  String.eqb (logger.decision out) "NOW" = false.
Proof.
  intros Hv Hout Hwhy.
  destruct (process_event_returned _ _ _ _ _ _ Hv Hout) as (o & Ho & Hp).
  rewrite Hp in Hout. inversion Hout. cbn. clear Hout Hp.
  unfold outcome_of in Ho. apply bind_returns in Ho as (dup & _ & Ho).
  destruct (is_duplicate dup); [inversion Ho; reflexivity|].
  apply bind_returns in Ho as ([v' time] & Hdecide & Ho). inversion Ho.
  cbn [o_decision fst]. unfold decide in Hdecide.
  apply bind_returns in Hdecide as (n & Hcount & Hdecide).
  apply bind_returns in Hdecide as (v2 & Hnoise & Hschedule).
  refine (schedule_not_now _ _ _ _ _ Hschedule _).
  refine (noise_check_not_now _ _ _ _ _ Hnoise _).
  destruct Hwhy as [(recent & Hrecent & Hlimit)|Hurgent]; [|right; exact Hurgent].
  left. rewrite Hcount in Hrecent. inversion Hrecent. subst recent.
  apply frequency_check_not_now. exact Hlimit.
Qed.

(** X24. A record with the code FREQUENCY_LIMIT is a NOW turned into LATER:
    the user has [recent] >= FREQUENCY_LIMIT records in the frequency
    window, and the scheduled time is the event's timestamp plus
    BASE_BACKOFF_MINUTES * (recent - 3) minutes, so each further record in
    the window delays the next notification by five more minutes. *)
Theorem frequency_backoff_is_linear (now : Z) (uuid : string) (self : DecisionEngine)
    (raw : raw_input) (ev : event) (out : output_record) :
  validate_event uuid raw = inr ev ->
  fst (process_event now uuid self raw) = Return out ->
  logger.explanation_code out = Some "FREQUENCY_LIMIT" ->
  exists recent,
    count_in_window now (history self) (user_id ev) FREQUENCY_WINDOW_MINUTES = Return recent
    /\ FREQUENCY_LIMIT <= recent <= length (records_of (history self) (user_id ev))
    /\ logger.decision out = "LATER"
    /\ logger.scheduled_time out
       = Some (isoformat
                 (dt_add (parsed_timestamp ev)
                    (timedelta_minutes (BASE_BACKOFF_MINUTES * (Z.of_nat recent - 3))))).
Proof.
  intros Hv Hout.
  destruct (process_event_returned _ _ _ _ _ _ Hv Hout) as (o & Ho & Hp).
  rewrite Hp in Hout. inversion Hout. cbn. clear Hout Hp. intros Hcode.
  unfold outcome_of in Ho. apply bind_returns in Ho as (dup & Hcheck & Ho).
  destruct (is_duplicate dup) eqn:Hdup.
  { inversion Ho. subst o. cbn in Hcode.
    destruct (check_duplicate_type _ _ _ _ _ Hcheck Hdup) as [Hd|Hd]; congruence. }
  apply bind_returns in Ho as ([v' time] & Hdecide & Ho). inversion Ho. subst o.
  cbn [o_decision o_scheduled_time o_explanation_code fst snd] in *.
  unfold decide in Hdecide.
  apply bind_returns in Hdecide as (n & Hcount & Hdecide).
  apply bind_returns in Hdecide as (v2 & Hnoise & Hschedule).
  exists n. split; [exact Hcount|].
  assert (Hbound : n <= length (records_of (history self) (user_id ev))).
  { unfold count_in_window in Hcount. apply bind_returns in Hcount as (recent & Hr & Hn).
    inversion Hn. exact (filter_raising_length _ _ _ Hr). }
  match type of Hnoise with noise_check _ _ _ (frequency_check _ _ ?v) = _ =>
    set (ruled := v) in * end.
  assert (Hruled : v_explanation_code ruled <> Some "FREQUENCY_LIMIT").
  { subst ruled.
    match goal with |- context [apply_rules now self ev ?v] =>
      destruct (apply_rules_cases now self ev v) as [->|[-> _]] end; [|discriminate].
    cbn [v_explanation_code]. intros Hc. injection Hc as Hc.
    pose proof (classify_code_values (llm self) ev) as Hvalues. rewrite Hc in Hvalues.
    destruct (simulate_failure (llm self)); cbn in Hvalues;
      repeat destruct Hvalues as [Hvalues|Hvalues]; try discriminate; exact Hvalues. }
  unfold frequency_check in Hnoise.
  destruct (FREQUENCY_LIMIT <=? n) eqn:Hlimit.
  - apply Nat.leb_le in Hlimit.
    destruct (String.eqb (current_decision ruled) "NOW") eqn:Hnow.
    + cbn in Hnoise. inversion Hnoise. subst v2. clear Hnoise.
      unfold schedule in Hschedule. cbn in Hschedule.
      apply bind_returns in Hschedule as (sched & Hsched & Hschedule).
      unfold compute_scheduled_time, scheduled_for in Hsched.
      assert (Hno : opt_str_eqb (Some "FREQUENCY_LIMIT") (Some "RULE_OVERRIDE") = false)
        by reflexivity.
      assert (Hyes : opt_str_eqb (Some "FREQUENCY_LIMIT") (Some "FREQUENCY_LIMIT") = true)
        by reflexivity.
      rewrite Hno, Hyes in Hsched.
      assert (Hmax : Z.max 1 (Z.of_nat n - 3) = (Z.of_nat n - 3)%Z)
        by (unfold FREQUENCY_LIMIT in Hlimit; lia).
      rewrite Hmax in Hsched.
      destruct sched as [[|text]|]; inversion Hschedule; subst v' time; cbn in Hcode;
        try discriminate.
      * cbn. split; [lia|]. split; [reflexivity|].
        destruct (expires_at ev) as [expires|]; [|congruence].
        apply bind_returns in Hsched as (late & _ & Hsched). destruct late; congruence.
      * exfalso. destruct (expires_at ev) as [expires|]; [|discriminate].
        apply bind_returns in Hsched as (late & _ & Hsched). destruct late; discriminate.
    + exfalso.
      assert (Hv2 : v_explanation_code v2 <> Some "FREQUENCY_LIMIT").
      { destruct (String.eqb (current_decision ruled) "LATER" && _).
        - cbn in Hnoise. inversion Hnoise. discriminate.
        - unfold noise_check in Hnoise. rewrite Hnow in Hnoise. inversion Hnoise.
          subst v2. exact Hruled. }
      unfold schedule in Hschedule.
      destruct (String.eqb (current_decision v2) "LATER");
        [|inversion Hschedule; subst; contradiction].
      apply bind_returns in Hschedule as (sched & _ & Hschedule).
      destruct sched as [[|text]|]; inversion Hschedule; subst; cbn in Hcode;
        try discriminate; contradiction.
  - exfalso.
    assert (Hv2 : v_explanation_code v2 <> Some "FREQUENCY_LIMIT").
    { unfold noise_check in Hnoise.
      destruct (String.eqb (current_decision ruled) "NOW");
        [|inversion Hnoise; subst v2; exact Hruled].
      apply bind_returns in Hnoise as (urgent & _ & Hnoise).
      destruct (NOISE_LIMIT_MAX_URGENT <=? urgent); inversion Hnoise; subst v2;
        [discriminate | exact Hruled]. }
    unfold schedule in Hschedule.
    destruct (String.eqb (current_decision v2) "LATER");
      [|inversion Hschedule; subst; contradiction].
    apply bind_returns in Hschedule as (sched & _ & Hschedule).
    destruct sched as [[|text]|]; inversion Hschedule; subst; cbn in Hcode;
      try discriminate; contradiction.
Qed.

(** *** Rule identifiers *)

Lemma classify_code_is_no_override (self : LLMClassifier) (ev : event) :
  llm_classifier.explanation_code (fst (classify self ev)) <> "RULE_OVERRIDE".
Proof.
  unfold classify. cbn [simulate_failure].
  destruct (simulate_failure self); cbn [fst]; [discriminate|].
  destruct (_llm_classify_code ev) as [[Hc|[Hc _]] _]; rewrite Hc; discriminate.
Qed.

(** X25. The [matched_rule_id] of a returned record is empty, and then the
    code is not RULE_OVERRIDE, or it is the id (["unknown"] without one) of
    a rule of the engine that matches the validated event. *)
Theorem matched_rule_id_names_a_matching_rule (now : Z) (uuid : string)
    (self : DecisionEngine) (raw : raw_input) (out : output_record) :
  fst (process_event now uuid self raw) = Return out ->
  (logger.matched_rule_id out = None
   /\ logger.explanation_code out <> Some "RULE_OVERRIDE")
  \/ (exists ev r,
        validate_event uuid raw = inr ev
        /\ In r (rule_engine.rules (rules self))
        /\ rule_engine._matches_rule ev r = true
        /\ logger.matched_rule_id out = Some (default "unknown" (rule_engine.id r))).
Proof.
  intros Hout. destruct (validate_event uuid raw) as [e|ev] eqn:Hv.
  { rewrite (process_event_invalid _ _ _ _ _ Hv) in Hout. inversion Hout.
    left. split; [reflexivity | discriminate]. }
  destruct (process_event_returned _ _ _ _ _ _ Hv Hout) as (o & Ho & Hp).
  rewrite Hp in Hout. inversion Hout. cbn. clear Hout Hp.
  unfold outcome_of in Ho. apply bind_returns in Ho as (dup & Hcheck & Ho).
  destruct (is_duplicate dup) eqn:Hdup.
  { inversion Ho. cbn. left. split; [reflexivity|].
    destruct (check_duplicate_type _ _ _ _ _ Hcheck Hdup) as [-> | ->]; discriminate. }
  apply bind_returns in Ho as ([v' time] & Hdecide & Ho). inversion Ho.
  cbn [o_matched_rule_id o_explanation_code fst]. unfold decide in Hdecide.
  apply bind_returns in Hdecide as (n & _ & Hdecide).
  apply bind_returns in Hdecide as (v2 & Hnoise & Hschedule).
  set (v0 := {| current_decision := label (fst (classify (llm self) ev));
                v_explanation_code :=
                  Some (llm_classifier.explanation_code (fst (classify (llm self) ev)));
                v_reason := ModelOutput (raw_output (fst (classify (llm self) ev)));
                v_matched_rule_id := None |}) in *.
  set (named := fun v : verdict =>
         (v_matched_rule_id v = None /\ v_explanation_code v <> Some "RULE_OVERRIDE")
         \/ (exists r, In r (rule_engine.rules (rules self))
                       /\ rule_engine._matches_rule ev r = true
                       /\ v_matched_rule_id v = Some (default "unknown" (rule_engine.id r)))).
  assert (Hruled : named (apply_rules now self ev v0)).
  { destruct (apply_rules_cases now self ev v0) as [->|(_ & m & Hin & Hid)].
    - left. split; [reflexivity|]. cbn. intros Hc. injection Hc as Hc.
      exact (classify_code_is_no_override _ _ Hc).
    - right. unfold rule_engine.match_rules in Hin.
      apply in_map_iff in Hin as (r & <- & Hr). apply filter_In in Hr as [Hr Hm].
      exists r. repeat split; assumption. }
  assert (Hchecked : named (frequency_check ev n (apply_rules now self ev v0))).
  { revert Hruled. generalize (apply_rules now self ev v0). intros v. unfold frequency_check.
    repeat match goal with |- context [if ?b then _ else _] => destruct b end;
      try (intros Hv1; exact Hv1);
      (intros [[Hid _]|Hr]; [left; split; [exact Hid | discriminate] | right; exact Hr]). }
  assert (Hquiet : named v2).
  { revert Hchecked Hnoise. generalize (frequency_check ev n (apply_rules now self ev v0)).
    intros v Hv1. unfold noise_check.
    destruct (String.eqb (current_decision v) "NOW");
      [|intros Hn; inversion Hn; subst; exact Hv1].
    intros Hn. apply bind_returns in Hn as (urgent & _ & Hn).
    destruct (NOISE_LIMIT_MAX_URGENT <=? urgent); inversion Hn; subst; [|exact Hv1].
    destruct Hv1 as [[Hid _]|Hr]; [left; split; [exact Hid | discriminate] | right; exact Hr]. }
  assert (Hdone : named v').
  { revert Hschedule. unfold schedule.
    destruct (String.eqb (current_decision v2) "LATER");
      [|intros Hs; inversion Hs; subst; exact Hquiet].
    intros Hs. apply bind_returns in Hs as (sched & _ & Hs).
    destruct sched as [[|text]|]; inversion Hs; subst; try exact Hquiet.
    destruct Hquiet as [[Hid _]|Hr]; [left; split; [exact Hid | discriminate] | right; exact Hr]. }
  destruct Hdone as [Hnone|(r & Hin & Hm & Hid)]; [left; exact Hnone|].
  right. exists ev, r. repeat split; assumption.
Qed.

(** *** The failure switch *)

(** The code of an outcome is the classifier's, or one set by a later step. *)
Lemma outcome_code_origin (now : Z) (self : DecisionEngine) (ev : event) (o : outcome) :
  outcome_of now self ev = Return o ->
  o_explanation_code o
  = Some (llm_classifier.explanation_code (fst (classify (llm self) ev)))
  \/ In (o_explanation_code o)
        [Some "DUPLICATE_DEDUPE_KEY"; Some "DUPLICATE_TEXT_SIMILAR"; Some "RULE_OVERRIDE";
         Some "FREQUENCY_LIMIT"; Some "FREQUENCY_SUPPRESSION";
         Some "CONFLICT_NOISE_LIMIT"; Some "EXPIRED"].
Proof.
  unfold outcome_of. intros Ho. apply bind_returns in Ho as (dup & Hcheck & Ho).
  destruct (is_duplicate dup) eqn:Hdup.
  { inversion Ho. cbn [o_explanation_code]. right.
    destruct (check_duplicate_type _ _ _ _ _ Hcheck Hdup) as [-> | ->]; cbn; tauto. }
  apply bind_returns in Ho as ([v' time] & Hdecide & Ho). inversion Ho.
  cbn [o_explanation_code fst]. unfold decide in Hdecide.
  apply bind_returns in Hdecide as (n & _ & Hdecide).
  apply bind_returns in Hdecide as (v2 & Hnoise & Hschedule).
  set (given := Some (llm_classifier.explanation_code (fst (classify (llm self) ev)))) in *.
  set (origin := fun v : verdict =>
         v_explanation_code v = given
         \/ In (v_explanation_code v)
               [Some "DUPLICATE_DEDUPE_KEY"; Some "DUPLICATE_TEXT_SIMILAR";
                Some "RULE_OVERRIDE"; Some "FREQUENCY_LIMIT"; Some "FREQUENCY_SUPPRESSION";
                Some "CONFLICT_NOISE_LIMIT"; Some "EXPIRED"]).
  match type of Hnoise with noise_check _ _ _ (frequency_check _ _ ?v) = _ =>
    set (ruled := v) in * end.
  assert (Hruled : origin ruled).
  { subst ruled.
    match goal with |- context [apply_rules now self ev ?v] =>
      destruct (apply_rules_cases now self ev v) as [->|[Hcode _]] end.
    - left. reflexivity.
    - right. rewrite Hcode. cbn. tauto. }
  assert (Hchecked : origin (frequency_check ev n ruled)).
  { unfold frequency_check.
    repeat match goal with |- context [if ?b then _ else _] => destruct b end;
      try exact Hruled; right; cbn; tauto. }
  assert (Hquiet : origin v2).
  { revert Hchecked Hnoise. generalize (frequency_check ev n ruled). intros v Hv.
    unfold noise_check.
    destruct (String.eqb (current_decision v) "NOW");
      [|intros Hn; inversion Hn; subst; exact Hv].
    intros Hn. apply bind_returns in Hn as (urgent & _ & Hn).
    destruct (NOISE_LIMIT_MAX_URGENT <=? urgent); inversion Hn; subst; [|exact Hv].
    right. cbn. tauto. }
  revert Hschedule. unfold schedule.
  destruct (String.eqb (current_decision v2) "LATER");
    [|intros Hs; inversion Hs; subst; exact Hquiet].
  intros Hs. apply bind_returns in Hs as (sched & _ & Hs).
  destruct sched as [[|text]|]; inversion Hs; subst; try exact Hquiet.
  right. cbn. tauto.
Qed.

(** X26. [set_llm_failure] sets the classifier's switch and nothing else.
    With the switch on no returned record carries LLM_DECISION or
    URGENT_KEYWORD; with it off none carries FALLBACK. *)
Theorem failure_switch_selects_the_classifier (now : Z) (uuid : string)
    (self : DecisionEngine) (enabled : bool) (raw : raw_input) (out : output_record) :
  fst (process_event now uuid (set_llm_failure self enabled) raw) = Return out ->
  simulate_failure (llm (set_llm_failure self enabled)) = enabled
  /\ history (set_llm_failure self enabled) = history self
  /\ rules (set_llm_failure self enabled) = rules self
  /\ logger (set_llm_failure self enabled) = logger self
  /\ if enabled
     then logger.explanation_code out <> Some "LLM_DECISION"
          /\ logger.explanation_code out <> Some "URGENT_KEYWORD"
     else logger.explanation_code out <> Some "FALLBACK".
Proof.
  intros Hout. repeat (split; [reflexivity|]).
  destruct (validate_event uuid raw) as [e|ev] eqn:Hv.
  { rewrite (process_event_invalid _ _ _ _ _ Hv) in Hout. inversion Hout. cbn.
    destruct enabled; [split|]; discriminate. }
  destruct (process_event_returned _ _ _ _ _ _ Hv Hout) as (o & Ho & Hp).
  rewrite Hp in Hout. inversion Hout. cbn. clear Hout Hp.
  pose proof (classify_code_values (llm (set_llm_failure self enabled)) ev) as Hvalues.
  destruct (outcome_code_origin _ _ _ _ Ho) as [-> | Hother].
  - change (simulate_failure (llm (set_llm_failure self enabled))) with enabled in Hvalues.
    destruct enabled.
    + destruct Hvalues as [Hc|[]]. rewrite <- Hc. split; discriminate.
    + destruct Hvalues as [Hc|[Hc|[]]]; rewrite <- Hc; discriminate.
  - cbn in Hother.
    repeat destruct Hother as [<-|Hother]; try contradiction;
      destruct enabled; try split; discriminate.
Qed.

(** *** Calls that return *)






End engine.

(** ** Batches *)

Section batches.
Context `{L : PyLib}.

Lemma process_event_step (now : Z) (uuid : string) (self : DecisionEngine)
    (raw : raw_input) (out : output_record) :
  rules_labelled (rule_engine.rules (rules self)) = true ->
  fst (process_event now uuid self raw) = Return out ->
  is_label (logger.decision out) = true
  /\ length (logs (logger (snd (process_event now uuid self raw))))
     = length (logs (logger self)) + (if is_error_record out then 0 else 1).
Proof.
  intros Hrules Hout. destruct (validate_event uuid raw) as [e|ev] eqn:Hv.
  - rewrite (process_event_invalid _ _ _ _ _ Hv) in *. inversion Hout. cbn.
    split; [reflexivity | lia].
  - destruct (process_event_returned _ _ _ _ _ _ Hv Hout) as (o & Ho & Hp).
    rewrite Hp in *. inversion Hout. cbn.
    split; [exact (outcome_label _ _ _ _ Hrules Ho)|].
    destruct (outcome_fits _ _ _ _ Ho) as (code & -> & Hallows).
    rewrite length_app. cbn [length]. unfold is_error_record. cbn.
    destruct (String.eqb code "VALIDATION_ERROR") eqn:Hcode; [|reflexivity].
    apply String.eqb_eq in Hcode. subst code. discriminate.
Qed.

Lemma process_batch_returned (events : list raw_input) :
  forall (clock : list Z) (uuids : list string) (self : DecisionEngine)
         (results : list output_record),
    length events <= length clock ->
    length events <= length uuids ->
    rules_labelled (rule_engine.rules (rules self)) = true ->
    fst (process_batch clock uuids self events) = Return results ->
    length results = length events
    /\ Forall (fun r => is_label (logger.decision r) = true) results
    /\ length (logs (logger (snd (process_batch clock uuids self events))))
       = length (logs (logger self))
         + length (List.filter (fun r => negb (is_error_record r)) results).
Proof.
  induction events as [|raw rest IH]; intros clock uuids self results Hclock Huuids Hrules.
  - destruct clock; cbn; intros Hr; inversion Hr; cbn; (repeat split; [constructor | lia]).
  - destruct clock as [|now clock]; [cbn in Hclock; lia|].
    destruct uuids as [|uuid uuids]; [cbn in Huuids; lia|].
    cbn [process_batch length] in *.
    pose proof (process_event_step now uuid self raw) as Hone.
    pose proof (process_event_rules now uuid self raw) as Hsame.
    destruct (process_event now uuid self raw) as [[out|e] self1]; [|discriminate].
    cbn [fst snd] in Hone, Hsame.
    destruct (Hone out Hrules eq_refl) as [Hlabel Hlogs].
    specialize (IH clock uuids self1).
    destruct (process_batch clock uuids self1 rest) as [[outs|e] self2];
      [|discriminate].
    cbn [fst snd] in *. intros Hr. inversion Hr. subst results.
    destruct (IH outs) as (Hlen & Hall & Hlogs'); [lia | lia | congruence | reflexivity |].
    cbn [length List.filter]. split; [lia|]. split; [constructor; assumption|].
    rewrite Hlogs', Hlogs. destruct (is_error_record out); cbn [negb length]; lia.
Qed.

Lemma labelled_counts (results : list output_record) :
  Forall (fun r => is_label (logger.decision r) = true) results ->
  app.count_decision "NOW" results + app.count_decision "LATER" results
  + app.count_decision "NEVER" results = length results.
Proof.
  unfold app.count_decision.
  induction 1 as [|r rest Hr _ IH]; [reflexivity|]. cbn [List.filter].
  unfold is_label, str_in in Hr. cbn [existsb] in Hr.
  destruct (String.eqb (logger.decision r) "NOW") eqn:Hnow,
           (String.eqb (logger.decision r) "LATER") eqn:Hlater,
           (String.eqb (logger.decision r) "NEVER") eqn:Hnever;
    try discriminate;
    rewrite ?String.eqb_eq in *; try congruence; cbn [length]; lia.
Qed.

(** X29. When [process_events] answers a batch with rules whose decisions
    are labels, the summary adds up: [total] is the number of posted events,
    [now + later + never = total], and the returned log holds one entry for
    every result that is no validation error.  An empty batch never gets
    this answer. *)
Theorem processed_batch_summary_adds_up (clock : list Z) (uuids : list string)
    (engine : DecisionEngine) (events : list raw_input)
    (results : list output_record) (entries : list log_entry) (s : app.summary) :
  length events <= length clock ->
  length events <= length uuids ->
  rules_labelled (rule_engine.rules (rules engine)) = true ->
  fst (app.process_events clock uuids engine events)
  = Return (app.Processed results entries s) ->
  events <> []
  /\ app.total s = length events
  /\ app.now s + app.later s + app.never s = app.total s
  /\ length entries = length (List.filter (fun r => negb (is_error_record r)) results).
Proof.
  intros Hclock Huuids Hrules. unfold app.process_events.
  destruct events as [|raw rest]; [discriminate|].
  pose proof (process_batch_returned (raw :: rest) clock uuids (reset engine)) as Hbatch.
  destruct (process_batch clock uuids (reset engine) (raw :: rest)) as [[outs|e] left];
    [|discriminate].
  cbn [fst snd] in *. intros Hr. inversion Hr. subst.
  cbn [app.total app.now app.later app.never].
  destruct (Hbatch _ Hclock Huuids Hrules eq_refl) as (Hlen & Hall & Hlogs).
  split; [discriminate|].
  split; [exact Hlen|]. split; [apply labelled_counts; exact Hall|].
  exact Hlogs.
Qed.



End batches.

(** ** The further properties at concrete runs *)

Section further_runs.
Import examples.

(** Five alerts in a row at 09:02: the first two are delivered, the others
    are held back by the noise limit; the sixth is held back by the
    frequency limit, ten minutes after its timestamp. *)
Example alert_storm :
  List.map decision_and_code
    (List.map Return
       (match fst (process_batch (repeat at_09_02 5) (repeat "uuid" 5) plain_engine alerts)
        with Return results => results | Raise _ => [] end))
  = [Return ("NOW", Some "URGENT_KEYWORD"); Return ("NOW", Some "URGENT_KEYWORD");
     Return ("LATER", Some "CONFLICT_NOISE_LIMIT");
     Return ("LATER", Some "CONFLICT_NOISE_LIMIT");
     Return ("LATER", Some "CONFLICT_NOISE_LIMIT")]
  /\ decision_and_code
       (fst (process_event at_09_02 "uuid-6" engine_after_alerts (RawDict sixth_alert)))
     = Return ("LATER", Some "FREQUENCY_LIMIT").
Proof. vm_compute. split; reflexivity. Qed.

(** X13, at a downgrading rule followed by the rule that forces MAYBE. *)
Lemma forced_decision_overrides_earlier_downgrades_witness :
  Forall (passes_on at_09_01 otp_validated (Some (history engine_after_otp)))
    [downgrade_match]
  /\ rule_engine.force_decision (rule_engine.matched_action maybe_match) = Some "MAYBE"
  /\ rule_engine.apply_actions at_09_01 otp_validated
       ([downgrade_match] ++ maybe_match :: []) "NOW" (Some (history engine_after_otp))
     = {| rule_engine.decision := "MAYBE";
          rule_engine.explanation_code := Some "RULE_OVERRIDE";
          rule_engine.matched_rule_id := Some (rule_engine.rule_id maybe_match);
          rule_engine.reason :=
            Some (rule_engine.RuleForced (rule_engine.rule_id maybe_match)
                    (default ""
                       (rule_engine.description (rule_engine.matched_rule maybe_match)))) |}.
Proof.
  assert (Hbefore : Forall (passes_on at_09_01 otp_validated
                              (Some (history engine_after_otp))) [downgrade_match])
    by (constructor; [split; [reflexivity | exact I] | constructor]).
  assert (Hforced : rule_engine.force_decision (rule_engine.matched_action maybe_match)
                    = Some "MAYBE") by reflexivity.
  split; [exact Hbefore|]. split; [exact Hforced|].
  exact (forced_decision_overrides_earlier_downgrades at_09_01 otp_validated
           (Some (history engine_after_otp)) [downgrade_match] maybe_match [] "MAYBE" "NOW"
           Hbefore Hforced).
Defined.


(** X20, at the OTP message for u2 after a message for u5. *)
Lemma events_of_other_users_do_not_interfere_witness :
  validate_event "uuid-2" (RawDict otp_event) = inr otp_validated
  /\ (forall ev', validate_event "uuid-1" (RawDict punctuation_event) = inr ev' ->
                  user_id ev' <> user_id otp_validated)
  /\ fst (process_event at_09_02 "uuid-2"
            (snd (process_event at_09_01 "uuid-1" plain_engine (RawDict punctuation_event)))
            (RawDict otp_event))
     = fst (process_event at_09_02 "uuid-2" plain_engine (RawDict otp_event)).
Proof.
  assert (Hv : validate_event "uuid-2" (RawDict otp_event) = inr otp_validated)
    by (vm_compute; reflexivity).
  assert (Hother : forall ev', validate_event "uuid-1" (RawDict punctuation_event) = inr ev' ->
                               user_id ev' <> user_id otp_validated).
  { intros ev' Hv'. vm_compute in Hv'. injection Hv' as <-. discriminate. }
  split; [exact Hv|]. split; [exact Hother|].
  exact (events_of_other_users_do_not_interfere at_09_02 at_09_01 "uuid-2" "uuid-1"
           plain_engine (RawDict otp_event) (RawDict punctuation_event) otp_validated
           Hv Hother).
Defined.

(** X22, at the OTP message deferred by a rule. *)
Lemma explanation_code_fits_decision_witness :
  exists out,
    fst (process_event at_09_01 "uuid-1" defer_engine (RawDict otp_event)) = Return out
    /\ match validate_event "uuid-1" (RawDict otp_event) with
       | inl _ =>
           logger.explanation_code out = Some "VALIDATION_ERROR"
           /\ logger.decision out = "NEVER"
       | inr _ =>
           exists code,
             logger.explanation_code out = Some code
             /\ code_allows code (logger.decision out) = true
       end.
Proof.
  destruct (fst (process_event at_09_01 "uuid-1" defer_engine (RawDict otp_event)))
    as [out|e] eqn:Hout; [|vm_compute in Hout; discriminate].
  exists out. split; [reflexivity|].
  exact (explanation_code_fits_decision at_09_01 "uuid-1" defer_engine (RawDict otp_event)
           out Hout).
Defined.

(** X23, at the sixth alert within two minutes. *)
Lemma fatigue_limits_block_now_witness :
  validate_event "uuid-6" (RawDict sixth_alert) = inr sixth_alert_validated
  /\ count_in_window at_09_02 (history engine_after_alerts) (user_id sixth_alert_validated)
       FREQUENCY_WINDOW_MINUTES = Return 5
  /\ FREQUENCY_LIMIT <= 5
  /\ exists out,
       fst (process_event at_09_02 "uuid-6" engine_after_alerts (RawDict sixth_alert))
       = Return out
       /\ String.eqb (logger.decision out) "NOW" = false.
Proof.
  assert (Hv : validate_event "uuid-6" (RawDict sixth_alert) = inr sixth_alert_validated)
    by (vm_compute; reflexivity).
  assert (Hcount : count_in_window at_09_02 (history engine_after_alerts)
                     (user_id sixth_alert_validated) FREQUENCY_WINDOW_MINUTES = Return 5)
    by (vm_compute; reflexivity).
  assert (Hlimit : FREQUENCY_LIMIT <= 5) by (unfold FREQUENCY_LIMIT; lia).
  split; [exact Hv|]. split; [exact Hcount|]. split; [exact Hlimit|].
  destruct (fst (process_event at_09_02 "uuid-6" engine_after_alerts (RawDict sixth_alert)))
    as [out|e] eqn:Hout; [|vm_compute in Hout; discriminate].
  exists out. split; [reflexivity|].
  exact (fatigue_limits_block_now at_09_02 "uuid-6" engine_after_alerts
           (RawDict sixth_alert) sixth_alert_validated out Hv Hout
           (or_introl (ex_intro _ 5 (conj Hcount Hlimit)))).
Defined.

(** X24, at the sixth alert: five records in the window, ten minutes. *)
Lemma frequency_backoff_is_linear_witness :
  validate_event "uuid-6" (RawDict sixth_alert) = inr sixth_alert_validated
  /\ exists out,
       fst (process_event at_09_02 "uuid-6" engine_after_alerts (RawDict sixth_alert))
       = Return out
       /\ logger.explanation_code out = Some "FREQUENCY_LIMIT"
       /\ exists recent,
            count_in_window at_09_02 (history engine_after_alerts)
              (user_id sixth_alert_validated) FREQUENCY_WINDOW_MINUTES = Return recent
            /\ FREQUENCY_LIMIT <= recent
               <= length (records_of (history engine_after_alerts)
                            (user_id sixth_alert_validated))
            /\ logger.decision out = "LATER"
            /\ logger.scheduled_time out
               = Some (isoformat
                         (dt_add (parsed_timestamp sixth_alert_validated)
                            (timedelta_minutes
                               (BASE_BACKOFF_MINUTES * (Z.of_nat recent - 3))))).
Proof.
  assert (Hv : validate_event "uuid-6" (RawDict sixth_alert) = inr sixth_alert_validated)
    by (vm_compute; reflexivity).
  split; [exact Hv|].
  destruct (fst (process_event at_09_02 "uuid-6" engine_after_alerts (RawDict sixth_alert)))
    as [out|e] eqn:Hout; [|vm_compute in Hout; discriminate].
  assert (Hcode : logger.explanation_code out = Some "FREQUENCY_LIMIT").
  { pose proof Hout as Hrun. vm_compute in Hrun. injection Hrun as Hrun.
    rewrite <- Hrun. reflexivity. }
  exists out. split; [reflexivity|]. split; [exact Hcode|].
  exact (frequency_backoff_is_linear at_09_02 "uuid-6" engine_after_alerts
           (RawDict sixth_alert) sixth_alert_validated out Hv Hout Hcode).
Defined.

(** X25, at the OTP message deferred by the rule r-defer. *)
Lemma matched_rule_id_names_a_matching_rule_witness :
  exists out,
    fst (process_event at_09_01 "uuid-1" defer_engine (RawDict otp_event)) = Return out
    /\ ((logger.matched_rule_id out = None
         /\ logger.explanation_code out <> Some "RULE_OVERRIDE")
        \/ (exists ev r,
              validate_event "uuid-1" (RawDict otp_event) = inr ev
              /\ In r (rule_engine.rules (rules defer_engine))
              /\ rule_engine._matches_rule ev r = true
              /\ logger.matched_rule_id out
                 = Some (default "unknown" (rule_engine.id r)))).
Proof.
  destruct (fst (process_event at_09_01 "uuid-1" defer_engine (RawDict otp_event)))
    as [out|e] eqn:Hout; [|vm_compute in Hout; discriminate].
  exists out. split; [reflexivity|].
  exact (matched_rule_id_names_a_matching_rule at_09_01 "uuid-1" defer_engine
           (RawDict otp_event) out Hout).
Defined.

(** X26, at the OTP message with the switch on. *)
Lemma failure_switch_selects_the_classifier_witness :
  exists out,
    fst (process_event at_09_01 "uuid-1" (set_llm_failure plain_engine true)
           (RawDict otp_event)) = Return out
    /\ simulate_failure (llm (set_llm_failure plain_engine true)) = true
    /\ history (set_llm_failure plain_engine true) = history plain_engine
    /\ rules (set_llm_failure plain_engine true) = rules plain_engine
    /\ logger (set_llm_failure plain_engine true) = logger plain_engine
    /\ logger.explanation_code out <> Some "LLM_DECISION"
    /\ logger.explanation_code out <> Some "URGENT_KEYWORD".
Proof.
  destruct (fst (process_event at_09_01 "uuid-1" (set_llm_failure plain_engine true)
                   (RawDict otp_event)))
    as [out|e] eqn:Hout; [|vm_compute in Hout; discriminate].
  exists out. split; [reflexivity|].
  exact (failure_switch_selects_the_classifier at_09_01 "uuid-1" plain_engine true
           (RawDict otp_event) out Hout).
Defined.



(** X29, at a batch of the OTP message and an input that is no object. *)
Lemma processed_batch_summary_adds_up_witness :
  length [RawDict otp_event; RawNotDict] <= length [at_09_01; at_09_02]
  /\ length [RawDict otp_event; RawNotDict] <= length ["uuid-1"; "uuid-2"]
  /\ rules_labelled (rule_engine.rules (rules engine_after_otp)) = true
  /\ exists results entries s,
       fst (app.process_events [at_09_01; at_09_02] ["uuid-1"; "uuid-2"] engine_after_otp
              [RawDict otp_event; RawNotDict])
       = Return (app.Processed results entries s)
       /\ [RawDict otp_event; RawNotDict] <> []
       /\ app.total s = length [RawDict otp_event; RawNotDict]
       /\ app.now s + app.later s + app.never s = app.total s
       /\ length entries
          = length (List.filter (fun r => negb (is_error_record r)) results).
Proof.
  assert (Hclock : length [RawDict otp_event; RawNotDict] <= length [at_09_01; at_09_02])
    by (cbn; lia).
  assert (Huuids : length [RawDict otp_event; RawNotDict] <= length ["uuid-1"; "uuid-2"])
    by (cbn; lia).
  assert (Hrules : rules_labelled (rule_engine.rules (rules engine_after_otp)) = true)
    by (vm_compute; reflexivity).
  split; [exact Hclock|]. split; [exact Huuids|]. split; [exact Hrules|].
  destruct (fst (app.process_events [at_09_01; at_09_02] ["uuid-1"; "uuid-2"]
                   engine_after_otp [RawDict otp_event; RawNotDict]))
    as [[error|results entries s]|e] eqn:Hrun;
    [vm_compute in Hrun; discriminate | | vm_compute in Hrun; discriminate].
  exists results, entries, s. split; [reflexivity|].
  exact (processed_batch_summary_adds_up [at_09_01; at_09_02] ["uuid-1"; "uuid-2"]
           engine_after_otp [RawDict otp_event; RawNotDict] results entries s
           Hclock Huuids Hrules Hrun).
Defined.


End further_runs.
